(** * centrifuge-python: the connection and subscription lifecycle engine

    A shallow embedding of [centrifuge/client.py]: the client and
    subscription state machines, the command/reply registry with its
    "done" barrier, and the asyncio coroutines that drive them.

    - Synchronous stretches of Python (code between two suspension points)
      are functions of the state-and-exception monad [M] over [World].
    - Coroutines ([async def]) are terms of the resumption monad [Co]:
      a coroutine runs [Step]s until it blocks on a future or a queue, or
      performs an external call ([Ext]: user handlers, token providers and
      the websocket transport), where the event loop may run other tasks.
    - Objects that Python shares by reference (futures, timers,
      subscriptions, connections, queues) live in heaps of [World] and are
      named by their index, so aliasing is explicit. *)

From Stdlib Require Import ZArith List String Bool Lia QArith RelationClasses.
Import ListNotations.
Local Open Scope Z_scope.

Set Implicit Arguments.
Set Warnings "-register-all".

(** ** Python dictionaries

    [Dict[K, V]] keeps insertion order: assignment to an existing key
    updates the value in place, assignment to a new key appends, [del]
    removes.  [keys] and [values] iterate in that order. *)

Section Dict.
Variables (K V : Type) (eqb : K -> K -> bool).

Definition dict := list (K * V).

Fixpoint dict_get (d : dict) (k : K) : option V :=
  match d with
  | [] => None
  | (k', v) :: d' => if eqb k k' then Some v else dict_get d' k
  end.

Fixpoint dict_set (d : dict) (k : K) (v : V) : dict :=
  match d with
  | [] => [(k, v)]
  | (k', v') :: d' =>
      if eqb k k' then (k', v) :: d' else (k', v') :: dict_set d' k v
  end.

Fixpoint dict_del (d : dict) (k : K) : dict :=
  match d with
  | [] => []
  | (k', v') :: d' => if eqb k k' then d' else (k', v') :: dict_del d' k
  end.

Definition dict_keys (d : dict) : list K := map fst d.
Definition dict_values (d : dict) : list V := map snd d.
Definition dict_mem (d : dict) (k : K) : bool :=
  match dict_get d k with Some _ => true | None => false end.
End Dict.

(** ** Heaps of shared objects *)

Section Heap.
Variable A : Type.

Fixpoint heap_set (h : list A) (i : nat) (x : A) : list A :=
  match h, i with
  | [], _ => []
  | _ :: h', O => x :: h'
  | y :: h', S i' => y :: heap_set h' i' x
  end.

Definition heap_alloc (h : list A) (x : A) : list A * nat :=
  (h ++ [x], List.length h).

(** Updating the object at [i] in place. *)
Definition heap_update (h : list A) (i : nat) (f : A -> A) : list A :=
  match nth_error h i with
  | Some x => heap_set h i (f x)
  | None => h
  end.
End Heap.

(** ** Enumerations of the source *)

Inductive ClientState := DISCONNECTED | CONNECTING | CONNECTED.
Inductive SubscriptionState := UNSUBSCRIBED | SUBSCRIBING | SUBSCRIBED.

Definition ClientState_eqb (a b : ClientState) : bool :=
  match a, b with
  | DISCONNECTED, DISCONNECTED | CONNECTING, CONNECTING
  | CONNECTED, CONNECTED => true
  | _, _ => false
  end.

Definition SubscriptionState_eqb (a b : SubscriptionState) : bool :=
  match a, b with
  | UNSUBSCRIBED, UNSUBSCRIBED | SUBSCRIBING, SUBSCRIBING
  | SUBSCRIBED, SUBSCRIBED => true
  | _, _ => false
  end.

(** [websockets.protocol.State] *)
Inductive WsState := WS_CONNECTING | WS_OPEN | WS_CLOSING | WS_CLOSED.

(** The members of [centrifuge.codes] that [client.py] names.  The module
    itself is not part of the sources at hand: the numbers and messages
    behind the members are parameters of the development
    ([_code_number], [_code_message] below). *)
Inductive Code :=
| ConnectingCode_CONNECT_CALLED
| ConnectingCode_TRANSPORT_CLOSED
| ConnectingCode_NO_PING
| ConnectingCode_UNSUBSCRIBE_ERROR
| DisconnectedCode_DISCONNECT_CALLED
| DisconnectedCode_UNAUTHORIZED
| DisconnectedCode_MESSAGE_SIZE_LIMIT
| ErrorCode_TIMEOUT
| ErrorCode_TRANSPORT_CLOSED
| ErrorCode_CLIENT_CONNECT_TOKEN
| ErrorCode_CLIENT_REFRESH_TOKEN
| ErrorCode_CONNECT_REPLY_ERROR
| ErrorCode_SUBSCRIBE_REPLY_ERROR
| ErrorCode_SUBSCRIPTION_SUBSCRIBE_TOKEN
| ErrorCode_SUBSCRIPTION_REFRESH_TOKEN
| SubscribingCode_SUBSCRIBE_CALLED
| SubscribingCode_TRANSPORT_CLOSED
| UnsubscribedCode_UNSUBSCRIBE_CALLED
| UnsubscribedCode_UNAUTHORIZED.

(** ** References into the heaps *)

Definition FutId := nat.
Definition TimerId := nat.
Definition SubId := nat.
Definition ConnId := nat.
Definition QueueId := nat.

(** ** Exceptions *)

(** The two messages [ClientDisconnectedError] is raised with, kept
    structured: [f"command {cmd_id} canceled due to disconnect"] and
    [f"client disconnected: {code} ({reason})"]. *)
Inductive DisconnectNote :=
| command_canceled (cmd_id : Z)
| client_disconnected (code : Z) (reason : string).

Inductive Exc :=
| OperationTimeoutError
| ClientDisconnectedError (note : DisconnectNote)
| SubscriptionUnsubscribedError
| CentrifugeError (msg : string)
| DuplicateSubscriptionError (channel : string)
| ReplyError (code : Z) (message : string) (temporary : bool)
| UnauthorizedError
| InvalidStateError            (* asyncio: result set on a done future *)
| KeyError
| AttributeError               (* attribute access on None *)
| ConnectionClosed             (* websockets *)
| OSError
| OtherError (msg : string).

(** Modelled from the spec: [centrifuge.exceptions] is not part of the
    sources at hand.  The spec lists the library's error kinds next to "a
    generic CentrifugeError"; they are taken as its subclasses, which is
    what [contextlib.suppress(CentrifugeError)] relies on. *)
Definition is_CentrifugeError (e : Exc) : bool :=
  match e with
  | OperationTimeoutError | ClientDisconnectedError _
  | SubscriptionUnsubscribedError | CentrifugeError _
  | DuplicateSubscriptionError _ | ReplyError _ _ _ | UnauthorizedError => true
  | _ => false
  end.

Definition is_OperationTimeoutError (e : Exc) : bool :=
  match e with OperationTimeoutError => true | _ => false end.

(** ** Wire payloads, as the codec hands them over (decoded dictionaries) *)

Inductive Data :=
| data_str (s : string)
| data_bytes (b : string)
| data_json (j : string).

Record RawInfo := {
  info_client : option string;
  info_user : option string;
  info_conn_info : option Data;
  info_chan_info : option Data }.

Record RawPub := {
  pub_offset : option Z;
  pub_data : option Data;
  pub_info : option RawInfo }.

Record ErrorObj := {
  error_code : Z;
  error_message : string;
  error_temporary : option bool }.

Record ConnectResult := {
  connect_client : option string;
  connect_version : option string;
  connect_data : option Data;
  connect_pong : option bool;
  connect_ping : option Z;
  connect_expires : option bool;
  connect_ttl : option Z }.

Record SubscribeResult := {
  subscribe_recoverable : option bool;
  subscribe_positioned : option bool;
  subscribe_offset : option Z;
  subscribe_epoch : option string;
  subscribe_expires : option bool;
  subscribe_ttl : option Z;
  subscribe_was_recovering : option bool;
  subscribe_recovered : option bool;
  subscribe_data : option Data;
  subscribe_publications : list RawPub }.

Record CodeReason := { cr_code : Z; cr_reason : string }.

Record Push := {
  push_channel : option string;
  push_pub : option RawPub;
  push_join : option RawInfo;
  push_leave : option RawInfo;
  push_unsubscribe : option CodeReason;
  push_disconnect : option CodeReason }.

(** The result of [refresh] and of [sub_refresh]. *)
Record RefreshResult := {
  refresh_expires : option bool;
  refresh_ttl : option Z }.

Record Reply := {
  reply_id : option Z;
  reply_error : option ErrorObj;
  reply_connect : option ConnectResult;
  reply_subscribe : option SubscribeResult;
  reply_refresh : option RefreshResult;
  reply_sub_refresh : option RefreshResult;
  reply_push : option Push }.

(** A transport frame, decoded: [codec.decode_replies(message)]. *)
Definition Message := list Reply.

Inductive Command :=
| cmd_connect (id : Z) (token : option string)
| cmd_subscribe (id : Z) (channel : string) (token : option string)
| cmd_unsubscribe (id : Z) (channel : string)
| cmd_refresh (id : Z) (token : string)
| cmd_sub_refresh (id : Z) (token : string)
| cmd_publish (id : Z) (channel : string) (data : Data)
| cmd_empty.                   (* the pong: [{}] *)

(** ** Contexts handed to the user's handlers *)

Record ClientInfo := {
  ci_client : string;
  ci_user : string;
  ci_conn_info : option Data;
  ci_chan_info : option Data }.

Record Publication := {
  publication_offset : Z;
  publication_data : option Data;
  publication_info : option ClientInfo }.

Record StreamPosition := { sp_offset : Z; sp_epoch : string }.

Record SubscribedContext := {
  sc_channel : string;
  sc_recoverable : bool;
  sc_positioned : bool;
  sc_stream_position : option StreamPosition;
  sc_was_recovering : bool;
  sc_recovered : bool;
  sc_data : option Data }.

(** ** What the client awaits outside itself *)

Inductive ExtCall :=
| on_connecting (code : Z) (reason : string)
| on_connected (client : option string) (version : string) (data : option Data)
| on_disconnected (code : Z) (reason : string)
| on_error (code : Z) (error : Exc)
| on_subscribing (sub : SubId) (code : Z) (reason : string)
| on_subscribed (sub : SubId) (ctx : SubscribedContext)
| on_unsubscribed (sub : SubId) (code : Z) (reason : string)
| on_publication (sub : SubId) (pub : Publication)
| on_join (sub : SubId) (info : ClientInfo)
| on_leave (sub : SubId) (info : ClientInfo)
| on_subscription_error (sub : SubId) (code : Z) (error : Exc)
| call_get_token
| call_sub_get_token (sub : SubId) (channel : string)
| ws_connect (subprotocols : list string)
| ws_send (conn : ConnId) (commands : list Command)
| ws_recv (conn : ConnId)
| ws_close (conn : ConnId).

Inductive ExtResult :=
| R_done                       (* the awaited call returned *)
| R_token (token : string)
| R_message (m : Message)
| R_raise (e : Exc).

(** ** Futures, timers, tasks *)

Inductive Value :=
| VTrue
| VReply (r : Reply).

Inductive FutStatus :=
| Pending
| Result (v : Value)
| Failed (e : Exc).

(** Where a future was created.  Nothing in the program reads it: it only
    names the [asyncio.Future()] expression that allocated the object. *)
Inductive Origin :=
| origin_connected             (* Client._connected_future *)
| origin_subscribed            (* Subscription._subscribed_future *)
| origin_reply (cmd_id : Z)    (* _Callback.future *)
| origin_done (cmd_id : Z).    (* _Callback.done *)

Record Future := { fut_origin : Origin; fut_status : FutStatus }.

(** The callbacks handed to [loop.call_later]. *)
Inductive TimerAction :=
| timeout_cb (cmd_id : Z) (future : FutId)   (* [cb] of _register_future *)
| call_reconnect               (* ensure_future(self._reconnect()) *)
| call_no_ping                 (* ensure_future(self._no_ping()) *)
| call_refresh                 (* ensure_future(self._refresh()) *)
| call_sub_refresh (sub : SubId)
| call_resubscribe (sub : SubId).

(** Delays are floats in the source and only ever passed on to the loop. *)
Inductive Delay :=
| delay_timeout (seconds : Q)
| delay_backoff (attempts : Z)
| delay_ping (ping_interval : Z)
| delay_ttl (ttl : Z).

Inductive TimerStatus := Scheduled | Cancelled | Fired.

Record Timer := {
  timer_delay : Delay;
  timer_action : TimerAction;
  timer_status : TimerStatus }.

(** The coroutines handed to [asyncio.ensure_future]. *)
Inductive TaskName :=
| task_schedule_reconnect
| task_reconnect
| task_listen
| task_process_messages
| task_no_ping
| task_refresh
| task_subscribe (channel : string)
| task_resubscribe (sub : SubId)               (* self._client.resubscribe(self) *)
| task_move_unsubscribed (sub : SubId) (code : Z) (reason : string)
| task_move_subscribing (sub : SubId) (code : Z) (reason : string)
| task_sub_schedule_resubscribe (sub : SubId)
| task_sub_resubscribe (sub : SubId)
| task_sub_refresh (sub : SubId).

(** [_Callback] *)
Record _Callback := {
  future : FutId;
  done : option FutId;
  timeout : option TimerId }.

Record Conn := {
  conn_state : WsState;
  close_code : option Z;
  close_reason : string }.

(** [Subscription]; the attributes carry a [sub_] prefix to keep them apart
    from the client's. *)
Record Subscription := {
  sub_channel : string;
  sub_state : SubscriptionState;
  sub_subscribed_future : FutId;
  sub_client : bool;             (* False once [_client] is None *)
  sub_token : string;
  sub_get_token : bool;          (* a token provider is configured *)
  sub_resubscribe_attempts : Z;
  sub_refresh_timer : option TimerId;
  sub_resubscribe_timer : option TimerId }.

(** ** The world: one client, its subscriptions and the loop's objects

    The first three fields are configuration and never assigned after
    [__init__].  Attributes of [Client] that no modelled code reads are left
    out: [_address], [_name], [_version], [_data], [_codec], [_delay], the
    reconnect delay bounds and [_max_server_ping_delay] (the delays they
    feed are kept symbolic in [Delay]). *)
Record World := mkWorld {
  _timeout : Q;   (* timeout: float *)
  _use_protobuf : bool;
  _get_token : bool;   (* a token provider is configured *)
  state : ClientState;
  status : option ClientState;   (* the attribute [_schedule_reconnect] assigns *)
  _conn : option ConnId;
  _id : Z;
  _subs : dict string SubId;
  _messages : QueueId;
  _need_reconnect : bool;
  _send_pong : bool;
  _ping_interval : Z;
  _ping_timer : option TimerId;
  _refresh_timer : option TimerId;
  _connected_future : FutId;
  _token : string;
  _futures : dict Z _Callback;
  _reconnect_attempts : Z;
  _reconnect_timer : option TimerId;
  client_id : option string;
  heap_futures : list Future;
  heap_timers : list Timer;
  heap_subs : list Subscription;
  heap_conns : list Conn;
  heap_queues : list (list (option Message));
  spawned : list TaskName }.   (* tasks created by ensure_future, not yet started *)

(** Field updates. *)
Definition set_state (v : ClientState) (w : World) : World :=
  mkWorld (_timeout w) (_use_protobuf w) (_get_token w) v (status w) (_conn w) (_id w) (_subs w) (_messages w) (_need_reconnect w) (_send_pong w) (_ping_interval w) (_ping_timer w) (_refresh_timer w) (_connected_future w) (_token w) (_futures w) (_reconnect_attempts w) (_reconnect_timer w) (client_id w) (heap_futures w) (heap_timers w) (heap_subs w) (heap_conns w) (heap_queues w) (spawned w).
Definition set_status (v : option ClientState) (w : World) : World :=
  mkWorld (_timeout w) (_use_protobuf w) (_get_token w) (state w) v (_conn w) (_id w) (_subs w) (_messages w) (_need_reconnect w) (_send_pong w) (_ping_interval w) (_ping_timer w) (_refresh_timer w) (_connected_future w) (_token w) (_futures w) (_reconnect_attempts w) (_reconnect_timer w) (client_id w) (heap_futures w) (heap_timers w) (heap_subs w) (heap_conns w) (heap_queues w) (spawned w).
Definition set__conn (v : option ConnId) (w : World) : World :=
  mkWorld (_timeout w) (_use_protobuf w) (_get_token w) (state w) (status w) v (_id w) (_subs w) (_messages w) (_need_reconnect w) (_send_pong w) (_ping_interval w) (_ping_timer w) (_refresh_timer w) (_connected_future w) (_token w) (_futures w) (_reconnect_attempts w) (_reconnect_timer w) (client_id w) (heap_futures w) (heap_timers w) (heap_subs w) (heap_conns w) (heap_queues w) (spawned w).
Definition set__id (v : Z) (w : World) : World :=
  mkWorld (_timeout w) (_use_protobuf w) (_get_token w) (state w) (status w) (_conn w) v (_subs w) (_messages w) (_need_reconnect w) (_send_pong w) (_ping_interval w) (_ping_timer w) (_refresh_timer w) (_connected_future w) (_token w) (_futures w) (_reconnect_attempts w) (_reconnect_timer w) (client_id w) (heap_futures w) (heap_timers w) (heap_subs w) (heap_conns w) (heap_queues w) (spawned w).
Definition set__subs (v : dict string SubId) (w : World) : World :=
  mkWorld (_timeout w) (_use_protobuf w) (_get_token w) (state w) (status w) (_conn w) (_id w) v (_messages w) (_need_reconnect w) (_send_pong w) (_ping_interval w) (_ping_timer w) (_refresh_timer w) (_connected_future w) (_token w) (_futures w) (_reconnect_attempts w) (_reconnect_timer w) (client_id w) (heap_futures w) (heap_timers w) (heap_subs w) (heap_conns w) (heap_queues w) (spawned w).
Definition set__messages (v : QueueId) (w : World) : World :=
  mkWorld (_timeout w) (_use_protobuf w) (_get_token w) (state w) (status w) (_conn w) (_id w) (_subs w) v (_need_reconnect w) (_send_pong w) (_ping_interval w) (_ping_timer w) (_refresh_timer w) (_connected_future w) (_token w) (_futures w) (_reconnect_attempts w) (_reconnect_timer w) (client_id w) (heap_futures w) (heap_timers w) (heap_subs w) (heap_conns w) (heap_queues w) (spawned w).
Definition set__need_reconnect (v : bool) (w : World) : World :=
  mkWorld (_timeout w) (_use_protobuf w) (_get_token w) (state w) (status w) (_conn w) (_id w) (_subs w) (_messages w) v (_send_pong w) (_ping_interval w) (_ping_timer w) (_refresh_timer w) (_connected_future w) (_token w) (_futures w) (_reconnect_attempts w) (_reconnect_timer w) (client_id w) (heap_futures w) (heap_timers w) (heap_subs w) (heap_conns w) (heap_queues w) (spawned w).
Definition set__send_pong (v : bool) (w : World) : World :=
  mkWorld (_timeout w) (_use_protobuf w) (_get_token w) (state w) (status w) (_conn w) (_id w) (_subs w) (_messages w) (_need_reconnect w) v (_ping_interval w) (_ping_timer w) (_refresh_timer w) (_connected_future w) (_token w) (_futures w) (_reconnect_attempts w) (_reconnect_timer w) (client_id w) (heap_futures w) (heap_timers w) (heap_subs w) (heap_conns w) (heap_queues w) (spawned w).
Definition set__ping_interval (v : Z) (w : World) : World :=
  mkWorld (_timeout w) (_use_protobuf w) (_get_token w) (state w) (status w) (_conn w) (_id w) (_subs w) (_messages w) (_need_reconnect w) (_send_pong w) v (_ping_timer w) (_refresh_timer w) (_connected_future w) (_token w) (_futures w) (_reconnect_attempts w) (_reconnect_timer w) (client_id w) (heap_futures w) (heap_timers w) (heap_subs w) (heap_conns w) (heap_queues w) (spawned w).
Definition set__ping_timer (v : option TimerId) (w : World) : World :=
  mkWorld (_timeout w) (_use_protobuf w) (_get_token w) (state w) (status w) (_conn w) (_id w) (_subs w) (_messages w) (_need_reconnect w) (_send_pong w) (_ping_interval w) v (_refresh_timer w) (_connected_future w) (_token w) (_futures w) (_reconnect_attempts w) (_reconnect_timer w) (client_id w) (heap_futures w) (heap_timers w) (heap_subs w) (heap_conns w) (heap_queues w) (spawned w).
Definition set__refresh_timer (v : option TimerId) (w : World) : World :=
  mkWorld (_timeout w) (_use_protobuf w) (_get_token w) (state w) (status w) (_conn w) (_id w) (_subs w) (_messages w) (_need_reconnect w) (_send_pong w) (_ping_interval w) (_ping_timer w) v (_connected_future w) (_token w) (_futures w) (_reconnect_attempts w) (_reconnect_timer w) (client_id w) (heap_futures w) (heap_timers w) (heap_subs w) (heap_conns w) (heap_queues w) (spawned w).
Definition set__connected_future (v : FutId) (w : World) : World :=
  mkWorld (_timeout w) (_use_protobuf w) (_get_token w) (state w) (status w) (_conn w) (_id w) (_subs w) (_messages w) (_need_reconnect w) (_send_pong w) (_ping_interval w) (_ping_timer w) (_refresh_timer w) v (_token w) (_futures w) (_reconnect_attempts w) (_reconnect_timer w) (client_id w) (heap_futures w) (heap_timers w) (heap_subs w) (heap_conns w) (heap_queues w) (spawned w).
Definition set__token (v : string) (w : World) : World :=
  mkWorld (_timeout w) (_use_protobuf w) (_get_token w) (state w) (status w) (_conn w) (_id w) (_subs w) (_messages w) (_need_reconnect w) (_send_pong w) (_ping_interval w) (_ping_timer w) (_refresh_timer w) (_connected_future w) v (_futures w) (_reconnect_attempts w) (_reconnect_timer w) (client_id w) (heap_futures w) (heap_timers w) (heap_subs w) (heap_conns w) (heap_queues w) (spawned w).
Definition set__futures (v : dict Z _Callback) (w : World) : World :=
  mkWorld (_timeout w) (_use_protobuf w) (_get_token w) (state w) (status w) (_conn w) (_id w) (_subs w) (_messages w) (_need_reconnect w) (_send_pong w) (_ping_interval w) (_ping_timer w) (_refresh_timer w) (_connected_future w) (_token w) v (_reconnect_attempts w) (_reconnect_timer w) (client_id w) (heap_futures w) (heap_timers w) (heap_subs w) (heap_conns w) (heap_queues w) (spawned w).
Definition set__reconnect_attempts (v : Z) (w : World) : World :=
  mkWorld (_timeout w) (_use_protobuf w) (_get_token w) (state w) (status w) (_conn w) (_id w) (_subs w) (_messages w) (_need_reconnect w) (_send_pong w) (_ping_interval w) (_ping_timer w) (_refresh_timer w) (_connected_future w) (_token w) (_futures w) v (_reconnect_timer w) (client_id w) (heap_futures w) (heap_timers w) (heap_subs w) (heap_conns w) (heap_queues w) (spawned w).
Definition set__reconnect_timer (v : option TimerId) (w : World) : World :=
  mkWorld (_timeout w) (_use_protobuf w) (_get_token w) (state w) (status w) (_conn w) (_id w) (_subs w) (_messages w) (_need_reconnect w) (_send_pong w) (_ping_interval w) (_ping_timer w) (_refresh_timer w) (_connected_future w) (_token w) (_futures w) (_reconnect_attempts w) v (client_id w) (heap_futures w) (heap_timers w) (heap_subs w) (heap_conns w) (heap_queues w) (spawned w).
Definition set_client_id (v : option string) (w : World) : World :=
  mkWorld (_timeout w) (_use_protobuf w) (_get_token w) (state w) (status w) (_conn w) (_id w) (_subs w) (_messages w) (_need_reconnect w) (_send_pong w) (_ping_interval w) (_ping_timer w) (_refresh_timer w) (_connected_future w) (_token w) (_futures w) (_reconnect_attempts w) (_reconnect_timer w) v (heap_futures w) (heap_timers w) (heap_subs w) (heap_conns w) (heap_queues w) (spawned w).
Definition set_heap_futures (v : list Future) (w : World) : World :=
  mkWorld (_timeout w) (_use_protobuf w) (_get_token w) (state w) (status w) (_conn w) (_id w) (_subs w) (_messages w) (_need_reconnect w) (_send_pong w) (_ping_interval w) (_ping_timer w) (_refresh_timer w) (_connected_future w) (_token w) (_futures w) (_reconnect_attempts w) (_reconnect_timer w) (client_id w) v (heap_timers w) (heap_subs w) (heap_conns w) (heap_queues w) (spawned w).
Definition set_heap_timers (v : list Timer) (w : World) : World :=
  mkWorld (_timeout w) (_use_protobuf w) (_get_token w) (state w) (status w) (_conn w) (_id w) (_subs w) (_messages w) (_need_reconnect w) (_send_pong w) (_ping_interval w) (_ping_timer w) (_refresh_timer w) (_connected_future w) (_token w) (_futures w) (_reconnect_attempts w) (_reconnect_timer w) (client_id w) (heap_futures w) v (heap_subs w) (heap_conns w) (heap_queues w) (spawned w).
Definition set_heap_subs (v : list Subscription) (w : World) : World :=
  mkWorld (_timeout w) (_use_protobuf w) (_get_token w) (state w) (status w) (_conn w) (_id w) (_subs w) (_messages w) (_need_reconnect w) (_send_pong w) (_ping_interval w) (_ping_timer w) (_refresh_timer w) (_connected_future w) (_token w) (_futures w) (_reconnect_attempts w) (_reconnect_timer w) (client_id w) (heap_futures w) (heap_timers w) v (heap_conns w) (heap_queues w) (spawned w).
Definition set_heap_conns (v : list Conn) (w : World) : World :=
  mkWorld (_timeout w) (_use_protobuf w) (_get_token w) (state w) (status w) (_conn w) (_id w) (_subs w) (_messages w) (_need_reconnect w) (_send_pong w) (_ping_interval w) (_ping_timer w) (_refresh_timer w) (_connected_future w) (_token w) (_futures w) (_reconnect_attempts w) (_reconnect_timer w) (client_id w) (heap_futures w) (heap_timers w) (heap_subs w) v (heap_queues w) (spawned w).
Definition set_heap_queues (v : list (list (option Message))) (w : World) : World :=
  mkWorld (_timeout w) (_use_protobuf w) (_get_token w) (state w) (status w) (_conn w) (_id w) (_subs w) (_messages w) (_need_reconnect w) (_send_pong w) (_ping_interval w) (_ping_timer w) (_refresh_timer w) (_connected_future w) (_token w) (_futures w) (_reconnect_attempts w) (_reconnect_timer w) (client_id w) (heap_futures w) (heap_timers w) (heap_subs w) (heap_conns w) v (spawned w).
Definition set_spawned (v : list TaskName) (w : World) : World :=
  mkWorld (_timeout w) (_use_protobuf w) (_get_token w) (state w) (status w) (_conn w) (_id w) (_subs w) (_messages w) (_need_reconnect w) (_send_pong w) (_ping_interval w) (_ping_timer w) (_refresh_timer w) (_connected_future w) (_token w) (_futures w) (_reconnect_attempts w) (_reconnect_timer w) (client_id w) (heap_futures w) (heap_timers w) (heap_subs w) (heap_conns w) (heap_queues w) v.
Definition set_sub_state (v : SubscriptionState) (s : Subscription) : Subscription :=
  Build_Subscription (sub_channel s) v (sub_subscribed_future s) (sub_client s) (sub_token s) (sub_get_token s) (sub_resubscribe_attempts s) (sub_refresh_timer s) (sub_resubscribe_timer s).
Definition set_sub_subscribed_future (v : FutId) (s : Subscription) : Subscription :=
  Build_Subscription (sub_channel s) (sub_state s) v (sub_client s) (sub_token s) (sub_get_token s) (sub_resubscribe_attempts s) (sub_refresh_timer s) (sub_resubscribe_timer s).
Definition set_sub_client (v : bool) (s : Subscription) : Subscription :=
  Build_Subscription (sub_channel s) (sub_state s) (sub_subscribed_future s) v (sub_token s) (sub_get_token s) (sub_resubscribe_attempts s) (sub_refresh_timer s) (sub_resubscribe_timer s).
Definition set_sub_token (v : string) (s : Subscription) : Subscription :=
  Build_Subscription (sub_channel s) (sub_state s) (sub_subscribed_future s) (sub_client s) v (sub_get_token s) (sub_resubscribe_attempts s) (sub_refresh_timer s) (sub_resubscribe_timer s).
Definition set_sub_resubscribe_attempts (v : Z) (s : Subscription) : Subscription :=
  Build_Subscription (sub_channel s) (sub_state s) (sub_subscribed_future s) (sub_client s) (sub_token s) (sub_get_token s) v (sub_refresh_timer s) (sub_resubscribe_timer s).
Definition set_sub_refresh_timer (v : option TimerId) (s : Subscription) : Subscription :=
  Build_Subscription (sub_channel s) (sub_state s) (sub_subscribed_future s) (sub_client s) (sub_token s) (sub_get_token s) (sub_resubscribe_attempts s) v (sub_resubscribe_timer s).
Definition set_sub_resubscribe_timer (v : option TimerId) (s : Subscription) : Subscription :=
  Build_Subscription (sub_channel s) (sub_state s) (sub_subscribed_future s) (sub_client s) (sub_token s) (sub_get_token s) (sub_resubscribe_attempts s) (sub_refresh_timer s) v.

(** Reading a field of an updated record computes. *)
Arguments set_state _ _ /.
Arguments set_status _ _ /.
Arguments set__conn _ _ /.
Arguments set__id _ _ /.
Arguments set__subs _ _ /.
Arguments set__messages _ _ /.
Arguments set__need_reconnect _ _ /.
Arguments set__send_pong _ _ /.
Arguments set__ping_interval _ _ /.
Arguments set__ping_timer _ _ /.
Arguments set__refresh_timer _ _ /.
Arguments set__connected_future _ _ /.
Arguments set__token _ _ /.
Arguments set__futures _ _ /.
Arguments set__reconnect_attempts _ _ /.
Arguments set__reconnect_timer _ _ /.
Arguments set_client_id _ _ /.
Arguments set_heap_futures _ _ /.
Arguments set_heap_timers _ _ /.
Arguments set_heap_subs _ _ /.
Arguments set_heap_conns _ _ /.
Arguments set_heap_queues _ _ /.
Arguments set_spawned _ _ /.
Arguments set_sub_state _ _ /.
Arguments set_sub_subscribed_future _ _ /.
Arguments set_sub_client _ _ /.
Arguments set_sub_token _ _ /.
Arguments set_sub_resubscribe_attempts _ _ /.
Arguments set_sub_refresh_timer _ _ /.
Arguments set_sub_resubscribe_timer _ _ /.

(** ** Synchronous code: the monad [M]

    A stretch of Python without a suspension point is a function of the
    world that returns a value or raises; what it assigned before raising
    stays assigned. *)

Inductive Res (A : Type) : Type :=
| Ok (a : A)
| Raise (e : Exc).
Arguments Raise {A} e.

Definition M (A : Type) : Type := World -> Res A * World.

Definition ret {A} (a : A) : M A := fun w => (Ok a, w).
Definition raise {A} (e : Exc) : M A := fun w => (Raise e, w).
Definition bindM {A B} (m : M A) (f : A -> M B) : M B :=
  fun w => match m w with
           | (Ok a, w') => f a w'
           | (Raise e, w') => (Raise e, w')
           end.
Definition get {A} (f : World -> A) : M A := fun w => (Ok (f w), w).
Definition modify (f : World -> World) : M unit := fun w => (Ok tt, f w).
Arguments bindM {A B} m f w : simpl never.

Notation "'let*' x ':=' m 'in' k" := (bindM m (fun x => k))
  (at level 10, x name, m at level 100, k at level 200).
Notation "'let*' ' p ':=' m 'in' k" := (bindM m (fun p => k))
  (at level 10, p pattern, m at level 100, k at level 200).
Notation "m ';;' k" := (bindM m (fun _ => k))
  (at level 100, k at level 200, right associativity).

(** [if c: body] *)
Definition when (c : bool) (body : M unit) : M unit :=
  if c then body else ret tt.

(** [for x in xs: body(x)] *)
Fixpoint for_each {X} (xs : list X) (body : X -> M unit) : M unit :=
  match xs with
  | [] => ret tt
  | x :: xs' => body x ;; for_each xs' body
  end.

(** *** asyncio futures *)

Definition status_in (h : list Future) (f : FutId) : FutStatus :=
  match nth_error h f with
  | Some x => fut_status x
  | None => Pending
  end.

Definition fut_status_of (w : World) (f : FutId) : FutStatus :=
  status_in (heap_futures w) f.

Definition is_done (s : FutStatus) : bool :=
  match s with Pending => false | _ => true end.

(** [asyncio.Future()] *)
Definition new_future (o : Origin) : M FutId :=
  fun w =>
    let (h, i) := heap_alloc (heap_futures w)
                    {| fut_origin := o; fut_status := Pending |} in
    (Ok i, set_heap_futures h w).

(** [future.done()] *)
Definition fut_done (f : FutId) : M bool :=
  get (fun w => is_done (fut_status_of w f)).

(** [set_result] / [set_exception]: asyncio raises [InvalidStateError] when
    the future is already done and leaves it as it is. *)
Definition with_status (s : FutStatus) (x : Future) : Future :=
  {| fut_origin := fut_origin x; fut_status := s |}.

Definition resolve (f : FutId) (s : FutStatus) : M unit :=
  fun w =>
    match nth_error (heap_futures w) f with
    | Some {| fut_status := Pending |} =>
        (Ok tt,
         set_heap_futures (heap_update (heap_futures w) f (with_status s)) w)
    | _ => (Raise InvalidStateError, w)
    end.

Definition set_result (f : FutId) (v : Value) : M unit := resolve f (Result v).
Definition set_exception (f : FutId) (e : Exc) : M unit := resolve f (Failed e).

(** *** Timers: [loop.call_later] and [TimerHandle.cancel] *)

Definition call_later (d : Delay) (a : TimerAction) : M TimerId :=
  fun w =>
    let (h, i) := heap_alloc (heap_timers w)
                    {| timer_delay := d; timer_action := a;
                       timer_status := Scheduled |} in
    (Ok i, set_heap_timers h w).

Definition cancel_timer (t : Timer) : Timer :=
  match timer_status t with
  | Scheduled => {| timer_delay := timer_delay t;
                    timer_action := timer_action t;
                    timer_status := Cancelled |}
  | _ => t
  end.

Definition cancel (i : TimerId) : M unit :=
  modify (fun w => set_heap_timers (heap_update (heap_timers w) i cancel_timer) w).

(** [asyncio.ensure_future(coro)]: the task starts at a later turn of the
    loop. *)
Definition ensure_future (t : TaskName) : M unit :=
  modify (fun w => set_spawned (spawned w ++ [t]) w).

(** *** Subscription objects *)

Definition sub_of (w : World) (s : SubId) : option Subscription :=
  nth_error (heap_subs w) s.

(** Reading an attribute of the subscription object [s]. *)
Definition read_sub (s : SubId) : M Subscription :=
  fun w => match sub_of w s with
           | Some x => (Ok x, w)
           | None => (Raise AttributeError, w)
           end.

Definition update_sub (s : SubId) (f : Subscription -> Subscription) : M unit :=
  modify (fun w => set_heap_subs (heap_update (heap_subs w) s f) w).

(** *** Queues: [asyncio.Queue()] without a size bound, so [put] never
    waits. *)

Definition new_queue : M QueueId :=
  fun w => let (h, i) := heap_alloc (heap_queues w) [] in
           (Ok i, set_heap_queues h w).

Definition queue_put (q : QueueId) (item : option Message) : M unit :=
  modify (fun w =>
            set_heap_queues
              (heap_update (heap_queues w) q (fun items => items ++ [item])) w).

(** *** Connections *)

Definition conn_of (w : World) (c : ConnId) : option Conn :=
  nth_error (heap_conns w) c.

(** [self._conn.open] *)
Definition conn_open (w : World) (c : ConnId) : bool :=
  match conn_of w c with
  | Some x => match conn_state x with WS_OPEN => true | _ => false end
  | None => false
  end.

(** [self._conn.state != State.CLOSED] *)
Definition conn_not_closed (w : World) (c : ConnId) : bool :=
  match conn_of w c with
  | Some x => match conn_state x with WS_CLOSED => false | _ => true end
  | None => false
  end.

(** What [await conn.close()] leaves behind: the connection is closed; a
    close code the peer sent earlier stays. *)
Definition closed_conn (x : Conn) : Conn :=
  {| conn_state := WS_CLOSED; close_code := close_code x;
     close_reason := close_reason x |}.

Definition mark_closed (c : ConnId) : M unit :=
  modify (fun w => set_heap_conns (heap_update (heap_conns w) c closed_conn) w).

(** [await websockets.connect(...)] returned: a new open connection. *)
Definition new_conn : M ConnId :=
  fun w => let (h, i) := heap_alloc (heap_conns w)
                           {| conn_state := WS_OPEN; close_code := None;
                              close_reason := EmptyString |} in
           (Ok i, set_heap_conns h w).

(** ** Coroutines: the monad [Co]

    [Step m] runs when [m] is enabled in the current world ([m w] is not
    [None]) and goes on without giving up control; a disabled step is a
    coroutine waiting (for a future to be done, for a queue to fill).
    [Ext c k] awaits something outside the client; the loop may run other
    tasks before the answer comes. *)

Inductive Co (A : Type) : Type :=
| Ret (a : A)
| Throw (e : Exc)
| Step (m : World -> option (World * Co A))
| Ext (c : ExtCall) (k : ExtResult -> Co A).
Arguments Throw {A} e.
Arguments Step {A} m.
Arguments Ext {A} c k.

Fixpoint bind {A B} (c : Co A) (f : A -> Co B) : Co B :=
  match c with
  | Ret a => f a
  | Throw e => Throw e
  | Step m =>
      Step (fun w => match m w with
                     | Some (w', c') => Some (w', bind c' f)
                     | None => None
                     end)
  | Ext x k => Ext x (fun r => bind (k r) f)
  end.

(** [try: c  except Exception as e: h(e)] (the handler re-raises what the
    [except] clauses do not name). *)
Fixpoint catch {A} (c : Co A) (h : Exc -> Co A) : Co A :=
  match c with
  | Ret a => Ret a
  | Throw e => h e
  | Step m =>
      Step (fun w => match m w with
                     | Some (w', c') => Some (w', catch c' h)
                     | None => None
                     end)
  | Ext x k => Ext x (fun r => catch (k r) h)
  end.

(** [try: c  finally: fin]: [fin] runs on every way out of [c]; if it
    raises, its exception is the one that propagates. *)
Fixpoint finally {A} (c : Co A) (fin : Co unit) : Co A :=
  match c with
  | Ret a => bind fin (fun _ => Ret a)
  | Throw e => bind fin (fun _ => Throw e)
  | Step m =>
      Step (fun w => match m w with
                     | Some (w', c') => Some (w', finally c' fin)
                     | None => None
                     end)
  | Ext x k => Ext x (fun r => finally (k r) fin)
  end.

Notation "'let!' x ':=' c 'in' k" := (bind c (fun x => k))
  (at level 10, x name, c at level 100, k at level 200).
Notation "c '>>' k" := (bind c (fun _ => k))
  (at level 100, k at level 200, right associativity).

Definition atomic {A} (m : M A) : Co A :=
  Step (fun w => match m w with
                 | (Ok a, w') => Some (w', Ret a)
                 | (Raise e, w') => Some (w', Throw e)
                 end).

(** [await future] *)
Definition await_future (f : FutId) : Co Value :=
  Step (fun w => match fut_status_of w f with
                 | Pending => None
                 | Result v => Some (w, Ret v)
                 | Failed e => Some (w, Throw e)
                 end).

(** [await queue.get()] *)
Definition queue_get (q : QueueId) : Co (option Message) :=
  Step (fun w => match nth_error (heap_queues w) q with
                 | Some (item :: items) =>
                     Some (set_heap_queues (heap_set (heap_queues w) q items) w,
                           Ret item)
                 | _ => None
                 end).

(** [await handler(ctx)] *)
Definition call_handler (c : ExtCall) : Co unit :=
  Ext c (fun r => match r with R_raise e => Throw e | _ => Ret tt end).

(** [if c: await body] *)
Definition when_co (c : bool) (body : Co unit) : Co unit :=
  if c then body else Ret tt.

Fixpoint for_each_co {X} (xs : list X) (body : X -> Co unit) : Co unit :=
  match xs with
  | [] => Ret tt
  | x :: xs' => body x >> for_each_co xs' body
  end.


(** ** What a block or a coroutine may do to the world

    [respects R m]: the block [m] takes a world to one related by [R],
    whether it returns or raises.  [co_respects R c]: so does every step
    of the coroutine [c], whatever its external calls answer. *)
Definition respects {A} (R : World -> World -> Prop) (m : M A) : Prop :=
  forall w, R w (snd (m w)).

Fixpoint co_respects {A} (R : World -> World -> Prop) (c : Co A) : Prop :=
  match c with
  | Ret _ | Throw _ => True
  | Step m => forall w, match m w with
                        | Some (w', c') => R w w' /\ co_respects R c'
                        | None => True
                        end
  | Ext _ k => forall r, co_respects R (k r)
  end.

(** Every channel registered in [w] is registered in [w']. *)
Definition subs_kept (w w' : World) : Prop :=
  forall channel,
    dict_mem String.eqb (_subs w) channel = true ->
    dict_mem String.eqb (_subs w') channel = true.

(** A future that is resolved in [w] has the same status in [w']. *)
Definition futures_final (w w' : World) : Prop :=
  forall f, is_done (fut_status_of w f) = true ->
            fut_status_of w' f = fut_status_of w f.

(** The counter of command ids has not gone back. *)
Definition ids_grow (w w' : World) : Prop := _id w <= _id w'.

(** A client told not to reconnect is still told so. *)
Definition no_reconnect_kept (w w' : World) : Prop :=
  _need_reconnect w = false -> _need_reconnect w' = false.

(** The reading [proj] of the world is the same in both worlds. *)
Definition same {X} (proj : World -> X) (w w' : World) : Prop :=
  proj w' = proj w.

(** * The client *)

(** [centrifuge.codes] and [centrifuge.utils] are not part of the sources
    at hand; what [client.py] imports from them is a parameter of the
    development, and so is [base64.b64decode]. *)
Class Imports := {
  _code_number : Code -> Z;
  _code_message : Code -> string;
  _is_token_expired : Z -> bool;
  b64decode : string -> string }.

(** [base64.b64encode], for the payloads the client sends. *)
Class Encoder := { b64encode : string -> string }.

Section Client.

Context {imports : Imports}.

(** [if timeout:] on a float *)
Definition truthy (q : Q) : bool := negb (Qeq_bool q 0).

(** ** Client.__init__ *)
Definition __init__ (token : string) (get_token use_protobuf : bool)
    (timeout : Q) : World :=
  {| _timeout := timeout; _use_protobuf := use_protobuf;
     _get_token := get_token;
     state := DISCONNECTED; status := None; _conn := None; _id := 0;
     _subs := []; _messages := 0%nat; _need_reconnect := true;
     _send_pong := true; _ping_interval := 0; _ping_timer := None;
     _refresh_timer := None; _connected_future := 0%nat; _token := token;
     _futures := []; _reconnect_attempts := 0; _reconnect_timer := None;
     client_id := None;
     heap_futures := [ {| fut_origin := origin_connected; fut_status := Pending |} ];
     heap_timers := []; heap_subs := []; heap_conns := [];
     heap_queues := [ [] ]; spawned := [] |}.

(** ** Subscriptions registry *)

Definition get_subscription (channel : string) : M (option SubId) :=
  get (fun w => dict_get String.eqb (_subs w) channel).

(** [Subscription._create_instance] / [_initialize] *)
Definition _create_instance (channel token : string) (get_token : bool)
    : M SubId :=
  let* f := new_future origin_subscribed in
  fun w =>
    let (h, i) := heap_alloc (heap_subs w)
                    {| sub_channel := channel; sub_state := UNSUBSCRIBED;
                       sub_subscribed_future := f; sub_client := true;
                       sub_token := token; sub_get_token := get_token;
                       sub_resubscribe_attempts := 0;
                       sub_refresh_timer := None;
                       sub_resubscribe_timer := None |} in
    (Ok i, set_heap_subs h w).

Definition new_subscription (channel token : string) (get_token : bool)
    : M SubId :=
  let* existing := get_subscription channel in
  match existing with
  | Some _ => raise (DuplicateSubscriptionError channel)
  | None =>
      let* sub := _create_instance channel token get_token in
      modify (fun w => set__subs (dict_set String.eqb (_subs w) channel sub) w) ;;
      ret sub
  end.

(** [del self._subs[channel]] *)
Definition del_sub (channel : string) : M unit :=
  let* present := get (fun w => dict_mem String.eqb (_subs w) channel) in
  if present
  then modify (fun w => set__subs (dict_del String.eqb (_subs w) channel) w)
  else raise KeyError.

Definition remove_subscription (sub : option SubId) : M unit :=
  match sub with
  | None => ret tt
  | Some s =>
      let* x := read_sub s in
      if negb (SubscriptionState_eqb (sub_state x) UNSUBSCRIBED)
      then raise (CentrifugeError
                    "can not remove subscription in non-unsubscribed state")
      else
        update_sub s (set_sub_client false) ;;
        del_sub (sub_channel x)
  end.

(** ** Small helpers *)

Definition _next_command_id : M Z :=
  modify (fun w => set__id (_id w + 1) w) ;;
  get _id.

Definition _clear_connecting_state : M unit :=
  modify (set__reconnect_attempts 0) ;;
  let* t := get _reconnect_timer in
  match t with
  | Some th => cancel th ;; modify (set__reconnect_timer None)
  | None => ret tt
  end.

Definition _extract_error_details (error : ErrorObj) : Z * string * bool :=
  (error_code error, error_message error,
   match error_temporary error with Some b => b | None => false end).

Definition _decode_data (w : World) (data : option Data) : option Data :=
  match data with
  | None => None
  | Some d =>
      if _use_protobuf w
      then match d with
           | data_str s => Some (data_bytes (b64decode s))
           | _ => Some d
           end
      else Some d
  end.

Definition opt {A} (o : option A) (default : A) : A :=
  match o with Some a => a | None => default end.

Definition _extract_client_info (w : World) (info : RawInfo) : ClientInfo :=
  {| ci_client := opt (info_client info) EmptyString;
     ci_user := opt (info_user info) EmptyString;
     ci_conn_info := _decode_data w (info_conn_info info);
     ci_chan_info := _decode_data w (info_chan_info info) |}.

(** A dictionary is true when it has a key. *)
Definition info_truthy (info : RawInfo) : bool :=
  match info with
  | {| info_client := None; info_user := None; info_conn_info := None;
       info_chan_info := None |} => false
  | _ => true
  end.

(** [Publication(offset=pub.get("offset", 0), data=..., info=...)] *)
Definition make_publication (w : World) (pub : RawPub) : Publication :=
  {| publication_offset := opt (pub_offset pub) 0;
     publication_data := _decode_data w (pub_data pub);
     publication_info :=
       match pub_info pub with
       | Some info =>
           if info_truthy info then Some (_extract_client_info w info) else None
       | None => None
       end |}.

(** ** The command/reply registry *)

Definition _future_error (cmd_id : Z) (exc : Exc) : M unit :=
  let* cb := get (fun w => dict_get Z.eqb (_futures w) cmd_id) in
  match cb with
  | None => ret tt
  | Some cb =>
      set_exception (future cb) exc ;;
      match done cb with
      | Some d => set_result d VTrue
      | None => ret tt
      end ;;
      modify (fun w => set__futures (dict_del Z.eqb (_futures w) cmd_id) w)
  end.

(** The closure [cb] that [_register_future] hands to [call_later]. *)
Definition cb (cmd_id : Z) (fut : FutId) : M unit :=
  let* d := fut_done fut in
  if negb d then _future_error cmd_id OperationTimeoutError else ret tt.

(** [th = None; if timeout: th = self._loop.call_later(timeout, cb)] *)
Definition arm_timeout (cmd_id : Z) (timeout : Q) (fut : FutId)
    : M (option TimerId) :=
  if truthy timeout
  then let* th := call_later (delay_timeout timeout) (timeout_cb cmd_id fut) in
       ret (Some th)
  else ret None.

Definition _register_future (cmd_id : Z) (timeout : Q) : M FutId :=
  let* fut := new_future (origin_reply cmd_id) in
  let* th := arm_timeout cmd_id timeout fut in
  modify (fun w =>
            set__futures
              (dict_set Z.eqb (_futures w) cmd_id
                 {| future := fut; done := None; timeout := th |}) w) ;;
  ret fut.

(** Entering [_register_future_with_done]: everything up to [yield]. *)
Definition _register_future_with_done_enter (cmd_id : Z) (timeout : Q)
    : M (FutId * FutId) :=
  let* fut := new_future (origin_reply cmd_id) in
  let* dn := new_future (origin_done cmd_id) in
  let* th := arm_timeout cmd_id timeout fut in
  modify (fun w =>
            set__futures
              (dict_set Z.eqb (_futures w) cmd_id
                 {| future := fut; done := Some dn; timeout := th |}) w) ;;
  ret (fut, dn).

(** [async with self._register_future_with_done(cmd_id, timeout) as future:
    body]: the [finally] of the context manager runs on every way out of
    the body. *)
Definition _register_future_with_done {A} (cmd_id : Z) (timeout : Q)
    (body : FutId -> Co A) : Co A :=
  let! fd := atomic (_register_future_with_done_enter cmd_id timeout) in
  finally (body (fst fd)) (atomic (set_result (snd fd) VTrue)).

(** The synchronous head of [_future_success]; it returns the barrier to
    wait for, if any. *)
Definition _future_success_resolve (cmd_id : Z) (reply : Reply)
    : M (option FutId) :=
  let* cb := get (fun w => dict_get Z.eqb (_futures w) cmd_id) in
  match cb with
  | None => ret None
  | Some cb =>
      set_result (future cb) (VReply reply) ;;
      modify (fun w => set__futures (dict_del Z.eqb (_futures w) cmd_id) w) ;;
      match timeout cb with
      | Some th => cancel th
      | None => ret tt
      end ;;
      ret (done cb)
  end.

Definition _future_success (cmd_id : Z) (reply : Reply) : Co unit :=
  let! barrier := atomic (_future_success_resolve cmd_id reply) in
  match barrier with
  | Some d => await_future d >> Ret tt
  | None => Ret tt
  end.

Definition _clear_outgoing_futures : M unit :=
  let* command_ids := get (fun w => dict_keys (_futures w)) in
  for_each command_ids
    (fun cmd_id =>
       _future_error cmd_id (ClientDisconnectedError (command_canceled cmd_id))).

(** ** Transport and reconnect scheduling *)

(** [await self._conn.close()] under [suppress(ConnectionClosed)]; when
    the call is over the connection is closed. *)
Definition _close_transport_conn : Co unit :=
  let! conn := atomic (get _conn) in
  match conn with
  | None => Ret tt
  | Some c =>
      Ext (ws_close c)
          (fun r =>
             atomic (mark_closed c) >>
             match r with
             | R_raise ConnectionClosed => Ret tt
             | R_raise e => Throw e
             | _ => Ret tt
             end)
  end.

(** [_schedule_reconnect] has no [await] inside: it runs in one stretch.
    It assigns [self.status], not [self.state]. *)
Definition _schedule_reconnect : M unit :=
  let* st := get state in
  if ClientState_eqb st CONNECTED then ret tt else
  let* busy := get (fun w => match _conn w with
                             | Some c => conn_open w c
                             | None => false
                             end) in
  if busy then ret tt else
  let* need := get _need_reconnect in
  if negb need then ret tt else
  modify (set_status (Some CONNECTING)) ;;
  let* attempts := get _reconnect_attempts in
  modify (set__reconnect_attempts (attempts + 1)) ;;
  let* th := call_later (delay_backoff attempts) call_reconnect in
  modify (set__reconnect_timer (Some th)).

(** ** Subscription internals used by the client *)

Definition _clear_subscribed_state (sub : SubId) : M unit :=
  let* s := read_sub sub in
  match sub_refresh_timer s with
  | Some th => cancel th ;; update_sub sub (set_sub_refresh_timer None)
  | None => ret tt
  end.

Definition _clear_subscribing_state (sub : SubId) : M unit :=
  update_sub sub (set_sub_resubscribe_attempts 0) ;;
  let* s := read_sub sub in
  match sub_resubscribe_timer s with
  | Some th => cancel th ;; update_sub sub (set_sub_resubscribe_timer None)
  | None => ret tt
  end.

(** [if self._subscribed_future.done(): self._subscribed_future = Future()] *)
Definition refresh_subscribed_future (sub : SubId) : M unit :=
  let* s := read_sub sub in
  let* d := fut_done (sub_subscribed_future s) in
  when d (let* f := new_future origin_subscribed in
          update_sub sub (set_sub_subscribed_future f)).

(** [with suppress(CentrifugeError): await fut] on a future that is done:
    the coroutine goes on without giving up control.  Both callers have
    just failed [fut] on the line before. *)
Definition consume_future (fut : FutId) : M unit :=
  let* st := get (fun w => fut_status_of w fut) in
  match st with
  | Failed e => if is_CentrifugeError e then ret tt else raise e
  | _ => ret tt
  end.

(** The head of [move_subscribing], up to the handler; [false] when it
    returned at the guard. *)
Definition move_subscribing_begin (sub : SubId) : M bool :=
  let* s := read_sub sub in
  if SubscriptionState_eqb (sub_state s) SUBSCRIBING then ret false else
  when (SubscriptionState_eqb (sub_state s) SUBSCRIBED)
       (_clear_subscribed_state sub) ;;
  update_sub sub (set_sub_state SUBSCRIBING) ;;
  refresh_subscribed_future sub ;;
  ret true.

(** [self._client.<method>] on the subscription: [_client] is None after
    removal. *)
Definition require_client (sub : SubId) : M unit :=
  let* s := read_sub sub in
  if sub_client s then ret tt else raise AttributeError.

Definition move_subscribing (sub : SubId) (code : Z) (reason : string)
    (skip_schedule_resubscribe : bool) : Co unit :=
  let! go := atomic (move_subscribing_begin sub) in
  if negb go then Ret tt else
  call_handler (on_subscribing sub code reason) >>
  when_co (negb skip_schedule_resubscribe)
    (atomic (require_client sub ;; ensure_future (task_resubscribe sub))).

Definition _schedule_resubscribe (sub : SubId) : M unit :=
  let* s := read_sub sub in
  if negb (SubscriptionState_eqb (sub_state s) SUBSCRIBING) then ret tt else
  update_sub sub (set_sub_resubscribe_attempts (sub_resubscribe_attempts s + 1)) ;;
  let* th := call_later (delay_backoff (sub_resubscribe_attempts s))
               (call_resubscribe sub) in
  update_sub sub (set_sub_resubscribe_timer (Some th)).

(** ** Client._disconnect *)

(** [_disconnect] before its first suspension point, in two parts.  First
    what every call does: cancel the timers, poison the message queue and
    replace it ([put] does not wait on an unbounded queue), note that no
    reconnect is wanted. *)
Definition _disconnect_prepare (reconnect : bool) : M unit :=
  let* pt := get _ping_timer in
  match pt with
  | Some th => cancel th ;; modify (set__ping_timer None)
  | None => ret tt
  end ;;
  let* rt := get _refresh_timer in
  match rt with
  | Some th => cancel th ;; modify (set__refresh_timer None)
  | None => ret tt
  end ;;
  _clear_connecting_state ;;
  let* q := get _messages in
  queue_put q None ;;
  let* q' := new_queue in
  modify (set__messages q') ;;
  when (negb reconnect) (modify (set__need_reconnect false)).

(** Then, from the DISCONNECTED guard to the assignment of the state;
    [false] when the function returned at the guard. *)
Definition _disconnect_settle (code : Z) (reason : string) (reconnect : bool)
    : M bool :=
  let* st := get state in
  if ClientState_eqb st DISCONNECTED then ret false else
  _clear_outgoing_futures ;;
  let* f := get _connected_future in
  let* d := fut_done f in
  when d (let* f' := new_future origin_connected in
          modify (set__connected_future f')) ;;
  (if reconnect
   then modify (set_state CONNECTING)
   else
     let* f := get _connected_future in
     set_exception f (ClientDisconnectedError (client_disconnected code reason)) ;;
     consume_future f ;;
     modify (set_state DISCONNECTED)) ;;
  ret true.

Definition _disconnect_begin (code : Z) (reason : string) (reconnect : bool)
    : M bool :=
  _disconnect_prepare reconnect ;;
  _disconnect_settle code reason reconnect.

Definition _disconnect (code : Z) (reason : string) (reconnect : bool)
    : Co unit :=
  let! go := atomic (_disconnect_begin code reason reconnect) in
  if negb go then Ret tt else
  let! need_close := atomic (get (fun w => match _conn w with
                                           | Some c => conn_not_closed w c
                                           | None => false
                                           end)) in
  when_co need_close _close_transport_conn >>
  let! subs := atomic (get (fun w => dict_values (_subs w))) in
  for_each_co subs
    (fun sub =>
       let! s := atomic (read_sub sub) in
       when_co (SubscriptionState_eqb (sub_state s) SUBSCRIBED)
         (move_subscribing sub
            (_code_number SubscribingCode_TRANSPORT_CLOSED)
            (_code_message SubscribingCode_TRANSPORT_CLOSED) true)) >>
  call_handler (on_disconnected code reason) >>
  when_co reconnect (atomic (ensure_future task_schedule_reconnect)).

Definition disconnect : Co unit :=
  let! st := atomic (get state) in
  if ClientState_eqb st DISCONNECTED then Ret tt else
  _disconnect (_code_number DisconnectedCode_DISCONNECT_CALLED)
              (_code_message DisconnectedCode_DISCONNECT_CALLED) false.

Definition _no_ping : Co unit :=
  _disconnect (_code_number ConnectingCode_NO_PING)
              (_code_message ConnectingCode_NO_PING) true.

Definition _send_commands (commands : list Command) : Co unit :=
  let! conn := atomic (get _conn) in
  match conn with
  | None => Throw (CentrifugeError "connection is not initialized")
  | Some c =>
      Ext (ws_send c commands)
          (fun r =>
             match r with
             | R_raise ConnectionClosed =>
                 _disconnect (_code_number ConnectingCode_TRANSPORT_CLOSED)
                             (_code_message ConnectingCode_TRANSPORT_CLOSED) true
             | R_raise e => Throw e
             | _ => Ret tt
             end)
  end.

(** ** Unsubscribing *)

Definition _unsubscribe (channel : string) : Co unit :=
  let! issued :=
    atomic (let* sub := get_subscription channel in
            match sub with
            | None => ret None
            | Some s =>
                let* x := read_sub s in
                let* cmd_id := _next_command_id in
                let* t := get _timeout in
                let* fut := _register_future cmd_id t in
                ret (Some (cmd_unsubscribe cmd_id (sub_channel x), fut))
            end) in
  match issued with
  | None => Ret tt
  | Some (command, fut) =>
      _send_commands [command] >>
      catch (await_future fut >> Ret tt)
            (fun e =>
               if is_OperationTimeoutError e
               then _disconnect (_code_number ConnectingCode_UNSUBSCRIBE_ERROR)
                                (_code_message ConnectingCode_UNSUBSCRIBE_ERROR) true
               else Throw e)
  end.

(** The head of [_move_unsubscribed], up to the handler. *)
Definition _move_unsubscribed_begin (sub : SubId) : M bool :=
  let* s := read_sub sub in
  match sub_state s with
  | UNSUBSCRIBED => ret false
  | st =>
      match st with
      | SUBSCRIBED => _clear_subscribed_state sub
      | SUBSCRIBING => _clear_subscribing_state sub
      | UNSUBSCRIBED => ret tt
      end ;;
      update_sub sub (set_sub_state UNSUBSCRIBED) ;;
      refresh_subscribed_future sub ;;
      let* s' := read_sub sub in
      set_exception (sub_subscribed_future s') SubscriptionUnsubscribedError ;;
      consume_future (sub_subscribed_future s') ;;
      ret true
  end.

Definition _move_unsubscribed (sub : SubId) (code : Z) (reason : string)
    (send_unsubscribe_command : bool) : Co unit :=
  let! go := atomic (_move_unsubscribed_begin sub) in
  if negb go then Ret tt else
  call_handler (on_unsubscribed sub code reason) >>
  when_co send_unsubscribe_command
    (let! s := atomic (require_client sub ;; read_sub sub) in
     _unsubscribe (sub_channel s)).

(** [Subscription.unsubscribe] *)
Definition unsubscribe (sub : SubId) : Co unit :=
  _move_unsubscribed sub
    (_code_number UnsubscribedCode_UNSUBSCRIBE_CALLED)
    (_code_message UnsubscribedCode_UNSUBSCRIBE_CALLED) true.

(** ** Subscribing *)

(** [Client.resubscribe]: no [await] inside. *)
Definition resubscribe (sub : SubId) : M unit :=
  let* s := read_sub sub in
  modify (fun w => set__subs (dict_set String.eqb (_subs w) (sub_channel s) sub) w) ;;
  ensure_future (task_subscribe (sub_channel s)).

(** [Subscription.subscribe] *)
Definition subscribe (sub : SubId) : Co unit :=
  let! go := atomic (let* s := read_sub sub in
                     if SubscriptionState_eqb (sub_state s) SUBSCRIBING
                     then ret false
                     else update_sub sub (set_sub_state SUBSCRIBING) ;; ret true) in
  if negb go then Ret tt else
  call_handler (on_subscribing sub
                  (_code_number SubscribingCode_SUBSCRIBE_CALLED)
                  (_code_message SubscribingCode_SUBSCRIBE_CALLED)) >>
  atomic (require_client sub ;; resubscribe sub).

(** [Subscription._resubscribe] *)
Definition _resubscribe (sub : SubId) : Co unit :=
  atomic (let* s := read_sub sub in
          if negb (SubscriptionState_eqb (sub_state s) SUBSCRIBING) then ret tt
          else require_client sub ;; resubscribe sub).

(** [reply.get(...)] on what [await future] returned: the registry puts
    replies there; on anything else the attribute access fails. *)
Definition as_reply (v : Value) : Co Reply :=
  match v with
  | VReply r => Ret r
  | VTrue => Throw AttributeError
  end.

(** The answer of a token provider. *)
Definition as_token (r : ExtResult) : Res string :=
  match r with
  | R_token t => Ok t
  | R_raise e => Raise e
  | _ => Raise (OtherError "not a token")
  end.

Definition _move_subscribed_begin (sub : SubId) (r : SubscribeResult)
    : M SubscribedContext :=
  update_sub sub (set_sub_state SUBSCRIBED) ;;
  let* s := read_sub sub in
  set_result (sub_subscribed_future s) VTrue ;;
  let recoverable := opt (subscribe_recoverable r) false in
  let positioned := opt (subscribe_positioned r) false in
  let stream_position :=
    if positioned || recoverable
    then Some {| sp_offset := opt (subscribe_offset r) 0;
                 sp_epoch := opt (subscribe_epoch r) EmptyString |}
    else None in
  (if opt (subscribe_expires r) false
   then match subscribe_ttl r with
        | None => raise KeyError
        | Some ttl =>
            require_client sub ;;
            let* th := call_later (delay_ttl ttl) (call_sub_refresh sub) in
            update_sub sub (set_sub_refresh_timer (Some th))
        end
   else ret tt) ;;
  require_client sub ;;
  let* data := get (fun w => _decode_data w (subscribe_data r)) in
  ret {| sc_channel := sub_channel s; sc_recoverable := recoverable;
         sc_positioned := positioned; sc_stream_position := stream_position;
         sc_was_recovering := opt (subscribe_was_recovering r) false;
         sc_recovered := opt (subscribe_recovered r) false;
         sc_data := data |}.

Definition _move_subscribed (sub : SubId) (r : SubscribeResult) : Co unit :=
  let! ctx := atomic (_move_subscribed_begin sub r) in
  call_handler (on_subscribed sub ctx) >>
  for_each_co (subscribe_publications r)
    (fun pub =>
       let! p := atomic (require_client sub ;;
                         get (fun w => make_publication w pub)) in
       call_handler (on_publication sub p)) >>
  atomic (_clear_subscribing_state sub).

(** [if sub.state != SubscriptionState.SUBSCRIBING] *)
Definition not_subscribing (sub : SubId) : M bool :=
  let* s := read_sub sub in
  ret (negb (SubscriptionState_eqb (sub_state s) SUBSCRIBING)).

(** What [_subscribe] does with the outcome of [await future]. *)
Definition _subscribe_failed (sub : SubId) (e : Exc) : Co (option bool) :=
  let! gone := atomic (not_subscribing sub) in
  if gone then Ret None else
  call_handler (on_subscription_error sub
                  (_code_number (if is_OperationTimeoutError e
                                 then ErrorCode_TIMEOUT
                                 else ErrorCode_TRANSPORT_CLOSED)) e) >>
  atomic (_schedule_resubscribe sub) >>
  Ret None.

Definition _subscribe_replied (sub : SubId) (v : Value) : Co (option bool) :=
  let! gone := atomic (not_subscribing sub) in
  if gone then Ret None else
  let! reply := as_reply v in
  match reply_error reply with
  | Some error =>
      let '(code, message, temporary) := _extract_error_details error in
      let expired := _is_token_expired code in
      let temporary := if expired then true else temporary in
      atomic (when expired (update_sub sub (set_sub_token EmptyString))) >>
      if temporary
      then
        call_handler (on_subscription_error sub
                        (_code_number ErrorCode_SUBSCRIBE_REPLY_ERROR)
                        (ReplyError code message temporary)) >>
        atomic (_schedule_resubscribe sub) >>
        Ret None
      else
        _move_unsubscribed sub code message false >> Ret None
  | None =>
      match reply_subscribe reply with
      | Some r => _move_subscribed sub r >> Ret None
      | None => Throw KeyError
      end
  end.

Definition _subscribe (channel : string) : Co (option bool) :=
  let! found :=
    atomic (let* sub := get_subscription channel in
            match sub with
            | None => ret None
            | Some s =>
                let* st := get state in
                if negb (ClientState_eqb st CONNECTED) then ret None
                else let* x := read_sub s in ret (Some (s, x))
            end) in
  match found with
  | None => Ret None
  | Some (sub, x) =>
      let send token :=
        let! cmd_id := atomic _next_command_id in
        let! t := atomic (get _timeout) in
        _register_future_with_done cmd_id t
          (fun fut =>
             _send_commands [cmd_subscribe cmd_id channel token] >>
             let! outcome := catch (let! v := await_future fut in Ret (inl v))
                                   (fun e => Ret (inr e)) in
             match outcome with
             | inr e => _subscribe_failed sub e
             | inl v => _subscribe_replied sub v
             end) in
      if negb (String.eqb (sub_token x) EmptyString)
      then send (Some (sub_token x))
      else if sub_get_token x
      then
        Ext (call_sub_get_token sub channel)
            (fun r =>
               match as_token r with
               | Ok token =>
                   atomic (update_sub sub (set_sub_token token)) >>
                   send (Some token)
               | Raise UnauthorizedError =>
                   _move_unsubscribed sub
                     (_code_number UnsubscribedCode_UNAUTHORIZED)
                     (_code_message UnsubscribedCode_UNAUTHORIZED) false >>
                   Ret (Some false)
               | Raise e =>
                   call_handler (on_subscription_error sub
                                   (_code_number ErrorCode_SUBSCRIPTION_SUBSCRIBE_TOKEN) e) >>
                   atomic (ensure_future (task_sub_schedule_resubscribe sub)) >>
                   Ret (Some false)
               end)
      else send None
  end.

(** ** Connecting *)

Definition _restart_ping_wait : M unit :=
  let* pt := get _ping_timer in
  match pt with
  | Some th => cancel th
  | None => ret tt
  end ;;
  let* interval := get _ping_interval in
  let* th := call_later (delay_ping interval) call_no_ping in
  modify (set__ping_timer (Some th)).

(** The connect reply arrived without [error]: everything up to the
    [on_connected] handler, whose call it returns. *)
Definition _connected_begin (reply : Reply) : M ExtCall :=
  match reply_connect reply with
  | None => raise KeyError
  | Some connect =>
      match connect_client connect with
      | None => raise KeyError
      | Some client =>
          modify (set_client_id (Some client)) ;;
          modify (set_state CONNECTED) ;;
          modify (set__send_pong (opt (connect_pong connect) false)) ;;
          modify (set__ping_interval (opt (connect_ping connect) 0)) ;;
          when (0 <? opt (connect_ping connect) 0) _restart_ping_wait ;;
          (if opt (connect_expires connect) false
           then match connect_ttl connect with
                | None => raise KeyError
                | Some ttl =>
                    let* th := call_later (delay_ttl ttl) call_refresh in
                    modify (set__refresh_timer (Some th))
                end
           else ret tt) ;;
          let* f := get _connected_future in
          set_result f VTrue ;;
          let* data := get (fun w => _decode_data w (connect_data connect)) in
          ret (on_connected (connect_client connect)
                            (opt (connect_version connect) EmptyString) data)
      end
  end.

(** After [on_connected]: reset the reconnect state and send a subscribe
    command for every subscription that is SUBSCRIBING. *)
Definition _connected_end : M unit :=
  _clear_connecting_state ;;
  let* channels := get (fun w => dict_keys (_subs w)) in
  for_each channels
    (fun channel =>
       let* sub := get_subscription channel in
       match sub with
       | None => raise KeyError
       | Some s =>
           let* x := read_sub s in
           when (SubscriptionState_eqb (sub_state x) SUBSCRIBING)
                (ensure_future (task_subscribe channel))
       end).

Definition not_connecting : M bool :=
  let* st := get state in
  ret (negb (ClientState_eqb st CONNECTING)).

(** What [_create_connection] does with the outcome of [await future]. *)
Definition _connect_failed (e : Exc) : Co (option bool) :=
  let! gone := (if is_OperationTimeoutError e
                then Ret false
                else atomic not_connecting) in
  if gone then Ret (Some false) else
  _close_transport_conn >>
  call_handler (on_error (_code_number (if is_OperationTimeoutError e
                                        then ErrorCode_TIMEOUT
                                        else ErrorCode_TRANSPORT_CLOSED)) e) >>
  atomic _schedule_reconnect >>
  Ret (Some false).

Definition _connect_replied (v : Value) : Co (option bool) :=
  let! gone := atomic not_connecting in
  if gone then Ret (Some false) else
  let! reply := as_reply v in
  match reply_error reply with
  | Some error =>
      let '(code, message, temporary) := _extract_error_details error in
      let expired := _is_token_expired code in
      let temporary := if expired then true else temporary in
      atomic (when expired (modify (set__token EmptyString))) >>
      if temporary
      then
        _close_transport_conn >>
        call_handler (on_error (_code_number ErrorCode_CONNECT_REPLY_ERROR)
                               (ReplyError code message temporary)) >>
        atomic _schedule_reconnect >>
        Ret (Some false)
      else
        _disconnect code message false >> Ret (Some false)
  | None =>
      let! handler := atomic (_connected_begin reply) in
      call_handler handler >>
      atomic _connected_end >>
      Ret None
  end.

(** [_create_connection] from the second [if self.state != CONNECTING]
    on: start the loops, send the connect command, handle the reply. *)
Definition _send_connect (token : option string) : Co (option bool) :=
  let! gone := atomic not_connecting in
  if gone then Ret (Some false) else
  let! cmd_id := atomic (ensure_future task_listen ;;
                         ensure_future task_process_messages ;;
                         _next_command_id) in
  let! t := atomic (get _timeout) in
  _register_future_with_done cmd_id t
    (fun fut =>
       _send_commands [cmd_connect cmd_id token] >>
       let! outcome := catch (let! v := await_future fut in Ret (inl v))
                             (fun e => Ret (inr e)) in
       match outcome with
       | inr e => _connect_failed e
       | inl v => _connect_replied v
       end).

Definition _create_connection : Co (option bool) :=
  let! gone := atomic not_connecting in
  if gone then Ret (Some false) else
  let! protobuf := atomic (get _use_protobuf) in
  Ext (ws_connect (if protobuf then ["centrifuge-protobuf"%string] else []))
      (fun r =>
         match r with
         | R_raise OSError =>
             call_handler (on_error (_code_number ErrorCode_TRANSPORT_CLOSED) OSError) >>
             atomic (ensure_future task_schedule_reconnect) >>
             Ret (Some false)
         | R_raise e => Throw e
         | _ =>
             let! token := atomic (let* c := new_conn in
                                   modify (set__conn (Some c)) ;;
                                   get _token) in
             if negb (String.eqb token EmptyString)
             then _send_connect (Some token)
             else
               let! provider := atomic (get _get_token) in
               if provider
               then
                 Ext call_get_token
                     (fun r =>
                        match as_token r with
                        | Ok token =>
                            atomic (modify (set__token token)) >>
                            _send_connect (Some token)
                        | Raise UnauthorizedError =>
                            _disconnect (_code_number DisconnectedCode_UNAUTHORIZED)
                                        (_code_message DisconnectedCode_UNAUTHORIZED)
                                        false >>
                            Ret (Some false)
                        | Raise e =>
                            _close_transport_conn >>
                            call_handler (on_error (_code_number ErrorCode_CLIENT_CONNECT_TOKEN) e) >>
                            atomic (ensure_future task_schedule_reconnect) >>
                            Ret (Some false)
                        end)
               else _send_connect None
         end).

Definition _reconnect : Co unit :=
  let! gone := atomic not_connecting in
  if gone then Ret tt else _create_connection >> Ret tt.

(** The head of [connect], up to the handler; [false] when it returned at
    the guard. *)
Definition connect_begin : M bool :=
  let* st := get state in
  match st with
  | CONNECTING | CONNECTED => ret false
  | DISCONNECTED =>
      modify (set_state CONNECTING) ;;
      let* f := get _connected_future in
      let* d := fut_done f in
      when d (let* f' := new_future origin_connected in
              modify (set__connected_future f')) ;;
      ret true
  end.

Definition connect : Co unit :=
  let! go := atomic connect_begin in
  if negb go then Ret tt else
  call_handler (on_connecting (_code_number ConnectingCode_CONNECT_CALLED)
                              (_code_message ConnectingCode_CONNECT_CALLED)) >>
  _create_connection >> Ret tt.

(** ** Token refresh *)

(** [if expires: ttl = result["ttl"]; timer = call_later(ttl, ...)] *)
Definition rearm (result : RefreshResult) (action : TimerAction)
    (store : option TimerId -> M unit) : M unit :=
  if opt (refresh_expires result) false
  then match refresh_ttl result with
       | None => raise KeyError
       | Some ttl =>
           let* th := call_later (delay_ttl ttl) action in
           store (Some th)
       end
  else ret tt.

Definition _refresh : Co unit :=
  let! cmd_id := atomic _next_command_id in
  let! provider := atomic (get _get_token) in
  let refused e :=
    match e with
    | UnauthorizedError =>
        _disconnect (_code_number DisconnectedCode_UNAUTHORIZED)
                    (_code_message DisconnectedCode_UNAUTHORIZED) false
    | _ => call_handler (on_error (_code_number ErrorCode_CLIENT_REFRESH_TOKEN) e)
    end in
  if negb provider then refused (OtherError "TypeError") else
  Ext call_get_token
      (fun r =>
         match as_token r with
         | Raise e => refused e
         | Ok token =>
             let! fut := atomic (modify (set__token token) ;;
                                 let* t := get _timeout in
                                 _register_future cmd_id t) in
             _send_commands [cmd_refresh cmd_id token] >>
             let! outcome := catch (let! v := await_future fut in Ret (inl v))
                                   (fun e => Ret (inr e)) in
             match outcome with
             | inr e =>
                 call_handler (on_error (_code_number ErrorCode_CLIENT_REFRESH_TOKEN) e)
             | inl v =>
                 let! reply := as_reply v in
                 match reply_error reply with
                 | Some error =>
                     let '(code, message, temporary) := _extract_error_details error in
                     call_handler (on_error (_code_number ErrorCode_CLIENT_REFRESH_TOKEN)
                                            (ReplyError code message temporary))
                 | None =>
                     match reply_refresh reply with
                     | None => Throw KeyError
                     | Some result =>
                         atomic (rearm result call_refresh
                                   (fun th => modify (set__refresh_timer th)))
                     end
                 end
             end
         end).

Definition _sub_refresh (channel : string) : Co unit :=
  let! found := atomic (let* sub := get_subscription channel in
                        match sub with
                        | None => ret None
                        | Some s => let* x := read_sub s in ret (Some (s, x))
                        end) in
  match found with
  | None => Ret tt
  | Some (sub, x) =>
      let refused e :=
        match e with
        | UnauthorizedError =>
            _move_unsubscribed sub
              (_code_number UnsubscribedCode_UNAUTHORIZED)
              (_code_message UnsubscribedCode_UNAUTHORIZED) true
        | _ =>
            call_handler (on_subscription_error sub
                            (_code_number ErrorCode_SUBSCRIPTION_SUBSCRIBE_TOKEN) e) >>
            atomic (ensure_future (task_sub_schedule_resubscribe sub))
        end in
      if negb (sub_get_token x) then refused (OtherError "TypeError") else
      Ext (call_sub_get_token sub channel)
          (fun r =>
             match as_token r with
             | Raise e => refused e
             | Ok token =>
                 let! issued := atomic (let* cmd_id := _next_command_id in
                                        update_sub sub (set_sub_token token) ;;
                                        let* t := get _timeout in
                                        let* fut := _register_future cmd_id t in
                                        ret (cmd_id, fut)) in
                 _send_commands [cmd_sub_refresh (fst issued) token] >>
                 let! outcome := catch (let! v := await_future (snd issued) in Ret (inl v))
                                       (fun e => Ret (inr e)) in
                 match outcome with
                 | inr e =>
                     call_handler (on_subscription_error sub
                                     (_code_number ErrorCode_SUBSCRIPTION_REFRESH_TOKEN) e)
                 | inl v =>
                     let! reply := as_reply v in
                     match reply_error reply with
                     | Some error =>
                         let '(code, message, temporary) := _extract_error_details error in
                         call_handler (on_subscription_error sub
                                         (_code_number ErrorCode_SUBSCRIPTION_REFRESH_TOKEN)
                                         (ReplyError code message temporary))
                     | None =>
                         match reply_sub_refresh reply with
                         | None => Throw KeyError
                         | Some result =>
                             atomic (rearm result (call_sub_refresh sub)
                                       (fun th => update_sub sub (set_sub_refresh_timer th)))
                         end
                     end
                 end
             end)
  end.

(** [Subscription._refresh] *)
Definition sub__refresh (sub : SubId) : Co unit :=
  let! s := atomic (read_sub sub) in
  if negb (SubscriptionState_eqb (sub_state s) SUBSCRIBED) then Ret tt else
  atomic (require_client sub) >> _sub_refresh (sub_channel s).

(** ** Replies and pushes *)

Definition _handle_ping : Co unit :=
  let! pong := atomic (get _send_pong) in
  when_co pong (_send_commands [cmd_empty]) >>
  atomic _restart_ping_wait.

Definition _process_unsubscribe (channel : string) (unsubscribe : CodeReason)
    : M unit :=
  let* sub := get_subscription channel in
  match sub with
  | None => ret tt
  | Some s =>
      if cr_code unsubscribe <? 2500
      then ensure_future (task_move_unsubscribed s (cr_code unsubscribe)
                                                 (cr_reason unsubscribe))
      else ensure_future (task_move_subscribing s (cr_code unsubscribe)
                                                (cr_reason unsubscribe))
  end.

(** [reconnect = (3500 <= code < 4000) or (4500 <= code < 5000)] *)
Definition in_reconnect_range (code : Z) : bool :=
  ((3500 <=? code) && (code <? 4000)) || ((4500 <=? code) && (code <? 5000)).

Definition _process_disconnect (disconnect : CodeReason) : Co unit :=
  let code := cr_code disconnect in
  let reconnect := in_reconnect_range code in
  _disconnect code (cr_reason disconnect) reconnect.

Definition _process_publication (channel : string) (pub : RawPub) : Co unit :=
  let! found := atomic (let* sub := get_subscription channel in
                        match sub with
                        | None => ret None
                        | Some s =>
                            let* p := get (fun w => make_publication w pub) in
                            ret (Some (s, p))
                        end) in
  match found with
  | None => Ret tt
  | Some (sub, p) => call_handler (on_publication sub p)
  end.

(** [_process_join] and [_process_leave]; [info] is [join["info"]]. *)
Definition _process_presence (event : SubId -> ClientInfo -> ExtCall)
    (channel : string) (info : RawInfo) : Co unit :=
  let! found := atomic (let* sub := get_subscription channel in
                        match sub with
                        | None => ret None
                        | Some s =>
                            let* i := get (fun w => _extract_client_info w info) in
                            ret (Some (s, i))
                        end) in
  match found with
  | None => Ret tt
  | Some (sub, i) => call_handler (event sub i)
  end.

(** [reply.get("push")]: a dictionary is true when it has a key. *)
Definition push_truthy (p : Push) : bool :=
  match p with
  | {| push_channel := None; push_pub := None; push_join := None;
       push_leave := None; push_unsubscribe := None;
       push_disconnect := None |} => false
  | _ => true
  end.

(** [push["channel"]] *)
Definition channel_of (p : Push) : Co string :=
  match push_channel p with
  | Some c => Ret c
  | None => Throw KeyError
  end.

Definition _process_push (push : Push) : Co unit :=
  match push_pub push with
  | Some pub => let! c := channel_of push in _process_publication c pub
  | None =>
  match push_join push with
  | Some info => let! c := channel_of push in _process_presence on_join c info
  | None =>
  match push_leave push with
  | Some info => let! c := channel_of push in _process_presence on_leave c info
  | None =>
  match push_unsubscribe push with
  | Some u => let! c := channel_of push in atomic (_process_unsubscribe c u)
  | None =>
  match push_disconnect push with
  | Some d => _process_disconnect d
  | None => Ret tt
  end end end end end.

Definition _process_reply (reply : Reply) : Co unit :=
  if 0 <? opt (reply_id reply) 0
  then _future_success (opt (reply_id reply) 0) reply
  else
    match reply_push reply with
    | Some push =>
        if push_truthy push then _process_push push else _handle_ping
    | None => _handle_ping
    end.

Definition _process_incoming_data (message : Message) : Co unit :=
  for_each_co message _process_reply.

(** [_process_messages]: [while True] cut off after [fuel] messages. *)
Fixpoint _process_messages (fuel : nat) : Co unit :=
  match fuel with
  | O => Ret tt
  | S n =>
      let! q := atomic (get _messages) in
      let! message := queue_get q in
      match message with
      | None => Ret tt
      | Some m => _process_incoming_data m >> _process_messages n
      end
  end.

(** ** The receive loop *)

(** What [_listen] passes to [_disconnect] once the connection is closed,
    from the websocket close code and reason. *)
Definition _listen_verdict (close : option Z) (reason : string)
    : Z * string * bool :=
  let '(ws_code, ws_reason) :=
    match close with
    | None => (0, EmptyString)
    | Some c => if c =? 0 then (0, EmptyString) else (c, reason)
    end in
  let default_code := ConnectingCode_TRANSPORT_CLOSED in
  if ws_code <? 3000
  then
    if ws_code =? 1009
    then (_code_number DisconnectedCode_MESSAGE_SIZE_LIMIT,
          _code_message DisconnectedCode_MESSAGE_SIZE_LIMIT, true)
    else (_code_number default_code, _code_message default_code, true)
  else
    (ws_code, ws_reason,
     if in_reconnect_range ws_code then false else true).

(** The end of [_listen], after the [while] loop. *)
Definition _listen_closed : Co unit :=
  let! v := atomic (fun w =>
                      match _conn w with
                      | None => (Raise AttributeError, w)
                      | Some c =>
                          match conn_of w c with
                          | None => (Raise AttributeError, w)
                          | Some x =>
                              (Ok (_listen_verdict (close_code x) (close_reason x)), w)
                          end
                      end) in
  let '(disconnect_code, disconnect_reason, reconnect) := v in
  _disconnect disconnect_code disconnect_reason reconnect.

(** The [while self._conn.open] loop, cut off after [fuel] rounds;
    [false] when the fuel ran out before the loop ended.  A [ws_recv] that
    returns without a message is an empty result. *)
Fixpoint _listen_loop (fuel : nat) : Co bool :=
  match fuel with
  | O => Ret false
  | S n =>
      let! conn := atomic (get _conn) in
      match conn with
      | None => Throw AttributeError
      | Some c =>
          let! is_open := atomic (get (fun w => conn_open w c)) in
          if negb is_open then Ret true else
          Ext (ws_recv c)
              (fun r =>
                 match r with
                 | R_message m =>
                     atomic (let* q := get _messages in queue_put q (Some m)) >>
                     _listen_loop n
                 | R_raise ConnectionClosed => Ret true
                 | R_raise e => Throw e
                 | _ => _listen_loop n
                 end)
      end
  end.

Definition _listen (fuel : nat) : Co unit :=
  let! conn := atomic (get _conn) in
  match conn with
  | None => Throw (CentrifugeError "connection is not initialized")
  | Some _ =>
      let! ended := _listen_loop fuel in
      if ended then _listen_closed else Ret tt
  end.

(** ** Publishing *)

Section Publishing.

Context {encoder : Encoder}.

Definition _encode_data (w : World) (data : Data) : Res Data :=
  if _use_protobuf w
  then match data with
       | data_bytes b => Ok (data_bytes (b64encode b))
       | _ => Raise (CentrifugeError
                       "when using Protobuf protocol you must encode payloads to bytes")
       end
  else match data with
       | data_bytes _ =>
           Raise (CentrifugeError
                    "when using JSON protocol you can not encode payloads to bytes")
       | _ => Ok data
       end.

Definition _check_reply_error (reply : Reply) : Res unit :=
  match reply_error reply with
  | Some error =>
      let '(code, message, temporary) := _extract_error_details error in
      Raise (ReplyError code message temporary)
  | None => Ok tt
  end.

(** [publish], from the statement after [await self.ready()] on: [ready]
    rests on [_wait_for_future] of [centrifuge.utils], which is not among
    the sources.  [timeout] is the argument of the call, [None] when it is
    left out. *)
Definition publish (channel : string) (data : Data) (timeout : option Q)
    : Co unit :=
  let! issued :=
    atomic (let* cmd_id := _next_command_id in
            let* encoded := (fun w => (_encode_data w data, w)) in
            let* t := get (fun w => match timeout with
                                    | Some t => if truthy t then t else _timeout w
                                    | None => _timeout w
                                    end) in
            let* fut := _register_future cmd_id t in
            ret (cmd_publish cmd_id channel encoded, fut)) in
  let '(command, fut) := issued in
  _send_commands [command] >>
  let! v := await_future fut in
  let! reply := as_reply v in
  match _check_reply_error reply with
  | Raise e => Throw e
  | Ok _ => Ret tt
  end.

End Publishing.

(** ** Tasks and timer callbacks *)

Definition task_body (fuel : nat) (t : TaskName) : Co unit :=
  match t with
  | task_schedule_reconnect => atomic _schedule_reconnect
  | task_reconnect => _reconnect
  | task_listen => _listen fuel
  | task_process_messages => _process_messages fuel
  | task_no_ping => _no_ping
  | task_refresh => _refresh
  | task_subscribe channel => _subscribe channel >> Ret tt
  | task_resubscribe sub => atomic (resubscribe sub)
  | task_move_unsubscribed sub code reason =>
      _move_unsubscribed sub code reason false
  | task_move_subscribing sub code reason =>
      move_subscribing sub code reason false
  | task_sub_schedule_resubscribe sub => atomic (_schedule_resubscribe sub)
  | task_sub_resubscribe sub => _resubscribe sub
  | task_sub_refresh sub => sub__refresh sub
  end.

(** What the loop runs when a timer is due. *)
Definition fire (a : TimerAction) : M unit :=
  match a with
  | timeout_cb cmd_id fut => cb cmd_id fut
  | call_reconnect => ensure_future task_reconnect
  | call_no_ping => ensure_future task_no_ping
  | call_refresh => ensure_future task_refresh
  | call_sub_refresh sub => ensure_future (task_sub_refresh sub)
  | call_resubscribe sub => ensure_future (task_sub_resubscribe sub)
  end.

(** ** Running a coroutine on its own

    [run env c w tr] runs [c] from [w] with no other task in between:
    every external call [x] is answered at once with [env x] and recorded
    in the trace.  It stops when [c] has finished or waits. *)
Fixpoint run {A} (env : ExtCall -> ExtResult) (c : Co A) (w : World)
    (tr : list ExtCall) : World * Co A * list ExtCall :=
  match c with
  | Step m =>
      match m w with
      | Some (w', c') => run env c' w' tr
      | None => (w, c, tr)
      end
  | Ext x k => run env (k (env x)) w (tr ++ [x])
  | _ => (w, c, tr)
  end.

(** Handlers return, the transport does what it is asked. *)
Definition quiet : ExtCall -> ExtResult := fun _ => R_done.

(** ** Well-formed registries

    In a registry the loop has not corrupted, the records have different
    keys, different future objects, and every future and every barrier
    they hold is still unresolved. *)

Definition callback_refs (c : _Callback) : list FutId :=
  future c :: match done c with Some d => [d] | None => [] end.

Definition registry_refs (reg : dict Z _Callback) : list FutId :=
  flat_map (fun kc => callback_refs (snd kc)) reg.

Definition is_pending (h : list Future) (f : FutId) : Prop :=
  exists o, nth_error h f = Some {| fut_origin := o; fut_status := Pending |}.

Record registry_ok (w : World) : Prop := {
  registry_keys : NoDup (dict_keys (_futures w));
  registry_distinct : NoDup (registry_refs (_futures w));
  registry_pending : Forall (is_pending (heap_futures w))
                            (registry_refs (_futures w)) }.

(** The "connected" future against the state: unresolved while the client
    is CONNECTING; unresolved, or failed by a terminal disconnect, while it
    is DISCONNECTED. *)
Definition connected_signal_ok (w : World) : Prop :=
  match state w with
  | CONNECTED => True
  | CONNECTING => fut_status_of w (_connected_future w) = Pending
  | DISCONNECTED =>
      fut_status_of w (_connected_future w) = Pending
      \/ exists code reason,
           fut_status_of w (_connected_future w)
           = Failed (ClientDisconnectedError (client_disconnected code reason))
  end.

(** What resolving a record does to the futures heap: the reply future
    gets its status and the barrier, if there is one, is signalled. *)
Definition settle (h : list Future) (c : _Callback) (s : FutStatus) : list Future :=
  let h1 := heap_update h (future c) (with_status s) in
  match done c with
  | Some d => heap_update h1 d (with_status (Result VTrue))
  | None => h1
  end.

(** What [_clear_outgoing_futures] does to the futures of one record, and
    of a whole registry. *)
Definition fail_callback (h : list Future) (kc : Z * _Callback) : list Future :=
  settle h (snd kc) (Failed (ClientDisconnectedError (command_canceled (fst kc)))).

Definition fail_all (reg : dict Z _Callback) (h : list Future) : list Future :=
  fold_left fail_callback reg h.

Definition cancel_opt (o : option TimerId) (h : list Timer) : list Timer :=
  match o with
  | Some th => heap_update h th cancel_timer
  | None => h
  end.

(** ** [_disconnect], in closed form

    What every call does first: cancel the timers, poison the queue and
    replace it, note that no reconnect is wanted. *)
Definition disconnect_prologue (reconnect : bool) (w : World) : World :=
  let timers :=
    cancel_opt (_reconnect_timer w)
      (cancel_opt (_refresh_timer w)
         (cancel_opt (_ping_timer w) (heap_timers w))) in
  let queues :=
    heap_update (heap_queues w) (_messages w) (fun items => items ++ [None])
    ++ [[]] in
  set__need_reconnect (if reconnect then _need_reconnect w else false)
    (set__messages (List.length (heap_queues w))
       (set_heap_queues queues
          (set__reconnect_timer None
             (set__reconnect_attempts 0
                (set__refresh_timer None
                   (set__ping_timer None
                      (set_heap_timers timers w))))))).

(** What a call does next when the client is not DISCONNECTED: fail the
    pending commands, renew a resolved "connected" future, assign the
    state (after failing the future when no reconnect is wanted). *)
Definition disconnect_epilogue (code : Z) (reason : string) (reconnect : bool)
    (w : World) : World :=
  let h1 := fail_all (_futures w) (heap_futures w) in
  let renew := is_done (status_in h1 (_connected_future w)) in
  let h2 := if renew
            then h1 ++ [{| fut_origin := origin_connected; fut_status := Pending |}]
            else h1 in
  let cf := if renew then List.length h1 else _connected_future w in
  let h3 := if reconnect then h2
            else heap_update h2 cf
                   (with_status (Failed (ClientDisconnectedError
                                           (client_disconnected code reason)))) in
  set_state (if reconnect then CONNECTING else DISCONNECTED)
    (set__connected_future cf
       (set_heap_futures h3
          (set__futures [] w))).

(** ** Worlds that differ in the loop's heaps only *)

(** Every subscription the client's map names is an object. *)
Definition subs_valid (w : World) : Prop :=
  Forall (fun s => s < List.length (heap_subs w))%nat (dict_values (_subs w)).

(** [w'] is [w] with other subscription, timer and future objects; no
    subscription object was created. *)
Definition only_heaps (w w' : World) : Prop :=
  exists F T S,
    w' = set_heap_futures F (set_heap_timers T (set_heap_subs S w)) /\
    List.length S = List.length (heap_subs w) /\
    (forall f, f < List.length (heap_futures w) ->
               nth_error F f = nth_error (heap_futures w) f)%nat.

(** What [_disconnect] does to the transport: [close()] is awaited when
    there is a connection that is not closed yet. *)
Definition closed_transport (w : World) : World :=
  match _conn w with
  | Some c =>
      if conn_not_closed w c
      then set_heap_conns (heap_update (heap_conns w) c closed_conn) w
      else w
  | None => w
  end.

(** ** Relations that every update of the client respects

    [framed R]: the relation [R] is a preorder, and it holds across each
    of the updates the client's code makes to a field or to an object. *)
Class framed (R : World -> World -> Prop) : Prop := {
  framed_preorder :: PreOrder R;
  framed_state : forall w v, R w (set_state v w);
  framed_status : forall w v, R w (set_status v w);
  framed_conn : forall w v, R w (set__conn v w);
  framed_id : forall w, R w (set__id (_id w + 1) w);
  framed_subs :
    forall w k v, R w (set__subs (dict_set String.eqb (_subs w) k v) w);
  framed_messages : forall w v, R w (set__messages v w);
  framed_need_reconnect : forall w, R w (set__need_reconnect false w);
  framed_send_pong : forall w v, R w (set__send_pong v w);
  framed_ping_interval : forall w v, R w (set__ping_interval v w);
  framed_ping_timer : forall w v, R w (set__ping_timer v w);
  framed_refresh_timer : forall w v, R w (set__refresh_timer v w);
  framed_connected_future : forall w v, R w (set__connected_future v w);
  framed_token : forall w v, R w (set__token v w);
  framed_futures_set :
    forall w k v, R w (set__futures (dict_set Z.eqb (_futures w) k v) w);
  framed_futures_del :
    forall w k, R w (set__futures (dict_del Z.eqb (_futures w) k) w);
  framed_reconnect_attempts : forall w v, R w (set__reconnect_attempts v w);
  framed_reconnect_timer : forall w v, R w (set__reconnect_timer v w);
  framed_client_id : forall w v, R w (set_client_id v w);
  framed_future_alloc :
    forall w x, R w (set_heap_futures (heap_futures w ++ [x]) w);
  framed_future_resolve :
    forall w f s,
      is_pending (heap_futures w) f ->
      R w (set_heap_futures (heap_update (heap_futures w) f (with_status s)) w);
  framed_timer_alloc :
    forall w x, R w (set_heap_timers (heap_timers w ++ [x]) w);
  framed_timer_cancel :
    forall w i,
      R w (set_heap_timers (heap_update (heap_timers w) i cancel_timer) w);
  framed_sub_update :
    forall w s f, R w (set_heap_subs (heap_update (heap_subs w) s f) w);
  framed_conn_closed :
    forall w c, R w (set_heap_conns (heap_update (heap_conns w) c closed_conn) w);
  framed_conn_alloc :
    forall w x, R w (set_heap_conns (heap_conns w ++ [x]) w);
  framed_queues : forall w h, R w (set_heap_queues h w);
  framed_spawned : forall w t, R w (set_spawned (spawned w ++ [t]) w) }.

(** ** Everything the client runs

    The public coroutines of the client and of a subscription, the tasks
    the client spawns and the callbacks of its timers.  The subscription
    registry ([new_subscription], [remove_subscription]) is apart. *)
Definition client_respects (R : World -> World -> Prop) : Prop :=
  co_respects R connect
  /\ co_respects R disconnect
  /\ (forall sub, co_respects R (subscribe sub))
  /\ (forall sub, co_respects R (unsubscribe sub))
  /\ (forall fuel t, co_respects R (task_body fuel t))
  /\ (forall a, respects R (fire a)).

(** The channels [_create_connection] sends a subscribe command for once
    the client is connected: those registered with a subscription that is
    SUBSCRIBING, in the order of the map. *)
Definition subscribing_channels (w : World) : list string :=
  filter (fun channel =>
            match dict_get String.eqb (_subs w) channel with
            | Some s =>
                match sub_of w s with
                | Some x => SubscriptionState_eqb (sub_state x) SUBSCRIBING
                | None => false
                end
            | None => false
            end)
         (dict_keys (_subs w)).


(** What [_schedule_reconnect] does once its guards are passed: the
    backoff timer of the next attempt. *)
Definition reconnect_armed (w : World) : World :=
  set__reconnect_timer (Some (List.length (heap_timers w)))
    (set_heap_timers
       (heap_timers w
        ++ [{| timer_delay := delay_backoff (_reconnect_attempts w);
               timer_action := call_reconnect;
               timer_status := Scheduled |}])
       (set__reconnect_attempts (_reconnect_attempts w + 1)
          (set_status (Some CONNECTING) w))).


End Client.

(** * Sample inputs

    An instance of the imports and a few worlds to evaluate the model on.
    The numbers stand in for [centrifuge.codes], which is not at hand; the
    facts below are proved for every instance.  Code 109 is the one the
    specification's scenario S3 uses for an expired token. *)

#[global] Instance sample_imports : Imports := {|
  _code_number := fun c =>
    match c with
    | ConnectingCode_CONNECT_CALLED => 0
    | ConnectingCode_TRANSPORT_CLOSED => 1
    | ConnectingCode_NO_PING => 2
    | ConnectingCode_UNSUBSCRIBE_ERROR => 4
    | DisconnectedCode_DISCONNECT_CALLED => 0
    | DisconnectedCode_UNAUTHORIZED => 1
    | DisconnectedCode_MESSAGE_SIZE_LIMIT => 3
    | ErrorCode_TIMEOUT => 1
    | ErrorCode_TRANSPORT_CLOSED => 2
    | ErrorCode_CLIENT_CONNECT_TOKEN => 5
    | ErrorCode_CLIENT_REFRESH_TOKEN => 6
    | ErrorCode_CONNECT_REPLY_ERROR => 12
    | ErrorCode_SUBSCRIBE_REPLY_ERROR => 13
    | ErrorCode_SUBSCRIPTION_SUBSCRIBE_TOKEN => 8
    | ErrorCode_SUBSCRIPTION_REFRESH_TOKEN => 9
    | SubscribingCode_SUBSCRIBE_CALLED => 0
    | SubscribingCode_TRANSPORT_CLOSED => 1
    | UnsubscribedCode_UNSUBSCRIBE_CALLED => 0
    | UnsubscribedCode_UNAUTHORIZED => 1
    end;
  _code_message := fun c =>
    match c with
    | ConnectingCode_CONNECT_CALLED => "connect called"
    | ConnectingCode_TRANSPORT_CLOSED => "transport closed"
    | ConnectingCode_NO_PING => "no ping"
    | ConnectingCode_UNSUBSCRIBE_ERROR => "unsubscribe error"
    | DisconnectedCode_DISCONNECT_CALLED => "disconnect called"
    | DisconnectedCode_UNAUTHORIZED => "unauthorized"
    | DisconnectedCode_MESSAGE_SIZE_LIMIT => "message size limit"
    | ErrorCode_TIMEOUT => "timeout"
    | ErrorCode_TRANSPORT_CLOSED => "transport closed"
    | ErrorCode_CLIENT_CONNECT_TOKEN => "client connect token"
    | ErrorCode_CLIENT_REFRESH_TOKEN => "client refresh token"
    | ErrorCode_CONNECT_REPLY_ERROR => "connect reply error"
    | ErrorCode_SUBSCRIBE_REPLY_ERROR => "subscribe reply error"
    | ErrorCode_SUBSCRIPTION_SUBSCRIBE_TOKEN => "subscription subscribe token"
    | ErrorCode_SUBSCRIPTION_REFRESH_TOKEN => "subscription refresh token"
    | SubscribingCode_SUBSCRIBE_CALLED => "subscribe called"
    | SubscribingCode_TRANSPORT_CLOSED => "transport closed"
    | UnsubscribedCode_UNSUBSCRIBE_CALLED => "unsubscribe called"
    | UnsubscribedCode_UNAUTHORIZED => "unauthorized"
    end%string;
  _is_token_expired := fun code => code =? 109;
  b64decode := fun s => s |}.

#[global] Instance sample_encoder : Encoder := {| b64encode := fun s => s |}.

(** The world after a coroutine has run on its own. *)
Definition world_after {A} (c : Co A) (w : World) : World :=
  fst (fst (run quiet c w [])).


(** The connect reply of scenario S1. *)
Definition sample_connect_reply : Reply :=
  {| reply_id := Some 1; reply_error := None;
     reply_connect :=
       Some {| connect_client := Some "abc"%string; connect_version := None;
               connect_data := None; connect_pong := Some true;
               connect_ping := Some 25; connect_expires := None;
               connect_ttl := None |};
     reply_subscribe := None; reply_refresh := None;
     reply_sub_refresh := None; reply_push := None |}.

(** A client with a static token, a timeout of five seconds and one
    subscription, after [connect()]: the connect command is on its way. *)
Definition sample_connecting : World :=
  world_after connect
    (snd (new_subscription "news"%string EmptyString false
            (__init__ "t"%string false false 5%Q))).

(** The same client once the reply of S1 has arrived: the process loop
    resolves the command and waits at the barrier, [connect()] goes on to
    the end, the process loop goes on. *)
Definition sample_connected : World :=
  let '(w1, connecting, _) :=
    run quiet connect
      (snd (new_subscription "news"%string EmptyString false
              (__init__ "t"%string false false 5%Q))) [] in
  let '(w2, processing, _) :=
    run quiet (_process_reply sample_connect_reply) w1 [] in
  let '(w3, _, _) := run quiet connecting w2 [] in
  fst (fst (run quiet processing w3 [])).

(** The transport once the peer has closed it with a close frame: what the
    [websockets] connection then shows in [state], [close_code] and
    [close_reason]. *)
Definition closed_by_peer (code : Z) (reason : string) (w : World) : World :=
  match _conn w with
  | Some c =>
      set_heap_conns
        (heap_update (heap_conns w) c
           (fun _ => {| conn_state := WS_CLOSED; close_code := Some code;
                        close_reason := reason |})) w
  | None => w
  end.

(** The connected client whose server closed the transport with 3500. *)
Definition sample_peer_closed : World :=
  closed_by_peer 3500 "shutdown"%string sample_connected.

(** A client that never connected: [subscribe()] and then [unsubscribe()]
    on its subscription.  The unsubscribe command is registered before
    [_send_commands] finds no connection. *)
Definition sample_offline : World :=
  world_after (unsubscribe 0%nat)
    (world_after (subscribe 0%nat)
       (snd (new_subscription "news"%string EmptyString false
               (__init__ "t"%string false false 5%Q)))).

(** The subscription of [sample_offline] after one more [subscribe()]. *)
Definition sample_resubscribed : World :=
  world_after (subscribe 0%nat) sample_offline.

Definition empty_subscribe_result : SubscribeResult :=
  {| subscribe_recoverable := None; subscribe_positioned := None;
     subscribe_offset := None; subscribe_epoch := None;
     subscribe_expires := None; subscribe_ttl := None;
     subscribe_was_recovering := None; subscribe_recovered := None;
     subscribe_data := None; subscribe_publications := [] |}.

(** A publication push for the channel of the sample subscription. *)
Definition sample_publication : Reply :=
  {| reply_id := None; reply_error := None; reply_connect := None;
     reply_subscribe := None; reply_refresh := None;
     reply_sub_refresh := None;
     reply_push :=
       Some {| push_channel := Some "news"%string;
               push_pub := Some {| pub_offset := Some 7; pub_data := None;
                                   pub_info := None |};
               push_join := None; push_leave := None;
               push_unsubscribe := None; push_disconnect := None |} |}.

(** The connect reply of scenario S3: the token has expired. *)
Definition sample_expired_reply : Reply :=
  {| reply_id := Some 1;
     reply_error := Some {| error_code := 109;
                            error_message := "expired"%string;
                            error_temporary := Some false |};
     reply_connect := None; reply_subscribe := None; reply_refresh := None;
     reply_sub_refresh := None; reply_push := None |}.

(** The connected sample client after [subscribe()] on its subscription. *)
Definition sample_subscribing : World :=
  world_after (subscribe 0%nat) sample_connected.

(** The sample client after the reply of S3: the reconnect timer is armed. *)
Definition sample_reconnecting : World :=
  world_after (_connect_replied (VReply sample_expired_reply)) sample_connecting.

(** The sample subscription object in a given state. *)
Definition sample_subscription (st : SubscriptionState) : Subscription :=
  {| sub_channel := "news"%string; sub_state := st;
     sub_subscribed_future := 1%nat; sub_client := true;
     sub_token := EmptyString; sub_get_token := false;
     sub_resubscribe_attempts := 0; sub_refresh_timer := None;
     sub_resubscribe_timer := None |}.

(** Token providers that fail, everything else answering normally. *)
Definition failing_provider (e : Exc) : ExtCall -> ExtResult :=
  fun call => match call with
              | call_get_token => R_raise e
              | call_sub_get_token _ _ => R_raise e
              | _ => R_done
              end.

(** A client with one subscription that has a token provider. *)
Definition sample_with_provider : World :=
  snd (new_subscription "news"%string EmptyString true
         (__init__ "t"%string false false 5%Q)).

(** A connect reply that expires but carries no ttl. *)
Definition sample_reply_without_ttl : Reply :=
  {| reply_id := Some 1; reply_error := None;
     reply_connect :=
       Some {| connect_client := Some "abc"%string; connect_version := None;
               connect_data := None; connect_pong := None;
               connect_ping := None; connect_expires := Some true;
               connect_ttl := None |};
     reply_subscribe := None; reply_refresh := None;
     reply_sub_refresh := None; reply_push := None |}.


(** A join push for the channel of the sample subscription. *)
Definition sample_join_info : RawInfo :=
  {| info_client := Some "abc"%string; info_user := None;
     info_conn_info := None; info_chan_info := None |}.

Definition sample_join_push : Push :=
  {| push_channel := Some "news"%string; push_pub := None;
     push_join := Some sample_join_info; push_leave := None;
     push_unsubscribe := None; push_disconnect := None |}.

Definition sample_join : Reply :=
  {| reply_id := None; reply_error := None; reply_connect := None;
     reply_subscribe := None; reply_refresh := None;
     reply_sub_refresh := None; reply_push := Some sample_join_push |}.

(** A subscribe result that expires after a minute. *)
Definition sample_expiring_subscribe : SubscribeResult :=
  {| subscribe_recoverable := None; subscribe_positioned := None;
     subscribe_offset := None; subscribe_epoch := None;
     subscribe_expires := Some true; subscribe_ttl := Some 60;
     subscribe_was_recovering := None; subscribe_recovered := None;
     subscribe_data := None; subscribe_publications := [] |}.

(** * Facts *)

Unset Implicit Arguments.

(** ** The monad [M], step by step *)

Lemma bindM_get {A B} (f : World -> A) (k : A -> M B) w :
  bindM (get f) k w = k (f w) w.
Proof. reflexivity. Qed.

Lemma bindM_modify {B} (f : World -> World) (k : unit -> M B) w :
  bindM (modify f) k w = k tt (f w).
Proof. reflexivity. Qed.

Lemma bindM_ret {A B} (a : A) (k : A -> M B) w : bindM (ret a) k w = k a w.
Proof. reflexivity. Qed.

Lemma bindM_raise {A B} e (k : A -> M B) w : bindM (raise e) k w = (Raise e, w).
Proof. reflexivity. Qed.

Lemma bindM_ok {A B} (m : M A) (k : A -> M B) w a w' :
  m w = (Ok a, w') -> bindM m k w = k a w'.
Proof. intros H. unfold bindM. now rewrite H. Qed.

Lemma bindM_fail {A B} (m : M A) (k : A -> M B) w e w' :
  m w = (Raise e, w') -> bindM m k w = (Raise e, w').
Proof. intros H. unfold bindM. now rewrite H. Qed.

Lemma bindM_assoc {A B C} (m : M A) (f : A -> M B) (g : B -> M C) w :
  bindM (bindM m f) g w = bindM m (fun a => bindM (f a) g) w.
Proof. unfold bindM. destruct (m w) as [[a|e] w']; reflexivity. Qed.

Lemma when_true (body : M unit) : when true body = body.
Proof. reflexivity. Qed.

Lemma when_false (body : M unit) : when false body = ret tt.
Proof. reflexivity. Qed.

(** Unfolding the loop's primitives down to world updates. *)
Ltac unfold_prims :=
  unfold cancel, queue_put, new_queue, new_future, call_later, ensure_future,
    update_sub, mark_closed, new_conn, fut_done, heap_alloc in *.

Ltac unfold_monad :=
  unfold bindM, get, modify, when, ret, raise in *.

(** One statement of a block: a monad law, or a statement that computes
    to a value and a world. *)
Ltac mstep :=
  first [ rewrite bindM_assoc
        | rewrite bindM_get | rewrite bindM_modify | rewrite bindM_ret
        | rewrite bindM_raise
        | erewrite bindM_ok
            by (unfold_prims; unfold_monad; cbv beta iota zeta; reflexivity) ];
  cbn beta iota.

Ltac msteps := repeat mstep.

(** Field reads of field updates, and nothing else. *)
Ltac wcbn :=
  cbn [set_state set_status set__conn set__id set__subs set__messages
       set__need_reconnect set__send_pong set__ping_interval set__ping_timer
       set__refresh_timer set__connected_future set__token set__futures
       set__reconnect_attempts set__reconnect_timer set_client_id
       set_heap_futures set_heap_timers set_heap_subs set_heap_conns
       set_heap_queues set_spawned set_sub_state set_sub_subscribed_future
       set_sub_client set_sub_token set_sub_resubscribe_attempts
       set_sub_refresh_timer set_sub_resubscribe_timer _timeout _use_protobuf
       _get_token state status _conn _id _subs _messages _need_reconnect
       _send_pong _ping_interval _ping_timer _refresh_timer _connected_future
       _token _futures _reconnect_attempts _reconnect_timer client_id
       heap_futures heap_timers heap_subs heap_conns heap_queues spawned
       sub_channel sub_state sub_subscribed_future sub_client sub_token
       sub_get_token sub_resubscribe_attempts sub_refresh_timer
       sub_resubscribe_timer fst snd].
Ltac wcbn_in H :=
  cbn [set_state set_status set__conn set__id set__subs set__messages
       set__need_reconnect set__send_pong set__ping_interval set__ping_timer
       set__refresh_timer set__connected_future set__token set__futures
       set__reconnect_attempts set__reconnect_timer set_client_id
       set_heap_futures set_heap_timers set_heap_subs set_heap_conns
       set_heap_queues set_spawned set_sub_state set_sub_subscribed_future
       set_sub_client set_sub_token set_sub_resubscribe_attempts
       set_sub_refresh_timer set_sub_resubscribe_timer _timeout _use_protobuf
       _get_token state status _conn _id _subs _messages _need_reconnect
       _send_pong _ping_interval _ping_timer _refresh_timer _connected_future
       _token _futures _reconnect_attempts _reconnect_timer client_id
       heap_futures heap_timers heap_subs heap_conns heap_queues spawned
       sub_channel sub_state sub_subscribed_future sub_client sub_token
       sub_get_token sub_resubscribe_attempts sub_refresh_timer
       sub_resubscribe_timer fst snd] in H.

(** ** Induction on coroutines *)

(** ** Induction on coroutines *)

Lemma Co_induction (A : Type) (P : Co A -> Prop) :
  (forall a, P (Ret a)) ->
  (forall e, P (Throw e)) ->
  (forall m, (forall w w' c', m w = Some (w', c') -> P c') -> P (Step m)) ->
  (forall x k, (forall r, P (k r)) -> P (Ext x k)) ->
  forall c, P c.
Proof.
  intros HRet HThrow HStep HExt.
  fix IH 1. intros [a|e|m|x k].
  - apply HRet.
  - apply HThrow.
  - apply HStep. intros w w' c'.
    destruct (m w) as [[w1 c1]|]; intros H; [|discriminate].
    injection H as <- <-. apply IH.
  - apply HExt. intros r. apply IH.
Qed.

(** ** Blocks and coroutines that respect a relation *)

Section Respects.

Context {R : World -> World -> Prop} {R_preorder : PreOrder R}.

Let R_refl : forall w, R w w := @reflexivity _ R _.

Let R_trans : forall w1 w2 w3, R w1 w2 -> R w2 w3 -> R w1 w3 :=
  @transitivity _ R _.

Lemma respects_ret {A} (a : A) : respects R (ret a).
Proof. intros w. apply R_refl. Qed.

Lemma respects_raise {A} e : respects R (@raise A e).
Proof. intros w. apply R_refl. Qed.

Lemma respects_get {A} (f : World -> A) : respects R (get f).
Proof. intros w. apply R_refl. Qed.

Lemma respects_modify (f : World -> World) :
  (forall w, R w (f w)) -> respects R (modify f).
Proof. intros H w. apply H. Qed.

Lemma respects_bind {A B} (m : M A) (k : A -> M B) :
  respects R m -> (forall a, respects R (k a)) -> respects R (bindM m k).
Proof.
  intros Hm Hk w. unfold bindM. specialize (Hm w).
  destruct (m w) as [[a|e] w1]; simpl in *.
  - eapply R_trans; [exact Hm|]. apply Hk.
  - exact Hm.
Qed.

Lemma respects_when c (body : M unit) :
  respects R body -> respects R (when c body).
Proof. intros H. destruct c; simpl; [exact H | apply respects_ret]. Qed.

Lemma respects_for_each {X} (xs : list X) (body : X -> M unit) :
  (forall x, respects R (body x)) -> respects R (for_each xs body).
Proof.
  intros H. induction xs as [|x xs IH]; simpl.
  - apply respects_ret.
  - apply respects_bind; auto.
Qed.

Lemma respects_read_sub s : respects R (read_sub s).
Proof. intros w. unfold read_sub. destruct (sub_of w s); apply R_refl. Qed.

Lemma co_respects_Ret {A} (a : A) : co_respects R (Ret a).
Proof. exact I. Qed.

Lemma co_respects_Throw {A} e : co_respects R (@Throw A e).
Proof. exact I. Qed.

Lemma co_respects_atomic {A} (m : M A) :
  respects R m -> co_respects R (atomic m).
Proof.
  intros H w. specialize (H w). simpl.
  destruct (m w) as [[a|e] w1]; simpl in *; auto.
Qed.

Lemma co_respects_await f : co_respects R (await_future f).
Proof.
  intros w. simpl. destruct (fut_status_of w f); simpl; auto.
Qed.

Lemma co_respects_call_handler x : co_respects R (call_handler x).
Proof. intros r. destruct r; exact I. Qed.

Lemma co_respects_bind {A B} (c : Co A) (f : A -> Co B) :
  co_respects R c -> (forall a, co_respects R (f a)) -> co_respects R (bind c f).
Proof.
  intros Hc Hf. revert Hc.
  induction c as [a|e|m IH|x k IH] using Co_induction; simpl; intros Hc.
  - apply Hf.
  - exact I.
  - intros w. pose proof (Hc w) as Hw.
    destruct (m w) as [[w1 c1]|] eqn:E; [|exact I].
    destruct Hw as [H1 H2]. split; [exact H1|]. eapply IH; eauto.
  - intros r. apply IH. apply Hc.
Qed.

Lemma co_respects_catch {A} (c : Co A) (h : Exc -> Co A) :
  co_respects R c -> (forall e, co_respects R (h e)) -> co_respects R (catch c h).
Proof.
  intros Hc Hh. revert Hc.
  induction c as [a|e|m IH|x k IH] using Co_induction; simpl; intros Hc.
  - exact I.
  - apply Hh.
  - intros w. pose proof (Hc w) as Hw.
    destruct (m w) as [[w1 c1]|] eqn:E; [|exact I].
    destruct Hw as [H1 H2]. split; [exact H1|]. eapply IH; eauto.
  - intros r. apply IH. apply Hc.
Qed.

Lemma co_respects_finally {A} (c : Co A) (fin : Co unit) :
  co_respects R c -> co_respects R fin -> co_respects R (finally c fin).
Proof.
  intros Hc Hf. revert Hc.
  induction c as [a|e|m IH|x k IH] using Co_induction; simpl; intros Hc.
  - apply co_respects_bind; [exact Hf | intros _; exact I].
  - apply co_respects_bind; [exact Hf | intros _; exact I].
  - intros w. pose proof (Hc w) as Hw.
    destruct (m w) as [[w1 c1]|] eqn:E; [|exact I].
    destruct Hw as [H1 H2]. split; [exact H1|]. eapply IH; eauto.
  - intros r. apply IH. apply Hc.
Qed.

Lemma co_respects_when_co b (c : Co unit) :
  co_respects R c -> co_respects R (when_co b c).
Proof. intros H. destruct b; simpl; [exact H | exact I]. Qed.

Lemma co_respects_for_each_co {X} (xs : list X) (body : X -> Co unit) :
  (forall x, co_respects R (body x)) -> co_respects R (for_each_co xs body).
Proof.
  intros H. induction xs as [|x xs IH]; simpl.
  - exact I.
  - apply co_respects_bind; auto.
Qed.

(** A run of a coroutine that respects [R] ends in a related world, and
    what is left of the coroutine respects [R] as well. *)
Lemma co_respects_run {A} env (c : Co A) : forall w tr,
  co_respects R c ->
  R w (fst (fst (run env c w tr)))
  /\ co_respects R (snd (fst (run env c w tr))).
Proof.
  induction c as [a|e|m IH|x k IH] using Co_induction; intros w tr Hc.
  - simpl. auto.
  - simpl. auto.
  - simpl. pose proof (Hc w) as Hw.
    destruct (m w) as [[w1 c1]|] eqn:E.
    + destruct Hw as [H1 H2]. destruct (IH w w1 c1 E w1 tr H2) as [H3 H4].
      split; [eapply R_trans; eauto|auto].
    + split; [apply R_refl|]. exact Hc.
  - simpl. apply IH. apply Hc.
Qed.

End Respects.

#[global] Instance same_PreOrder {X} (proj : World -> X) : PreOrder (same proj).
Proof.
  split.
  - intros w. reflexivity.
  - intros w1 w2 w3 H1 H2. unfold same in *. now rewrite H2.
Qed.

(** A block is followed through its statements down to the primitives. *)
Ltac frame_step :=
  first
    [ apply respects_bind; [|intros ?]
    | apply respects_ret
    | apply respects_raise
    | apply respects_get
    | apply respects_when
    | apply respects_for_each; intros ?
    | apply respects_read_sub
    | match goal with
      | |- respects _ (match ?x with _ => _ end) => destruct x
      | |- respects _ (let '(_, _) := ?x in _) => destruct x
      end ].

(** ** Following a relation through the client's code *)

Section RespectsPrimitives.

Context {R : World -> World -> Prop} {R_preorder : PreOrder R}.

Lemma respects_new_future o :
  (forall w x, R w (set_heap_futures (heap_futures w ++ [x]) w)) ->
  respects R (new_future o).
Proof. intros H w. apply H. Qed.

Lemma respects_resolve f s :
  (forall w, is_pending (heap_futures w) f ->
             R w (set_heap_futures
                    (heap_update (heap_futures w) f (with_status s)) w)) ->
  respects R (resolve f s).
Proof.
  intros H w. unfold resolve.
  destruct (nth_error (heap_futures w) f) as [[o [| |]]|] eqn:E;
    try reflexivity.
  apply H. now exists o.
Qed.

Lemma respects_call_later d a :
  (forall w x, R w (set_heap_timers (heap_timers w ++ [x]) w)) ->
  respects R (call_later d a).
Proof. intros H w. apply H. Qed.

Lemma respects_new_queue :
  (forall w x, R w (set_heap_queues (heap_queues w ++ [x]) w)) ->
  respects R new_queue.
Proof. intros H w. apply H. Qed.

Lemma respects_new_conn :
  (forall w x, R w (set_heap_conns (heap_conns w ++ [x]) w)) ->
  respects R new_conn.
Proof. intros H w. apply H. Qed.

Lemma respects_unchanged {A} (m : M A) :
  (forall w, snd (m w) = w) -> respects R m.
Proof. intros H w. rewrite H. reflexivity. Qed.

Lemma co_respects_queue_get q :
  (forall w h, R w (set_heap_queues h w)) -> co_respects R (queue_get q).
Proof.
  intros H w. simpl.
  destruct (nth_error (heap_queues w) q) as [[|item items]|]; simpl;
    try exact I.
  split; [apply H | exact I].
Qed.

Lemma co_respects_Ext {A} x (k : ExtResult -> Co A) :
  (forall r, co_respects R (k r)) -> co_respects R (Ext x k).
Proof. intros H. exact H. Qed.

End RespectsPrimitives.

(** The blocks of the client, down to the primitives. *)
Ltac unfold_blocks :=
  unfold get_subscription, del_sub, _next_command_id,
    _clear_connecting_state, _future_error, cb, arm_timeout, _register_future,
    _register_future_with_done_enter, _future_success_resolve,
    _clear_outgoing_futures, _schedule_reconnect, _clear_subscribed_state,
    _clear_subscribing_state, refresh_subscribed_future, consume_future,
    move_subscribing_begin, require_client, _schedule_resubscribe,
    _disconnect_prepare, _disconnect_settle, _disconnect_begin,
    _move_unsubscribed_begin, resubscribe, _move_subscribed_begin,
    not_subscribing, _restart_ping_wait, _connected_begin, _connected_end,
    not_connecting, connect_begin, rearm, _process_unsubscribe, fire,
    set_result, set_exception, cancel, ensure_future, update_sub, queue_put,
    mark_closed, fut_done.

(** [leaf] proves that the relation holds across one field update. *)
Ltac mframe leaf :=
  repeat first
    [ frame_step
    | apply respects_modify; intros ?; cbv beta; solve [leaf]
    | apply respects_new_future; intros ? ?; solve [leaf]
    | apply respects_resolve; intros ? ?; solve [leaf]
    | apply respects_call_later; intros ? ?; solve [leaf]
    | apply respects_new_queue; intros ? ?; solve [leaf]
    | apply respects_new_conn; intros ? ?; solve [leaf]
    | match goal with
      | H : forall _, respects _ _ |- _ => apply H
      | H : respects _ _ |- _ => exact H
      | |- respects _ (if ?x then _ else _) => destruct x
      end
    | progress unfold_blocks
    | apply respects_unchanged; intros ?;
      repeat match goal with
             | |- context [match ?x with _ => _ end] => destruct x
             end;
      reflexivity ].

(** A field update of the client, by the matching law of [framed]. *)
Ltac framed_leaf :=
  first
    [ apply framed_state | apply framed_status | apply framed_conn
    | apply framed_id | apply framed_subs | apply framed_messages
    | apply framed_need_reconnect | apply framed_send_pong
    | apply framed_ping_interval | apply framed_ping_timer
    | apply framed_refresh_timer | apply framed_connected_future
    | apply framed_token | apply framed_futures_set | apply framed_futures_del
    | apply framed_reconnect_attempts | apply framed_reconnect_timer
    | apply framed_client_id | apply framed_future_alloc
    | apply framed_future_resolve; assumption
    | apply framed_timer_alloc | apply framed_timer_cancel
    | apply framed_sub_update | apply framed_conn_closed
    | apply framed_conn_alloc | apply framed_queues | apply framed_spawned ].

(** The coroutines of the client, one level at a time. *)
Ltac unfold_coroutines :=
  unfold _register_future_with_done, _future_success, _close_transport_conn,
    move_subscribing, _disconnect, disconnect, _no_ping, _send_commands,
    _unsubscribe, _move_unsubscribed, unsubscribe, subscribe, _resubscribe,
    as_reply, _move_subscribed, _subscribe_failed, _subscribe_replied,
    _subscribe, _connect_failed, _connect_replied, _send_connect,
    _create_connection, _reconnect, connect, _refresh, _sub_refresh,
    sub__refresh, _handle_ping, _process_disconnect, _process_publication,
    _process_presence, channel_of, _process_push, _process_reply,
    _process_incoming_data,
    _listen_closed, _listen.

Ltac cframe leaf :=
  repeat first
    [ match goal with
      | H : co_respects _ _ |- _ => exact H
      | H : forall _, co_respects _ _ |- _ => apply H
      | H : forall _ _, co_respects _ _ |- _ => apply H
      | H : forall _ _ _, co_respects _ _ |- _ => apply H
      | H : forall _ _ _ _, co_respects _ _ |- _ => apply H
      end
    | apply co_respects_Ret
    | apply co_respects_Throw
    | apply co_respects_await
    | apply co_respects_call_handler
    | apply co_respects_queue_get; intros ? ?; solve [leaf]
    | apply co_respects_atomic; solve [mframe leaf]
    | apply co_respects_bind; [|intros ?]
    | apply co_respects_catch; [|intros ?]
    | apply co_respects_finally
    | apply co_respects_when_co
    | apply co_respects_for_each_co; intros ?
    | apply co_respects_Ext; intros ?
    | match goal with
      | |- co_respects _ (match ?x with _ => _ end) => destruct x
      | |- co_respects _ (if ?x then _ else _) => destruct x
      | |- co_respects _ (let '(_, _) := ?x in _) => destruct x
      end
    | progress cbv beta
    | progress unfold_coroutines ].

(** The whole client, function by function from the callees up. *)
Ltac client_frame leaf :=
  match goal with
  | |- client_respects ?R =>
      assert (H_close : co_respects R _close_transport_conn)
        by first [ solve [ unfold _close_transport_conn; cframe leaf ] | fail 1000 "H_close" ];
      assert (H_move_subscribing :
                forall sub code reason skip,
                  co_respects R (move_subscribing sub code reason skip))
        by first [ solve [ intros; unfold move_subscribing; cframe leaf ] | fail 1000 "H_move_subscribing" ];
      assert (H_disconnect :
                forall code reason reconnect,
                  co_respects R (_disconnect code reason reconnect))
        by first [ solve [ intros; unfold _disconnect; cframe leaf ] | fail 1000 "H_disconnect" ];
      assert (H_send : forall commands, co_respects R (_send_commands commands))
        by first [ solve [ intros; unfold _send_commands; cframe leaf ] | fail 1000 "H_send" ];
      assert (H_unsubscribe : forall channel, co_respects R (_unsubscribe channel))
        by first [ solve [ intros; unfold _unsubscribe; cframe leaf ] | fail 1000 "H_unsubscribe" ];
      assert (H_move_unsubscribed :
                forall sub code reason send,
                  co_respects R (_move_unsubscribed sub code reason send))
        by first [ solve [ intros; unfold _move_unsubscribed; cframe leaf ] | fail 1000 "H_move_unsubscribed" ];
      assert (H_move_subscribed :
                forall sub r, co_respects R (_move_subscribed sub r))
        by first [ solve [ intros; unfold _move_subscribed; cframe leaf ] | fail 1000 "H_move_subscribed" ];
      assert (H_subscribe : forall channel, co_respects R (_subscribe channel))
        by first [ solve [ intros; unfold _subscribe; cframe leaf ] | fail 1000 "H_subscribe" ];
      assert (H_create : co_respects R _create_connection)
        by first [ solve [ unfold _create_connection; cframe leaf ] | fail 1000 "H_create" ];
      assert (H_future_success :
                forall cmd_id reply, co_respects R (_future_success cmd_id reply))
        by first [ solve [ intros; unfold _future_success; cframe leaf ] | fail 1000 "H_future_success" ];
      assert (H_reply : forall reply, co_respects R (_process_reply reply))
        by first [ solve [ intros; unfold _process_reply; cframe leaf ] | fail 1000 "H_reply" ];
      assert (H_messages : forall fuel, co_respects R (_process_messages fuel))
        by first [ solve [ intros fuel; induction fuel; cbn [_process_messages]; cframe leaf ] | fail 1000 "H_messages" ];
      assert (H_loop : forall fuel, co_respects R (_listen_loop fuel))
        by first [ solve [ intros fuel; induction fuel; cbn [_listen_loop]; cframe leaf ] | fail 1000 "H_loop" ];
      unfold client_respects;
      repeat match goal with |- _ /\ _ => split end;
      [ first [ solve [ unfold connect; cframe leaf ] | fail 1000 "connect" ]
      | first [ solve [ unfold disconnect; cframe leaf ] | fail 1000 "disconnect" ]
      | first [ solve [ intros; unfold subscribe; cframe leaf ]
              | fail 1000 "subscribe" ]
      | first [ solve [ intros; unfold unsubscribe; cframe leaf ]
              | fail 1000 "unsubscribe" ]
      | first [ solve [ intros fuel t; destruct t; unfold task_body; cframe leaf ]
              | fail 1000 "task_body" ]
      | first [ solve [ intros a; destruct a; mframe leaf ] | fail 1000 "fire" ] ]
  end.

(** * Facts *)

Section Facts.
Context {imports : Imports}.

(** ** Heaps *)

Lemma nth_error_heap_set_eq {A} (h : list A) i x :
  (i < List.length h)%nat -> nth_error (heap_set h i x) i = Some x.
Proof.
  revert i; induction h as [|y h IH]; intros [|i] Hi; simpl in *; try lia; auto.
  apply IH; lia.
Qed.

Lemma nth_error_heap_set_neq {A} (h : list A) i j x :
  i <> j -> nth_error (heap_set h i x) j = nth_error h j.
Proof.
  revert i j; induction h as [|y h IH]; intros [|i] [|j] Hij; simpl; auto;
    try congruence.
Qed.

Lemma length_heap_set {A} (h : list A) i x :
  List.length (heap_set h i x) = List.length h.
Proof.
  revert i; induction h as [|y h IH]; intros [|i]; simpl; auto.
Qed.

Lemma nth_error_heap_update_eq {A} (h : list A) i (f : A -> A) :
  nth_error (heap_update h i f) i = option_map f (nth_error h i).
Proof.
  unfold heap_update. destruct (nth_error h i) eqn:E; simpl; auto.
  apply nth_error_heap_set_eq. apply nth_error_Some. congruence.
Qed.

Lemma nth_error_heap_update_neq {A} (h : list A) i j (f : A -> A) :
  i <> j -> nth_error (heap_update h i f) j = nth_error h j.
Proof.
  intros Hij. unfold heap_update. destruct (nth_error h i); auto.
  now apply nth_error_heap_set_neq.
Qed.

Lemma length_heap_update {A} (h : list A) i (f : A -> A) :
  List.length (heap_update h i f) = List.length h.
Proof.
  unfold heap_update. destruct (nth_error h i); auto. apply length_heap_set.
Qed.

Lemma nth_error_alloc_old {A} (h : list A) x i :
  (i < List.length h)%nat -> nth_error (h ++ [x]) i = nth_error h i.
Proof. intros. now apply nth_error_app1. Qed.

Lemma nth_error_alloc_new {A} (h : list A) x :
  nth_error (h ++ [x]) (List.length h) = Some x.
Proof. rewrite nth_error_app2, Nat.sub_diag; auto. Qed.

(** ** Dictionaries *)

Section DictFacts.
Variables (K V : Type) (eqb : K -> K -> bool).
Hypothesis eqb_spec : forall x y, eqb x y = true <-> x = y.

Lemma eqb_refl x : eqb x x = true.
Proof. now apply eqb_spec. Qed.

Lemma eqb_neq x y : x <> y -> eqb x y = false.
Proof.
  intros H. destruct (eqb x y) eqn:E; auto. apply eqb_spec in E. contradiction.
Qed.

Lemma dict_get_In (d : dict K V) k v : dict_get eqb d k = Some v -> In (k, v) d.
Proof.
  induction d as [|[k' v'] d IH]; simpl; try discriminate.
  destruct (eqb k k') eqn:E.
  - apply eqb_spec in E. intros [= ->]. subst. now left.
  - intros H. right. auto.
Qed.

Lemma dict_get_None (d : dict K V) k :
  dict_get eqb d k = None <-> ~ In k (dict_keys d).
Proof.
  induction d as [|[k' v'] d IH]; simpl.
  - intuition.
  - destruct (eqb k k') eqn:E.
    + apply eqb_spec in E. subst. split; [discriminate | intuition].
    + rewrite IH. split; intros H; [intros [->|Hin]|]; intuition.
      rewrite eqb_refl in E. discriminate.
Qed.

Lemma In_dict_get (d : dict K V) k v :
  NoDup (dict_keys d) -> In (k, v) d -> dict_get eqb d k = Some v.
Proof.
  induction d as [|[k' v'] d IH]; simpl; intros Hnd Hin; [contradiction|].
  inversion Hnd as [|? ? Hnotin Hnd']; subst.
  destruct Hin as [[= -> ->]|Hin].
  - now rewrite eqb_refl.
  - destruct (eqb k k') eqn:E; auto.
    apply eqb_spec in E. subst. exfalso. apply Hnotin.
    change k' with (fst (k', v)). now apply in_map.
Qed.

Lemma dict_get_set_eq (d : dict K V) k v : dict_get eqb (dict_set eqb d k v) k = Some v.
Proof.
  induction d as [|[k' v'] d IH]; simpl.
  - now rewrite eqb_refl.
  - destruct (eqb k k') eqn:E; simpl; rewrite E; auto.
Qed.

Lemma dict_get_set_neq (d : dict K V) k k' v :
  k' <> k -> dict_get eqb (dict_set eqb d k v) k' = dict_get eqb d k'.
Proof.
  intros Hne. induction d as [|[k0 v0] d IH]; simpl.
  - now rewrite eqb_neq.
  - destruct (eqb k k0) eqn:E; simpl.
    + apply eqb_spec in E. subst. now rewrite eqb_neq.
    + now rewrite IH.
Qed.

Lemma In_dict_set (d : dict K V) k v kv :
  In kv (dict_set eqb d k v) -> (exists k0, eqb k k0 = true /\ kv = (k0, v)) \/ In kv d.
Proof.
  induction d as [|[k' v'] d IH]; simpl.
  - intros [<-|[]]. left. exists k. split; auto using eqb_refl.
  - destruct (eqb k k') eqn:E; simpl.
    + intros [<-|H]; [left; eauto | right; auto].
    + intros [<-|H]; [right; auto | destruct (IH H); auto].
Qed.

Lemma In_dict_del (d : dict K V) k kv : In kv (dict_del eqb d k) -> In kv d.
Proof.
  induction d as [|[k' v'] d IH]; simpl; auto.
  destruct (eqb k k'); simpl; intuition.
Qed.

Lemma dict_keys_set (d : dict K V) k v :
  dict_keys (dict_set eqb d k v) =
  if dict_mem eqb d k then dict_keys d else dict_keys d ++ [k].
Proof.
  unfold dict_mem. induction d as [|[k' v'] d IH]; simpl; auto.
  destruct (eqb k k') eqn:E; simpl; auto.
  rewrite IH. destruct (dict_get eqb d k); auto.
Qed.

Lemma dict_mem_keys (d : dict K V) k : dict_mem eqb d k = true <-> In k (dict_keys d).
Proof.
  unfold dict_mem. destruct (dict_get eqb d k) eqn:E.
  - split; auto. intros _. apply dict_get_In in E.
    change k with (fst (k, v)). now apply in_map.
  - apply dict_get_None in E. split; [discriminate | contradiction].
Qed.

Lemma NoDup_dict_set (d : dict K V) k v :
  NoDup (dict_keys d) -> NoDup (dict_keys (dict_set eqb d k v)).
Proof.
  intros H. rewrite dict_keys_set. destruct (dict_mem eqb d k) eqn:E; auto.
  apply NoDup_app; auto.
  - repeat constructor. intros [].
  - intros x Hx [<-|[]]. apply dict_mem_keys in Hx. congruence.
Qed.

Lemma dict_keys_del_incl (d : dict K V) k x :
  In x (dict_keys (dict_del eqb d k)) -> In x (dict_keys d).
Proof.
  induction d as [|[k' v'] d IH]; simpl; auto.
  destruct (eqb k k'); simpl; intuition.
Qed.

Lemma NoDup_dict_del (d : dict K V) k :
  NoDup (dict_keys d) -> NoDup (dict_keys (dict_del eqb d k)).
Proof.
  induction d as [|[k' v'] d IH]; simpl; auto.
  intros H. inversion H; subst. destruct (eqb k k'); simpl; auto.
  constructor; auto. intros Hin. apply dict_keys_del_incl in Hin. contradiction.
Qed.

Lemma dict_keys_del_neq (d : dict K V) k x :
  x <> k -> In x (dict_keys d) -> In x (dict_keys (dict_del eqb d k)).
Proof.
  intros Hne. induction d as [|[k' v'] d IH]; simpl; auto.
  destruct (eqb k k') eqn:E; simpl.
  - apply eqb_spec in E. subst. intros [->|H]; auto. congruence.
  - intuition.
Qed.
Lemma dict_keys_del_fresh (d : dict K V) k :
  NoDup (dict_keys d) -> ~ In k (dict_keys (dict_del eqb d k)).
Proof.
  induction d as [|[k' v'] d IH]; simpl; auto.
  intros H. inversion H as [|? ? Hn Hnd]; subst.
  destruct (eqb k k') eqn:E; simpl.
  - apply eqb_spec in E. now subst.
  - intros [->|Hin].
    + rewrite eqb_refl in E. discriminate.
    + now apply IH.
Qed.

Lemma dict_get_del_eq (d : dict K V) k :
  NoDup (dict_keys d) -> dict_get eqb (dict_del eqb d k) k = None.
Proof. intros H. apply dict_get_None. now apply dict_keys_del_fresh. Qed.

Lemma dict_get_del_neq (d : dict K V) k k' :
  k' <> k -> dict_get eqb (dict_del eqb d k) k' = dict_get eqb d k'.
Proof.
  intros Hne. induction d as [|[k0 v0] d IH]; simpl; auto.
  destruct (eqb k k0) eqn:E; simpl.
  - apply eqb_spec in E. subst. now rewrite eqb_neq.
  - now rewrite IH.
Qed.
End DictFacts.

Lemma NoDup_app_disjoint {A} (l1 l2 : list A) x :
  NoDup (l1 ++ l2) -> In x l1 -> In x l2 -> False.
Proof.
  induction l1 as [|y l1 IH]; simpl; intros Hnd H1 H2; [contradiction|].
  inversion Hnd as [|? ? Hn Hnd']; subst.
  destruct H1 as [->|H1]; auto.
  apply Hn. apply in_or_app. now right.
Qed.

(** ** Records are what their fields are *)

Lemma set_heap_timers_same w : set_heap_timers (heap_timers w) w = w.
Proof. now destruct w. Qed.

Lemma set_heap_futures_same w : set_heap_futures (heap_futures w) w = w.
Proof. now destruct w. Qed.

Lemma set__futures_same w : set__futures (_futures w) w = w.
Proof. now destruct w. Qed.

(** ** Futures *)

Lemma is_pending_status w f :
  is_pending (heap_futures w) f -> fut_status_of w f = Pending.
Proof. intros [o H]. unfold fut_status_of, status_in. now rewrite H. Qed.

Lemma is_pending_update_neq h f g s :
  f <> g -> is_pending h g -> is_pending (heap_update h f (with_status s)) g.
Proof.
  intros Hne [o H]. exists o. now rewrite nth_error_heap_update_neq.
Qed.

Lemma is_pending_update_inv h f g s :
  f <> g -> is_pending (heap_update h f (with_status s)) g -> is_pending h g.
Proof.
  intros Hne [o H]. exists o. now rewrite nth_error_heap_update_neq in H.
Qed.

Lemma status_update_eq w h f s :
  heap_futures w = heap_update h f (with_status s) ->
  (f < List.length h)%nat -> fut_status_of w f = s.
Proof.
  intros Hw Hlt. unfold fut_status_of, status_in.
  rewrite Hw, nth_error_heap_update_eq.
  destruct (nth_error h f) eqn:E; simpl; auto.
  apply nth_error_None in E. lia.
Qed.

Lemma is_pending_lt h f : is_pending h f -> (f < List.length h)%nat.
Proof. intros [o H]. apply nth_error_Some. congruence. Qed.

Lemma resolve_pending w f s :
  is_pending (heap_futures w) f ->
  resolve f s w =
  (Ok tt, set_heap_futures (heap_update (heap_futures w) f (with_status s)) w).
Proof. intros [o H]. unfold resolve. now rewrite H. Qed.

Lemma resolve_done w f s :
  fut_status_of w f <> Pending -> resolve f s w = (Raise InvalidStateError, w).
Proof.
  unfold resolve, fut_status_of, status_in.
  destruct (nth_error (heap_futures w) f) as [[o [| |]]|]; simpl; congruence.
Qed.

Lemma fut_done_spec w f : fut_done f w = (Ok (is_done (fut_status_of w f)), w).
Proof. reflexivity. Qed.

(** ** The registry *)

Lemma Zeqb_spec x y : Z.eqb x y = true <-> x = y.
Proof. apply Z.eqb_eq. Qed.

Lemma _future_error_absent w cmd_id exc :
  dict_get Z.eqb (_futures w) cmd_id = None ->
  _future_error cmd_id exc w = (Ok tt, w).
Proof. intros H. unfold _future_error, bindM, get. now rewrite H. Qed.

Lemma _future_error_present w cmd_id c exc :
  dict_get Z.eqb (_futures w) cmd_id = Some c ->
  is_pending (heap_futures w) (future c) ->
  (forall d, done c = Some d ->
             d <> future c /\ is_pending (heap_futures w) d) ->
  _future_error cmd_id exc w =
  (Ok tt,
   set__futures (dict_del Z.eqb (_futures w) cmd_id)
     (set_heap_futures (settle (heap_futures w) c (Failed exc)) w)).
Proof.
  intros Hget Hp Hd. unfold _future_error, bindM, get. rewrite Hget.
  unfold set_exception. rewrite (resolve_pending _ _ _ Hp). unfold settle.
  destruct (done c) as [d|] eqn:Ed.
  - destruct (Hd d eq_refl) as [Hne Hpd].
    unfold set_result. rewrite resolve_pending.
    + reflexivity.
    + cbn. apply is_pending_update_neq; auto.
  - reflexivity.
Qed.

Lemma cb_done w cmd_id fut :
  fut_status_of w fut <> Pending -> cb cmd_id fut w = (Ok tt, w).
Proof.
  intros H. unfold cb, bindM. rewrite fut_done_spec.
  destruct (fut_status_of w fut); simpl; try congruence; reflexivity.
Qed.

Lemma cb_pending w cmd_id fut :
  fut_status_of w fut = Pending ->
  cb cmd_id fut w = _future_error cmd_id OperationTimeoutError w.
Proof.
  intros H. unfold cb, bindM. rewrite fut_done_spec, H. reflexivity.
Qed.

Lemma _future_success_resolve_absent w cmd_id reply :
  dict_get Z.eqb (_futures w) cmd_id = None ->
  _future_success_resolve cmd_id reply w = (Ok None, w).
Proof. intros H. unfold _future_success_resolve, bindM, get. now rewrite H. Qed.

Lemma _future_success_resolve_present w cmd_id c reply :
  dict_get Z.eqb (_futures w) cmd_id = Some c ->
  is_pending (heap_futures w) (future c) ->
  _future_success_resolve cmd_id reply w =
  (Ok (done c),
   set_heap_timers (cancel_opt (timeout c) (heap_timers w))
     (set__futures (dict_del Z.eqb (_futures w) cmd_id)
        (set_heap_futures
           (heap_update (heap_futures w) (future c)
              (with_status (Result (VReply reply)))) w))).
Proof.
  intros Hget Hp. unfold _future_success_resolve, bindM, get. rewrite Hget.
  unfold set_result. rewrite (resolve_pending _ _ _ Hp).
  destruct (timeout c) as [th|]; reflexivity.
Qed.

(** ** Running *)

Lemma run_bind {A B} env (c : Co A) (f : A -> Co B) w tr :
  run env (bind c f) w tr =
  match run env c w tr with
  | (w1, Ret a, tr1) => run env (f a) w1 tr1
  | (w1, Throw e, tr1) => (w1, Throw e, tr1)
  | (w1, c1, tr1) => (w1, bind c1 f, tr1)
  end.
Proof.
  revert w tr. induction c as [a|e|m IH|x k IH] using Co_induction;
    intros w tr; simpl; auto.
  - destruct (m w) as [[w1 c1]|] eqn:E; simpl.
    + eauto.
    + reflexivity.
Qed.

Lemma run_atomic {A} env (m : M A) w tr :
  run env (atomic m) w tr =
  match m w with
  | (Ok a, w') => (w', Ret a, tr)
  | (Raise e, w') => (w', Throw e, tr)
  end.
Proof. simpl. destruct (m w) as [[a|e] w']; reflexivity. Qed.

Lemma run_call_handler env x w tr :
  run env (call_handler x) w tr =
  (w, match env x with R_raise e => Throw e | _ => Ret tt end, tr ++ [x]).
Proof. simpl. destruct (env x); reflexivity. Qed.


Lemma run_Throw {A} env e w tr : run env (@Throw A e) w tr = (w, Throw e, tr).
Proof. reflexivity. Qed.

(** ** [_clear_outgoing_futures] *)

Lemma is_pending_settle_other h c s g :
  ~ In g (callback_refs c) -> is_pending h g -> is_pending (settle h c s) g.
Proof.
  unfold settle, callback_refs. intros Hn Hp.
  destruct (done c) as [d|]; simpl in Hn.
  - apply is_pending_update_neq; [intuition|].
    apply is_pending_update_neq; intuition.
  - apply is_pending_update_neq; intuition.
Qed.

Lemma clear_loop reg : forall w,
  _futures w = reg ->
  registry_ok w ->
  for_each (dict_keys reg)
    (fun cmd_id =>
       _future_error cmd_id (ClientDisconnectedError (command_canceled cmd_id))) w
  = (Ok tt, set__futures [] (set_heap_futures (fail_all reg (heap_futures w)) w)).
Proof.
  induction reg as [|[k c] reg IH]; intros w Hreg [Hk Hd Hp].
  - simpl. unfold ret. rewrite <- Hreg. now destruct w.
  - rewrite Hreg in Hk, Hd, Hp. simpl in Hk.
    change (registry_refs ((k, c) :: reg))
      with (callback_refs c ++ registry_refs reg) in Hd, Hp.
    inversion Hk as [|? ? Hk1 Hk2]; subst.
    apply NoDup_app_remove_l in Hd as Hd2.
    apply Forall_app in Hp as [Hp1 Hp2].
    assert (Hdisj : forall g, In g (registry_refs reg) -> ~ In g (callback_refs c)).
    { intros g Hg Hc. exact (NoDup_app_disjoint _ _ _ Hd Hc Hg). }
    simpl. unfold bindM at 1.
    rewrite (_future_error_present w k c).
    + set (w1 := set__futures _ _).
      assert (E1 : _futures w1 = reg).
      { subst w1. cbn. rewrite Hreg. simpl. now rewrite Z.eqb_refl. }
      assert (Hok1 : registry_ok w1).
      { constructor; rewrite E1; auto.
        subst w1. cbn.
        apply Forall_forall. intros g Hg.
        apply is_pending_settle_other; auto.
        rewrite Forall_forall in Hp2. auto. }
      rewrite (IH w1 E1 Hok1). reflexivity.
    + rewrite Hreg. simpl. now rewrite Z.eqb_refl.
    + inversion Hp1; auto.
    + intros d Ed. apply NoDup_app_remove_r in Hd.
      unfold callback_refs in Hp1, Hd. rewrite Ed in Hp1, Hd.
      inversion Hd as [|? ? Hn _]; subst.
      split.
      * intros ->. apply Hn. now left.
      * inversion Hp1 as [|? ? _ Hp1']; subst. now inversion Hp1'.
Qed.

Lemma _clear_outgoing_futures_spec w :
  registry_ok w ->
  _clear_outgoing_futures w =
  (Ok tt, set__futures [] (set_heap_futures (fail_all (_futures w) (heap_futures w)) w)).
Proof.
  intros Hok. unfold _clear_outgoing_futures, bindM, get.
  now apply clear_loop.
Qed.

(** ** [_disconnect] *)

Lemma _disconnect_prepare_spec reconnect w :
  _disconnect_prepare reconnect w = (Ok tt, disconnect_prologue reconnect w).
Proof.
  unfold _disconnect_prepare, _clear_connecting_state, disconnect_prologue.
  unfold_prims. unfold_monad.
  destruct (_ping_timer w) eqn:E1, (_refresh_timer w) eqn:E2,
    (_reconnect_timer w) eqn:E3, reconnect;
    cbn; rewrite ?E1, ?E2, ?E3; cbn;
    rewrite ?E1, ?E2, ?E3, ?length_heap_update; reflexivity.
Qed.

Lemma _disconnect_settle_disconnected code reason reconnect w :
  state w = DISCONNECTED ->
  _disconnect_settle code reason reconnect w = (Ok false, w).
Proof.
  intros H. unfold _disconnect_settle. unfold_monad. now rewrite H.
Qed.

Lemma status_in_alloc_old h x f :
  (f < List.length h)%nat -> status_in (h ++ [x]) f = status_in h f.
Proof. intros. unfold status_in. now rewrite nth_error_alloc_old. Qed.

Lemma status_in_alloc_new h x :
  status_in (h ++ [x]) (List.length h) = fut_status x.
Proof. unfold status_in. now rewrite nth_error_alloc_new. Qed.

Lemma status_in_update_eq h f s :
  (f < List.length h)%nat -> status_in (heap_update h f (with_status s)) f = s.
Proof.
  intros Hlt. unfold status_in. rewrite nth_error_heap_update_eq.
  destruct (nth_error h f) eqn:E; simpl; auto.
  apply nth_error_None in E. lia.
Qed.

Lemma status_in_update_neq h f g s :
  f <> g -> status_in (heap_update h f (with_status s)) g = status_in h g.
Proof. intros. unfold status_in. now rewrite nth_error_heap_update_neq. Qed.

Lemma is_pending_iff h f :
  is_pending h f <-> (f < List.length h)%nat /\ status_in h f = Pending.
Proof.
  unfold is_pending, status_in. split.
  - intros [o H]. rewrite H. split; auto. apply nth_error_Some. congruence.
  - intros [Hlt Hs]. destruct (nth_error h f) as [[o s]|] eqn:E.
    + simpl in Hs. subst. eauto.
    + apply nth_error_None in E. lia.
Qed.

Lemma length_settle h c s : List.length (settle h c s) = List.length h.
Proof.
  unfold settle. destruct (done c); now rewrite ?length_heap_update.
Qed.

Lemma length_fail_all reg : forall h, List.length (fail_all reg h) = List.length h.
Proof.
  induction reg as [|kc reg IH]; intros h; simpl; auto.
  unfold fail_all in IH. rewrite IH. apply length_settle.
Qed.

Lemma _disconnect_settle_spec code reason reconnect w :
  state w <> DISCONNECTED ->
  registry_ok w ->
  (_connected_future w < List.length (heap_futures w))%nat ->
  _disconnect_settle code reason reconnect w
  = (Ok true, disconnect_epilogue code reason reconnect w).
Proof.
  intros Hst Hok Hcf. unfold _disconnect_settle, disconnect_epilogue.
  mstep.
  destruct (state w) eqn:Est; try congruence; cbn [ClientState_eqb].
  all: rewrite (@bindM_ok _ _ _ _ _ _ _ (_clear_outgoing_futures_spec _ Hok)).
  all: set (h1 := fail_all _ _).
  all: assert (Hlen : List.length h1 = List.length (heap_futures w))
         by apply length_fail_all.
  all: mstep; unfold fut_done; mstep.
  all: unfold fut_status_of; cbn [heap_futures _connected_future set__futures
                                  set_heap_futures].
  all: destruct (is_done (status_in h1 (_connected_future w))) eqn:Ed.
  all: destruct reconnect.
  all: cbn [when].
  all: msteps.
  all: try reflexivity.
  all: unfold set_exception; erewrite bindM_ok;
    [| apply resolve_pending; cbn;
       first [ exists origin_connected; apply nth_error_alloc_new
             | apply is_pending_iff; split; [lia|];
               destruct (status_in h1 (_connected_future w)); auto; discriminate ] ].
  all: unfold consume_future; msteps; unfold fut_status_of; wcbn.
  all: rewrite status_in_update_eq by (rewrite ?length_app; simpl; lia).
  all: cbn [is_CentrifugeError]; msteps; reflexivity.
Qed.

(** ** Subscription objects *)

Lemma read_sub_ok w s x : sub_of w s = Some x -> read_sub s w = (Ok x, w).
Proof. intros H. unfold read_sub. now rewrite H. Qed.

Lemma world_eta w :
  set_heap_futures (heap_futures w)
    (set_heap_timers (heap_timers w) (set_heap_subs (heap_subs w) w)) = w.
Proof. now destruct w. Qed.

Lemma only_heaps_refl w : only_heaps w w.
Proof.
  exists (heap_futures w), (heap_timers w), (heap_subs w).
  split; [symmetry; apply world_eta | auto].
Qed.

Lemma only_heaps_trans w1 w2 w3 :
  only_heaps w1 w2 -> only_heaps w2 w3 -> only_heaps w1 w3.
Proof.
  intros (F1 & T1 & S1 & -> & L1 & P1) (F2 & T2 & S2 & -> & L2 & P2).
  exists F2, T2, S2. split; [reflexivity|]. split.
  - wcbn_in L2. congruence.
  - intros f Hf. wcbn_in P2. rewrite P2.
    + now apply P1.
    + apply nth_error_Some. rewrite P1 by auto. now apply nth_error_Some.
Qed.

Lemma only_heaps_intro w w' F T S :
  w' = set_heap_futures F (set_heap_timers T (set_heap_subs S w)) ->
  List.length S = List.length (heap_subs w) ->
  (forall f, f < List.length (heap_futures w) ->
             nth_error F f = nth_error (heap_futures w) f)%nat ->
  only_heaps w w'.
Proof. intros. exists F, T, S. auto. Qed.

Lemma sub_of_update_eq w s f :
  sub_of (set_heap_subs (heap_update (heap_subs w) s f) w) s
  = option_map f (sub_of w s).
Proof. unfold sub_of. wcbn. apply nth_error_heap_update_eq. Qed.

Lemma sub_of_update w s f x :
  sub_of w s = Some x ->
  sub_of (set_heap_subs (heap_update (heap_subs w) s f) w) s = Some (f x).
Proof. intros H. rewrite sub_of_update_eq, H. reflexivity. Qed.

Lemma sub_of_frame w F T s :
  sub_of (set_heap_futures F (set_heap_timers T w)) s = sub_of w s.
Proof. reflexivity. Qed.

Lemma nth_error_prefix_refl {A} (h : list A) :
  forall f, (f < List.length h)%nat -> nth_error h f = nth_error h f.
Proof. reflexivity. Qed.

Lemma refresh_subscribed_future_spec w sub s :
  sub_of w sub = Some s ->
  exists w', refresh_subscribed_future sub w = (Ok tt, w') /\ only_heaps w w'
             /\ exists s', sub_of w' sub = Some s'
                           /\ sub_state s' = sub_state s
                           /\ sub_channel s' = sub_channel s
                           /\ sub_client s' = sub_client s.
Proof.
  intros Hs. unfold refresh_subscribed_future.
  erewrite bindM_ok by (apply read_sub_ok; eassumption).
  unfold fut_done. mstep.
  destruct (is_done (fut_status_of w (sub_subscribed_future s))); cbn [when].
  - msteps. eexists. split; [reflexivity|]. split.
    + wcbn. eapply only_heaps_intro; [wcbn; reflexivity| |].
      * apply length_heap_update.
      * intros f Hf. now apply nth_error_alloc_old.
    + eexists. split; [apply sub_of_update; eauto|]. auto.
  - eexists. split; [reflexivity|]. split; [apply only_heaps_refl|]. eauto.
Qed.

Lemma _clear_subscribed_state_spec w sub s :
  sub_of w sub = Some s ->
  exists w', _clear_subscribed_state sub w = (Ok tt, w') /\ only_heaps w w'
             /\ exists s', sub_of w' sub = Some s'
                           /\ sub_state s' = sub_state s
                           /\ sub_channel s' = sub_channel s
                           /\ sub_client s' = sub_client s
                           /\ sub_subscribed_future s' = sub_subscribed_future s.
Proof.
  intros Hs. unfold _clear_subscribed_state.
  erewrite bindM_ok by (apply read_sub_ok; eassumption).
  destruct (sub_refresh_timer s) as [th|].
  - msteps. eexists. split; [reflexivity|]. split.
    + wcbn. eapply only_heaps_intro; [wcbn; reflexivity| |].
      * apply length_heap_update.
      * auto.
    + eexists. split; [apply sub_of_update; eauto|]. auto.
  - eexists. split; [reflexivity|]. split; [apply only_heaps_refl|]. eauto 10.
Qed.

Lemma move_subscribing_begin_spec w sub s :
  sub_of w sub = Some s ->
  exists b w', move_subscribing_begin sub w = (Ok b, w') /\ only_heaps w w'.
Proof.
  intros Hs. unfold move_subscribing_begin.
  erewrite bindM_ok by (apply read_sub_ok; eassumption).
  destruct (sub_state s) eqn:Est; cbn [SubscriptionState_eqb when].
  - msteps.
    edestruct refresh_subscribed_future_spec as (w2 & E2 & H2 & _);
      [apply sub_of_update; eassumption|].
    rewrite (@bindM_ok _ _ _ _ _ _ _ E2).
    do 2 eexists. split; [reflexivity|].
    eapply only_heaps_trans; [|exact H2].
    wcbn. eapply only_heaps_intro; [wcbn; reflexivity| |]; auto.
    apply length_heap_update.
  - do 2 eexists. split; [reflexivity|]. apply only_heaps_refl.
  - destruct (_clear_subscribed_state_spec w sub s Hs)
      as (w1 & E1 & H1 & s1 & Hs1 & _).
    rewrite (@bindM_ok _ _ _ _ _ _ _ E1). msteps.
    edestruct refresh_subscribed_future_spec as (w2 & E2 & H2 & _);
      [apply sub_of_update; eassumption|].
    rewrite (@bindM_ok _ _ _ _ _ _ _ E2).
    do 2 eexists. split; [reflexivity|].
    eapply only_heaps_trans; [exact H1|].
    eapply only_heaps_trans; [|exact H2].
    wcbn. eapply only_heaps_intro; [wcbn; reflexivity| |]; auto.
    apply length_heap_update.
Qed.

(** ** Loops of coroutines *)

Lemma run_for_each_co {X} env (body : X -> Co unit)
    (I : World -> list ExtCall -> Prop) xs :
  (forall x w tr, In x xs -> I w tr ->
                  exists w' tr', run env (body x) w tr = (w', Ret tt, tr')
                                 /\ I w' tr') ->
  forall w tr, I w tr ->
               exists w' tr', run env (for_each_co xs body) w tr = (w', Ret tt, tr')
                              /\ I w' tr'.
Proof.
  induction xs as [|x xs IH]; intros Hbody w tr HI; simpl.
  - eauto.
  - destruct (Hbody x w tr) as (w1 & tr1 & E1 & H1); [now left | assumption |].
    rewrite (run_bind env (body x) (fun _ => for_each_co xs body)), E1.
    apply IH; auto. intros; apply Hbody; auto. now right.
Qed.

(** ** The whole of [_disconnect] *)

Lemma _disconnect_begin_disconnected code reason reconnect w :
  state w = DISCONNECTED ->
  _disconnect_begin code reason reconnect w
  = (Ok false, disconnect_prologue reconnect w).
Proof.
  intros H. unfold _disconnect_begin.
  rewrite (@bindM_ok _ _ _ _ _ _ _ (_disconnect_prepare_spec reconnect w)).
  now apply _disconnect_settle_disconnected.
Qed.

Lemma registry_ok_prologue reconnect w :
  registry_ok w -> registry_ok (disconnect_prologue reconnect w).
Proof. intros [H1 H2 H3]. constructor; assumption. Qed.

Lemma _disconnect_begin_live code reason reconnect w :
  state w <> DISCONNECTED ->
  registry_ok w ->
  (_connected_future w < List.length (heap_futures w))%nat ->
  _disconnect_begin code reason reconnect w
  = (Ok true,
     disconnect_epilogue code reason reconnect (disconnect_prologue reconnect w)).
Proof.
  intros Hst Hok Hcf. unfold _disconnect_begin.
  rewrite (@bindM_ok _ _ _ _ _ _ _ (_disconnect_prepare_spec reconnect w)).
  apply _disconnect_settle_spec; auto using registry_ok_prologue.
Qed.

Lemma run_disconnect_guarded env code reason reconnect w tr :
  state w = DISCONNECTED ->
  run env (_disconnect code reason reconnect) w tr
  = (disconnect_prologue reconnect w, Ret tt, tr).
Proof.
  intros H. unfold _disconnect. rewrite run_bind, run_atomic.
  rewrite _disconnect_begin_disconnected by assumption. reflexivity.
Qed.

Lemma run_close_transport w tr :
  exists tr',
    run quiet (when_co match _conn w with
                       | Some c => conn_not_closed w c
                       | None => false
                       end _close_transport_conn) w tr
    = (closed_transport w, Ret tt, tr ++ tr').
Proof.
  unfold closed_transport.
  destruct (_conn w) as [c|] eqn:Ec.
  - destruct (conn_not_closed w c) eqn:En; cbn [when_co].
    + unfold _close_transport_conn. rewrite run_bind, run_atomic. unfold get.
      rewrite Ec. exists [ws_close c]. reflexivity.
    + exists []. rewrite app_nil_r. reflexivity.
  - exists []. rewrite app_nil_r. reflexivity.
Qed.

Lemma only_heaps_length w w' :
  only_heaps w w' -> List.length (heap_subs w') = List.length (heap_subs w).
Proof. intros (F & T & S & -> & L & _). exact L. Qed.

Lemma closed_transport_conns w :
  exists C, closed_transport w = set_heap_conns C w.
Proof.
  unfold closed_transport. destruct (_conn w) as [c|].
  - destruct (conn_not_closed w c); eauto.
    exists (heap_conns w). now destruct w.
  - exists (heap_conns w). now destruct w.
Qed.

Lemma run_move_subscribing_skip w sub s code reason tr :
  sub_of w sub = Some s ->
  exists w' tr',
    run quiet (move_subscribing sub code reason true) w tr = (w', Ret tt, tr ++ tr')
    /\ only_heaps w w'.
Proof.
  intros Hs. unfold move_subscribing. rewrite run_bind, run_atomic.
  destruct (move_subscribing_begin_spec w sub s Hs) as (b & w' & E & H).
  rewrite E. destruct b; cbn [negb].
  - rewrite run_bind, run_call_handler. cbn [quiet when_co run].
    exists w', [on_subscribing sub code reason]. auto.
  - exists w', []. rewrite app_nil_r. auto.
Qed.

Lemma run_subs_loop code reason w0 (xs : list SubId) : forall w tr,
  only_heaps w0 w ->
  Forall (fun s => s < List.length (heap_subs w0))%nat xs ->
  exists w' tr',
    run quiet
      (for_each_co xs
         (fun sub : SubId =>
            let! s := atomic (read_sub sub) in
            when_co (SubscriptionState_eqb (sub_state s) SUBSCRIBED)
              (move_subscribing sub code reason true))) w tr
    = (w', Ret tt, tr ++ tr')
    /\ only_heaps w0 w'.
Proof.
  induction xs as [|x xs IH]; intros w tr Hw Hxs.
  - exists w, []. rewrite app_nil_r. auto.
  - inversion Hxs as [|? ? Hx Hxs']; subst.
    assert (Hs : exists s, sub_of w x = Some s).
    { unfold sub_of. destruct (nth_error (heap_subs w) x) eqn:E; eauto.
      apply nth_error_None in E. rewrite (only_heaps_length _ _ Hw) in E. lia. }
    destruct Hs as (s & Hs).
    cbn [for_each_co]. rewrite run_bind, run_bind, run_atomic.
    rewrite (read_sub_ok _ _ _ Hs).
    destruct (SubscriptionState_eqb (sub_state s) SUBSCRIBED); cbn [when_co].
    + destruct (run_move_subscribing_skip w x s code reason tr Hs)
        as (w1 & tr1 & E1 & H1).
      rewrite E1.
      assert (Hw1 : only_heaps w0 w1) by eauto using only_heaps_trans.
      destruct (IH w1 (tr ++ tr1) Hw1 Hxs') as (w2 & tr2 & E2 & H2).
      rewrite E2. exists w2, (tr1 ++ tr2). rewrite app_assoc. auto.
    + cbn [run]. destruct (IH w tr Hw Hxs') as (w2 & tr2 & E2 & H2).
      rewrite E2. eauto.
Qed.

Lemma run_disconnect_live code reason reconnect w tr :
  state w <> DISCONNECTED ->
  registry_ok w ->
  (_connected_future w < List.length (heap_futures w))%nat ->
  subs_valid w ->
  exists w1 C tr',
    run quiet (_disconnect code reason reconnect) w tr
    = (set_spawned (spawned w ++ if reconnect then [task_schedule_reconnect] else [])
         w1,
       Ret tt, tr ++ tr' ++ [on_disconnected code reason])
    /\ only_heaps
         (set_heap_conns C
            (disconnect_epilogue code reason reconnect
               (disconnect_prologue reconnect w))) w1
    /\ closed_transport
         (disconnect_epilogue code reason reconnect (disconnect_prologue reconnect w))
       = set_heap_conns C
           (disconnect_epilogue code reason reconnect
              (disconnect_prologue reconnect w)).
Proof.
  intros Hst Hok Hcf Hsubs. unfold _disconnect.
  rewrite run_bind, run_atomic, _disconnect_begin_live by assumption.
  cbn [negb].
  set (we := disconnect_epilogue _ _ _ _).
  rewrite run_bind, run_atomic. unfold get at 1. rewrite run_bind.
  destruct (run_close_transport we tr) as (tr1 & ->).
  destruct (closed_transport_conns we) as (C & EC).
  rewrite run_bind, run_atomic. unfold get at 1.
  set (wc := closed_transport we) in *.
  rewrite run_bind.
  destruct (run_subs_loop (_code_number SubscribingCode_TRANSPORT_CLOSED)
              (_code_message SubscribingCode_TRANSPORT_CLOSED)
              wc (dict_values (_subs wc)) wc (tr ++ tr1)
              (only_heaps_refl wc)) as (w1 & tr2 & E1 & H1).
  { subst wc we. rewrite EC. wcbn. exact Hsubs. }
  rewrite E1. rewrite run_bind, run_call_handler. cbn [quiet].
  exists w1, C, (tr1 ++ tr2). split; [|split; [rewrite <- EC; exact H1 | exact EC]].
  assert (Hsp : spawned w1 = spawned w).
  { destruct H1 as (F & T & S & -> & _). rewrite EC. reflexivity. }
  replace (((tr ++ tr1) ++ tr2) ++ [on_disconnected code reason])
    with (tr ++ (tr1 ++ tr2) ++ [on_disconnected code reason])
    by (now rewrite !app_assoc).
  destruct reconnect; cbn [when_co].
  - rewrite run_atomic. unfold ensure_future, modify. now rewrite Hsp.
  - cbn [run]. rewrite app_nil_r, <- Hsp. now destruct w1.
Qed.

(** ** Server-initiated disconnects *)


Lemma epilogue_state code reason reconnect w :
  state (disconnect_epilogue code reason reconnect w)
  = if reconnect then CONNECTING else DISCONNECTED.
Proof. reflexivity. Qed.


(** ** Transport close *)

Lemma _listen_verdict_low code reason :
  code < 3000 -> code <> 1009 ->
  _listen_verdict (Some code) reason
  = (_code_number ConnectingCode_TRANSPORT_CLOSED,
     _code_message ConnectingCode_TRANSPORT_CLOSED, true).
Proof.
  intros H1 H2. unfold _listen_verdict.
  destruct (code =? 0) eqn:E0.
  - reflexivity.
  - apply Z.ltb_lt in H1. rewrite H1.
    apply Z.eqb_neq in H2. now rewrite H2.
Qed.

Lemma _listen_verdict_1009 reason :
  _listen_verdict (Some 1009) reason
  = (_code_number DisconnectedCode_MESSAGE_SIZE_LIMIT,
     _code_message DisconnectedCode_MESSAGE_SIZE_LIMIT, true).
Proof. reflexivity. Qed.

Lemma _listen_verdict_server code reason :
  3000 <= code ->
  _listen_verdict (Some code) reason
  = (code, reason, negb (in_reconnect_range code)).
Proof.
  intros H. unfold _listen_verdict.
  destruct (code =? 0) eqn:E0; [apply Z.eqb_eq in E0; lia|].
  destruct (code <? 3000) eqn:E1; [apply Z.ltb_lt in E1; lia|].
  now destruct (in_reconnect_range code).
Qed.

(** ** Resolving a command *)

Lemma status_settle_future h c s :
  is_pending h (future c) ->
  (forall d, done c = Some d -> d <> future c) ->
  status_in (settle h c s) (future c) = s.
Proof.
  intros Hp Hd. unfold settle. apply is_pending_lt in Hp.
  destruct (done c) as [d|] eqn:Ed.
  - rewrite status_in_update_neq by (apply Hd; reflexivity).
    now apply status_in_update_eq.
  - now apply status_in_update_eq.
Qed.


Lemma status_settle_other h c s g :
  ~ In g (callback_refs c) -> status_in (settle h c s) g = status_in h g.
Proof.
  unfold settle, callback_refs. intros Hn.
  destruct (done c) as [d|]; simpl in Hn.
  - rewrite !status_in_update_neq; intuition.
  - rewrite status_in_update_neq; intuition.
Qed.

Lemma run_future_success_absent env w cmd_id reply tr :
  dict_get Z.eqb (_futures w) cmd_id = None ->
  run env (_future_success cmd_id reply) w tr = (w, Ret tt, tr).
Proof.
  intros H. unfold _future_success. rewrite run_bind, run_atomic.
  now rewrite _future_success_resolve_absent.
Qed.


(** When its timer fires first, a pending command fails with the timeout
    error: the callback is [_future_error] with [OperationTimeoutError]. *)
Lemma cb_fires w cmd_id c :
  dict_get Z.eqb (_futures w) cmd_id = Some c ->
  is_pending (heap_futures w) (future c) ->
  cb cmd_id (future c) w = _future_error cmd_id OperationTimeoutError w.
Proof. intros _ Hp. apply cb_pending. now apply is_pending_status. Qed.

(** ** What [_disconnect] does to the pending commands *)

Lemma status_fail_all reg : forall h k c,
  NoDup (registry_refs reg) ->
  Forall (is_pending h) (registry_refs reg) ->
  In (k, c) reg ->
  status_in (fail_all reg h) (future c)
  = Failed (ClientDisconnectedError (command_canceled k)).
Proof.
  induction reg as [|[k0 c0] reg IH]; intros h k c Hnd Hp Hin; [contradiction|].
  change (registry_refs ((k0, c0) :: reg))
    with (callback_refs c0 ++ registry_refs reg) in Hnd, Hp.
  apply Forall_app in Hp as [Hp0 Hp1].
  assert (Hdisj : forall g, In g (registry_refs reg) -> ~ In g (callback_refs c0)).
  { intros g Hg Hc. exact (NoDup_app_disjoint _ _ _ Hnd Hc Hg). }
  simpl. destruct Hin as [[= -> ->]|Hin].
  - assert (Hout : ~ In (future c) (registry_refs reg)).
    { intros Hg. apply (Hdisj _ Hg). now left. }
    clear IH. unfold fail_callback. cbn [fst snd].
    assert (Hs : status_in (settle h c (Failed (ClientDisconnectedError
                                                  (command_canceled k)))) (future c)
                 = Failed (ClientDisconnectedError (command_canceled k))).
    { apply status_settle_future.
      - now inversion Hp0.
      - intros d Ed ->. apply NoDup_app_remove_r in Hnd.
        unfold callback_refs in Hnd. rewrite Ed in Hnd.
        inversion Hnd as [|? ? Hn _]; subst. apply Hn. now left. }
    revert Hs Hout. generalize (settle h c (Failed (ClientDisconnectedError
                                                    (command_canceled k)))).
    clear. induction reg as [|[k1 c1] reg IH]; intros h Hs Hout; simpl; auto.
    apply IH.
    + unfold fail_callback. cbn [fst snd]. rewrite status_settle_other; auto.
      intros Hc. apply Hout.
      change (registry_refs ((k1, c1) :: reg))
        with (callback_refs c1 ++ registry_refs reg).
      apply in_or_app. now left.
    + intros Hc. apply Hout.
      change (registry_refs ((k1, c1) :: reg))
        with (callback_refs c1 ++ registry_refs reg).
      apply in_or_app. now right.
  - apply IH; auto.
    + now apply NoDup_app_remove_l in Hnd.
    + apply Forall_forall. intros g Hg. unfold fail_callback. cbn [fst snd].
      apply is_pending_settle_other; auto.
      rewrite Forall_forall in Hp1. auto.
Qed.

(** ** The registry after an internal disconnect *)

Lemma In_registry_refs reg k c :
  In (k, c) reg -> In (future c) (registry_refs reg).
Proof.
  intros H. unfold registry_refs. apply in_flat_map.
  exists (k, c). split; auto. unfold callback_refs. cbn [snd].
  destruct (done c); now left.
Qed.

Lemma epilogue_registry_status code reason reconnect w k c :
  registry_ok w ->
  In (k, c) (_futures w) ->
  (future c < List.length (heap_futures w))%nat
  /\ status_in
       (heap_futures
          (disconnect_epilogue code reason reconnect
             (disconnect_prologue reconnect w))) (future c)
     = Failed (ClientDisconnectedError (command_canceled k)).
Proof.
  intros [Hk Hd Hp] Hin.
  assert (Hlt : (future c < List.length (heap_futures w))%nat).
  { apply is_pending_lt with (h := heap_futures w).
    rewrite Forall_forall in Hp. apply Hp. eapply In_registry_refs; eauto. }
  split; [exact Hlt|].
  pose proof (status_fail_all (_futures w) (heap_futures w) k c Hd Hp Hin) as Hs.
  unfold disconnect_epilogue. wcbn.
  change (_futures (disconnect_prologue reconnect w)) with (_futures w).
  change (heap_futures (disconnect_prologue reconnect w)) with (heap_futures w).
  change (_connected_future (disconnect_prologue reconnect w))
    with (_connected_future w).
  set (h1 := fail_all (_futures w) (heap_futures w)) in *.
  assert (Hl1 : (future c < List.length h1)%nat)
    by (unfold h1; now rewrite length_fail_all).
  destruct (is_done (status_in h1 (_connected_future w))) eqn:Er.
  - destruct reconnect.
    + now rewrite status_in_alloc_old.
    + rewrite status_in_update_neq by lia. now rewrite status_in_alloc_old.
  - destruct reconnect; [exact Hs|].
    rewrite status_in_update_neq; [exact Hs|].
    intros E. rewrite E in Er. rewrite Hs in Er. discriminate.
Qed.

Lemma heap_futures_set_heap_conns C w :
  heap_futures (set_heap_conns C w) = heap_futures w.
Proof. reflexivity. Qed.

Lemma status_in_frame F h f :
  (forall g, g < List.length h -> nth_error F g = nth_error h g)%nat ->
  (f < List.length h)%nat -> status_in F f = status_in h f.
Proof. intros H Hf. unfold status_in. now rewrite H. Qed.

Lemma length_epilogue_futures code reason reconnect w :
  (List.length (heap_futures w)
   <= List.length (heap_futures (disconnect_epilogue code reason reconnect w)))%nat.
Proof.
  unfold disconnect_epilogue. wcbn.
  destruct (is_done _), reconnect;
    rewrite ?length_heap_update, ?length_app, ?length_fail_all; simpl; lia.
Qed.

(** C6, as the code has it: an internal disconnect of a client that is not
    DISCONNECTED empties the registry and fails every command that was
    pending in it with the client-disconnected error naming the command; a
    reply, an error or the timer arriving afterwards finds no record and
    changes nothing.  When the client is DISCONNECTED already the call
    returns at the state guard: the registry and every future are as
    before. *)
Theorem disconnect_clears_registry (w : World) (code : Z) (reason : string)
    (reconnect : bool) (tr : list ExtCall) :
  registry_ok w ->
  (_connected_future w < List.length (heap_futures w))%nat ->
  subs_valid w ->
  exists w' tr',
    run quiet (_disconnect code reason reconnect) w tr = (w', Ret tt, tr')
    /\ (state w <> DISCONNECTED ->
        _futures w' = []
        /\ forall k c, In (k, c) (_futures w) ->
             fut_status_of w' (future c)
             = Failed (ClientDisconnectedError (command_canceled k))
             /\ (forall exc, _future_error k exc w' = (Ok tt, w'))
             /\ (forall env reply tr2,
                    run env (_future_success k reply) w' tr2 = (w', Ret tt, tr2))
             /\ cb k (future c) w' = (Ok tt, w'))
    /\ (state w = DISCONNECTED ->
        _futures w' = _futures w /\ heap_futures w' = heap_futures w).
Proof.
  intros Hok Hcf Hsubs.
  destruct (ClientState_eqb (state w) DISCONNECTED) eqn:Est.
  - assert (Hst : state w = DISCONNECTED) by (destruct (state w); auto; discriminate).
    rewrite run_disconnect_guarded by assumption.
    eexists. eexists. split; [reflexivity|]. split.
    + intros H. contradiction.
    + intros _. split; reflexivity.
  - assert (Hst : state w <> DISCONNECTED) by (intros E; rewrite E in Est; discriminate).
    destruct (run_disconnect_live code reason reconnect w tr Hst Hok Hcf Hsubs)
      as (w1 & C & tr' & E & (F & T & S & E1 & _ & HF) & _).
    rewrite heap_futures_set_heap_conns in HF.
    rewrite E. eexists. eexists. split; [reflexivity|]. split.
    + intros _. rewrite E1. split; [reflexivity|].
      intros k c Hin.
      destruct (epilogue_registry_status code reason reconnect w k c Hok Hin)
        as [Hlt Hs].
      assert (Hst' : status_in F (future c)
                     = Failed (ClientDisconnectedError (command_canceled k))).
      { rewrite <- Hs. apply status_in_frame; [exact HF|].
        eapply Nat.lt_le_trans;
          [|apply (length_epilogue_futures code reason reconnect
                     (disconnect_prologue reconnect w))].
        exact Hlt. }
      split; [exact Hst'|]. split; [|split].
      * intros exc. now apply _future_error_absent.
      * intros env reply tr2. now apply run_future_success_absent.
      * apply cb_done. unfold fut_status_of. wcbn. rewrite Hst'. discriminate.
    + intros H. contradiction.
Qed.

(** ** What the receive loop does when the transport is closed *)

Lemma run_listen_closed env w c x tr :
  _conn w = Some c -> conn_of w c = Some x ->
  run env _listen_closed w tr
  = let '(code, reason, reconnect) :=
      _listen_verdict (close_code x) (close_reason x) in
    run env (_disconnect code reason reconnect) w tr.
Proof.
  intros Hc Hx. unfold _listen_closed. rewrite run_bind, run_atomic.
  rewrite Hc, Hx.
  now destruct (_listen_verdict (close_code x) (close_reason x)) as [[code reason] r].
Qed.

(** C1, as the code has it: when the receive loop ends on a transport
    closed with code [code], a code of 3000 or more gives the internal
    disconnect with the server's code and reason, and the reconnect flag is
    the negation of the range rule of server pushes: no reconnect inside
    [3500, 4000) and [4500, 5000), a reconnect outside.  Code 1009 gives
    MESSAGE_SIZE_LIMIT and every other code below 3000 gives
    TRANSPORT_CLOSED, both with a reconnect.  A disconnect push with the
    same code and reason asks for the reconnect exactly inside the ranges. *)
Theorem listen_closed_policy (env : ExtCall -> ExtResult) (w : World)
    (c : ConnId) (x : Conn) (code : Z) (tr : list ExtCall) :
  _conn w = Some c ->
  conn_of w c = Some x ->
  close_code x = Some code ->
  (3000 <= code ->
   run env _listen_closed w tr
   = run env (_disconnect code (close_reason x)
                (negb (in_reconnect_range code))) w tr)
  /\ (code = 1009 ->
      run env _listen_closed w tr
      = run env (_disconnect (_code_number DisconnectedCode_MESSAGE_SIZE_LIMIT)
                   (_code_message DisconnectedCode_MESSAGE_SIZE_LIMIT) true) w tr)
  /\ (code < 3000 -> code <> 1009 ->
      run env _listen_closed w tr
      = run env (_disconnect (_code_number ConnectingCode_TRANSPORT_CLOSED)
                   (_code_message ConnectingCode_TRANSPORT_CLOSED) true) w tr)
  /\ _process_disconnect {| cr_code := code; cr_reason := close_reason x |}
     = _disconnect code (close_reason x) (in_reconnect_range code).
Proof.
  intros Hc Hx Hcode.
  rewrite (run_listen_closed env w c x tr Hc Hx), Hcode.
  split; [|split; [|split]].
  - intros H. now rewrite _listen_verdict_server.
  - intros ->. now rewrite _listen_verdict_1009.
  - intros H1 H2. now rewrite _listen_verdict_low.
  - reflexivity.
Qed.

(** ** The "connected" future and the state *)

Lemma respects_state_call_later d a : respects (same state) (call_later d a).
Proof. intros w. reflexivity. Qed.

Lemma respects_state_cancel th : respects (same state) (cancel th).
Proof. intros w. reflexivity. Qed.

Lemma respects_state_resolve f s : respects (same state) (resolve f s).
Proof.
  intros w. unfold resolve.
  destruct (nth_error (heap_futures w) f) as [[o [| |]]|]; reflexivity.
Qed.

Lemma _connected_begin_state reply w :
  state (snd (_connected_begin reply w)) = CONNECTED
  \/ snd (_connected_begin reply w) = w.
Proof.
  unfold _connected_begin.
  destruct (reply_connect reply) as [connect|]; [|now right].
  destruct (connect_client connect) as [client|]; [|now right].
  left. do 2 mstep.
  match goal with
  | |- state (snd (?m ?w0)) = _ =>
      assert (H : respects (same state) m); [|exact (H w0)]
  end.
  repeat first
    [ frame_step
    | apply respects_modify; intros ?; reflexivity
    | apply respects_state_call_later
    | apply respects_state_cancel
    | apply respects_state_resolve
    | unfold _restart_ping_wait, set_result ].
Qed.

Lemma connect_begin_signal w :
  connected_signal_ok w -> connected_signal_ok (snd (connect_begin w)).
Proof.
  intros H. unfold connect_begin. mstep.
  destruct (state w) eqn:Est; try exact H.
  msteps. unfold fut_status_of. wcbn.
  destruct (is_done (status_in (heap_futures w) (_connected_future w))) eqn:Ed;
    cbn [when]; msteps; unfold ret, connected_signal_ok, fut_status_of; wcbn.
  - apply status_in_alloc_new.
  - revert Ed. destruct (status_in (heap_futures w) (_connected_future w));
      intros; [reflexivity|discriminate|discriminate].
Qed.

Lemma done_settle h c s f :
  s <> Pending ->
  is_done (status_in h f) = true -> is_done (status_in (settle h c s) f) = true.
Proof.
  intros Hs H.
  assert (Hu : forall h g s', s' <> Pending ->
                 is_done (status_in h f) = true ->
                 is_done (status_in (heap_update h g (with_status s')) f) = true).
  { clear. intros h g s' Hs H. destruct (Nat.eq_dec f g) as [->|Hne].
    - unfold status_in in *. rewrite nth_error_heap_update_eq.
      destruct (nth_error h g); simpl in *; [|discriminate].
      destruct s'; auto.
    - now rewrite status_in_update_neq. }
  unfold settle. destruct (done c) as [d|].
  - apply Hu; [discriminate|]. now apply Hu.
  - now apply Hu.
Qed.

Lemma done_fail_all reg : forall h f,
  is_done (status_in h f) = true -> is_done (status_in (fail_all reg h) f) = true.
Proof.
  induction reg as [|[k c] reg IH]; intros h f H; simpl; auto.
  apply IH. unfold fail_callback. cbn [fst snd]. apply done_settle; auto.
  discriminate.
Qed.

Lemma epilogue_signal code reason reconnect w :
  (_connected_future w < List.length (heap_futures w))%nat ->
  let E := disconnect_epilogue code reason reconnect w in
  (_connected_future E < List.length (heap_futures E))%nat
  /\ status_in (heap_futures E) (_connected_future E)
     = (if reconnect then Pending
        else Failed (ClientDisconnectedError (client_disconnected code reason)))
  /\ (is_done (status_in (heap_futures w) (_connected_future w)) = true ->
      _connected_future E = List.length (heap_futures w)).
Proof.
  intros Hcf. unfold disconnect_epilogue. wcbn.
  set (h1 := fail_all (_futures w) (heap_futures w)).
  assert (Hlen : List.length h1 = List.length (heap_futures w))
    by apply length_fail_all.
  destruct (is_done (status_in h1 (_connected_future w))) eqn:Ed.
  - split; [|split].
    + destruct reconnect; rewrite ?length_heap_update, length_app; simpl; lia.
    + destruct reconnect.
      * apply status_in_alloc_new.
      * apply status_in_update_eq. rewrite length_app. simpl. lia.
    + intros _. exact Hlen.
  - split; [|split].
    + destruct reconnect; rewrite ?length_heap_update; lia.
    + destruct reconnect.
      * revert Ed. destruct (status_in h1 (_connected_future w));
          intros; [reflexivity|discriminate|discriminate].
      * apply status_in_update_eq. lia.
    + intros Hd. apply (done_fail_all (_futures w)) in Hd.
      fold h1 in Hd. rewrite Hd in Ed. discriminate.
Qed.

Lemma prologue_signal reconnect w :
  connected_signal_ok w -> connected_signal_ok (disconnect_prologue reconnect w).
Proof. intros H. exact H. Qed.

Lemma disconnect_begin_signal w code reason reconnect :
  registry_ok w ->
  (_connected_future w < List.length (heap_futures w))%nat ->
  connected_signal_ok w ->
  exists go w1,
    _disconnect_begin code reason reconnect w = (Ok go, w1)
    /\ connected_signal_ok w1
    /\ (state w <> DISCONNECTED ->
        is_done (fut_status_of w (_connected_future w)) = true ->
        _connected_future w1 = List.length (heap_futures w)
        /\ fut_status_of w1 (_connected_future w1)
           = (if reconnect then Pending
              else Failed (ClientDisconnectedError
                             (client_disconnected code reason)))).
Proof.
  intros Hok Hcf Hinv.
  destruct (ClientState_eqb (state w) DISCONNECTED) eqn:Est.
  - assert (Hst : state w = DISCONNECTED)
      by (destruct (state w); auto; discriminate).
    rewrite _disconnect_begin_disconnected by exact Hst.
    eexists. eexists. split; [reflexivity|].
    split; [now apply prologue_signal|]. intros H. contradiction.
  - assert (Hst : state w <> DISCONNECTED)
      by (intros E; rewrite E in Est; discriminate).
    rewrite _disconnect_begin_live by assumption.
    eexists. eexists. split; [reflexivity|].
    destruct (epilogue_signal code reason reconnect
                (disconnect_prologue reconnect w) Hcf) as (H1 & H2 & H3).
    split.
    + unfold connected_signal_ok, fut_status_of.
      rewrite epilogue_state, H2.
      destruct reconnect; cbn iota; [reflexivity|right; eauto].
    + intros _ Hd. split; [exact (H3 Hd)|exact H2].
Qed.

Lemma signal_frame E F T S C :
  (forall g, g < List.length (heap_futures E) ->
             nth_error F g = nth_error (heap_futures E) g)%nat ->
  (_connected_future E < List.length (heap_futures E))%nat ->
  connected_signal_ok E ->
  connected_signal_ok
    (set_heap_futures F (set_heap_timers T (set_heap_subs S (set_heap_conns C E)))).
Proof.
  intros HF Hlt H. unfold connected_signal_ok, fut_status_of in *.
  change (state (set_heap_futures F (set_heap_timers T
            (set_heap_subs S (set_heap_conns C E))))) with (state E).
  change (_connected_future (set_heap_futures F (set_heap_timers T
            (set_heap_subs S (set_heap_conns C E)))))
    with (_connected_future E).
  change (heap_futures (set_heap_futures F (set_heap_timers T
            (set_heap_subs S (set_heap_conns C E))))) with F.
  now rewrite (status_in_frame F _ _ HF Hlt).
Qed.

Lemma set_spawned_signal l w :
  connected_signal_ok w -> connected_signal_ok (set_spawned l w).
Proof. intros H. exact H. Qed.

Lemma run_disconnect_signal w code reason reconnect tr :
  registry_ok w ->
  (_connected_future w < List.length (heap_futures w))%nat ->
  subs_valid w ->
  connected_signal_ok w ->
  exists w' tr',
    run quiet (_disconnect code reason reconnect) w tr = (w', Ret tt, tr')
    /\ connected_signal_ok w'.
Proof.
  intros Hok Hcf Hsubs Hinv.
  destruct (disconnect_begin_signal w code reason reconnect Hok Hcf Hinv)
    as (go & wb & Eb & Hb & _).
  destruct (ClientState_eqb (state w) DISCONNECTED) eqn:Est.
  - assert (Hst : state w = DISCONNECTED)
      by (destruct (state w); auto; discriminate).
    rewrite run_disconnect_guarded by exact Hst.
    eexists. eexists. split; [reflexivity|]. now apply prologue_signal.
  - assert (Hst : state w <> DISCONNECTED)
      by (intros E; rewrite E in Est; discriminate).
    rewrite _disconnect_begin_live in Eb by assumption.
    injection Eb as _ Eb.
    destruct (run_disconnect_live code reason reconnect w tr Hst Hok Hcf Hsubs)
      as (w1 & C & tr' & E & (F & T & S & E1 & _ & HF) & _).
    rewrite heap_futures_set_heap_conns in HF.
    rewrite E. eexists. eexists. split; [reflexivity|].
    apply set_spawned_signal. rewrite E1.
    destruct (epilogue_signal code reason reconnect
                (disconnect_prologue reconnect w) Hcf) as (H1 & _).
    apply signal_frame; [exact HF|exact H1|]. rewrite Eb. exact Hb.
Qed.

(** C2, as the code has it: while the client is CONNECTING the
    "connected" future is unresolved; while it is DISCONNECTED the future
    is unresolved or failed with the client-disconnected error of the
    terminal disconnect that ended the session.  [__init__] starts that way
    and [connect], the handling of the connect reply and the internal
    disconnect keep it that way.  An internal disconnect that finds the
    future resolved replaces it with a new object in the block that assigns
    the state: unresolved when a reconnect follows, failed with the
    client-disconnected error when not. *)
Theorem connected_future_discipline (w : World) (code : Z) (reason : string)
    (reconnect : bool) (tr : list ExtCall) :
  registry_ok w ->
  (_connected_future w < List.length (heap_futures w))%nat ->
  subs_valid w ->
  connected_signal_ok w ->
  (forall token get_token use_protobuf timeout,
      connected_signal_ok (__init__ token get_token use_protobuf timeout))
  /\ connected_signal_ok (snd (connect_begin w))
  /\ (forall reply, connected_signal_ok (snd (_connected_begin reply w)))
  /\ (exists go w1,
         _disconnect_begin code reason reconnect w = (Ok go, w1)
         /\ connected_signal_ok w1
         /\ (state w <> DISCONNECTED ->
             is_done (fut_status_of w (_connected_future w)) = true ->
             _connected_future w1 = List.length (heap_futures w)
             /\ fut_status_of w1 (_connected_future w1)
                = (if reconnect then Pending
                   else Failed (ClientDisconnectedError
                                  (client_disconnected code reason)))))
  /\ (exists w' tr',
         run quiet (_disconnect code reason reconnect) w tr = (w', Ret tt, tr')
         /\ connected_signal_ok w').
Proof.
  intros Hok Hcf Hsubs Hinv.
  split; [|split; [|split; [|split]]].
  - intros. unfold connected_signal_ok. simpl. now left.
  - now apply connect_begin_signal.
  - intros reply. destruct (_connected_begin_state reply w) as [E|E].
    + unfold connected_signal_ok. now rewrite E.
    + now rewrite E.
  - now apply disconnect_begin_signal.
  - now apply run_disconnect_signal.
Qed.

(** ** An error in the connect reply *)




Lemma _schedule_reconnect_spec w :
  state w <> CONNECTED ->
  (forall c, _conn w = Some c -> conn_open w c = false) ->
  _schedule_reconnect w
  = (Ok tt, if _need_reconnect w then reconnect_armed w else w).
Proof.
  intros Hst Hc. unfold _schedule_reconnect. mstep.
  destruct (state w) eqn:Est; try (now elim Hst); cbn [ClientState_eqb].
  all: mstep.
  all: destruct (_conn w) as [c|] eqn:Ec; [rewrite (Hc c eq_refl)|].
  all: mstep.
  all: destruct (_need_reconnect w); cbn [negb]; [|reflexivity].
  all: msteps; reflexivity.
Qed.

Lemma not_connecting_spec w :
  not_connecting w = (Ok (negb (ClientState_eqb (state w) CONNECTING)), w).
Proof. reflexivity. Qed.




(** ** [Subscription.subscribe] *)

Lemma resolve_done_raises w f s :
  is_done (fut_status_of w f) = true ->
  resolve f s w = (Raise InvalidStateError, w).
Proof.
  unfold fut_status_of, status_in, resolve.
  destruct (nth_error (heap_futures w) f) as [[o [| |]]|]; simpl;
    intros H; try reflexivity; discriminate.
Qed.

(** C8, as the code has it: [subscribe()] returns at once on a
    subscription that is SUBSCRIBING.  Otherwise it assigns SUBSCRIBING,
    tells [on_subscribing] the SUBSCRIBE_CALLED code, puts the subscription
    into the client's map under its channel and spawns the task that sends
    the subscribe command.  The futures are untouched: the "subscribed"
    future is the same object with the same status, also when it was
    resolved.  With that future resolved, the handling of the subscribe
    reply raises [InvalidStateError] at [set_result]. *)
Theorem subscribe_effect (w : World) (sub : SubId) (s : Subscription)
    (tr : list ExtCall) :
  sub_of w sub = Some s ->
  (sub_state s = SUBSCRIBING ->
   run quiet (subscribe sub) w tr = (w, Ret tt, tr))
  /\ (sub_state s <> SUBSCRIBING -> sub_client s = true ->
      exists w',
        run quiet (subscribe sub) w tr
        = (w', Ret tt,
           tr ++ [on_subscribing sub
                    (_code_number SubscribingCode_SUBSCRIBE_CALLED)
                    (_code_message SubscribingCode_SUBSCRIBE_CALLED)])
        /\ sub_of w' sub = Some (set_sub_state SUBSCRIBING s)
        /\ heap_futures w' = heap_futures w
        /\ _subs w' = dict_set String.eqb (_subs w) (sub_channel s) sub
        /\ spawned w' = spawned w ++ [task_subscribe (sub_channel s)]
        /\ (is_done (fut_status_of w (sub_subscribed_future s)) = true ->
            forall r, fst (_move_subscribed_begin sub r w')
                      = Raise InvalidStateError)).
Proof.
  intros Hs. split.
  - intros Est. unfold subscribe. rewrite run_bind, run_atomic.
    erewrite bindM_ok by (apply read_sub_ok; eassumption).
    rewrite Est. reflexivity.
  - intros Est Hc. unfold subscribe. rewrite run_bind, run_atomic.
    erewrite bindM_ok by (apply read_sub_ok; eassumption).
    assert (Eb : SubscriptionState_eqb (sub_state s) SUBSCRIBING = false)
      by (destruct (sub_state s); auto; now elim Est).
    rewrite Eb. msteps. unfold ret. cbn [negb].
    rewrite run_bind, run_call_handler. cbn [quiet].
    rewrite run_atomic.
    set (w1 := set_heap_subs (heap_update (heap_subs w) sub
                                (set_sub_state SUBSCRIBING)) w).
    set (s1 := set_sub_state SUBSCRIBING s).
    assert (Hs1 : sub_of w1 sub = Some s1)
      by (apply sub_of_update; exact Hs).
    unfold require_client.
    rewrite bindM_assoc.
    erewrite bindM_ok by (apply read_sub_ok; exact Hs1).
    change (sub_client s1) with (sub_client s). rewrite Hc. mstep.
    unfold resubscribe.
    erewrite bindM_ok by (apply read_sub_ok; exact Hs1).
    change (sub_channel s1) with (sub_channel s). mstep.
    unfold ensure_future, modify.
    eexists. split; [reflexivity|].
    split; [exact Hs1|]. split; [reflexivity|]. split; [reflexivity|].
    split; [reflexivity|].
    intros Hd r. unfold _move_subscribed_begin, update_sub. mstep.
    erewrite bindM_ok.
    2:{ apply read_sub_ok. unfold sub_of in *. wcbn.
        rewrite nth_error_heap_update_eq, Hs1. reflexivity. }
    cbn [set_sub_state sub_subscribed_future s1].
    unfold set_result. erewrite bindM_fail; [reflexivity|].
    apply resolve_done_raises. exact Hd.
Qed.

(** ** A timed-out unsubscribe command *)




(** ** The barrier of connect and subscribe replies *)

Lemma run_finally {A} env (c : Co A) (fin : Co unit) w tr :
  run env (finally c fin) w tr =
  match run env c w tr with
  | (w1, Ret a, tr1) => run env (fin >> Ret a) w1 tr1
  | (w1, Throw e, tr1) => run env (fin >> Throw e) w1 tr1
  | (w1, c1, tr1) => (w1, finally c1 fin, tr1)
  end.
Proof.
  revert w tr. induction c as [a|e|m IH|x k IH] using Co_induction;
    intros w tr; simpl; auto.
  - destruct (m w) as [[w1 c1]|] eqn:E; simpl.
    + eauto.
    + reflexivity.
Qed.

Lemma run_await_pending {A} env f (k : Value -> Co A) w tr :
  fut_status_of w f = Pending ->
  run env (bind (await_future f) k) w tr = (w, bind (await_future f) k, tr).
Proof. intros H. simpl. now rewrite H. Qed.

Lemma run_await_result {A} env f (k : Value -> Co A) w tr v :
  fut_status_of w f = Result v ->
  run env (bind (await_future f) k) w tr = run env (k v) w tr.
Proof. intros H. simpl. now rewrite H. Qed.

(** C3: a reply whose id names a pending record with a barrier.
    [_future_success] sets the reply on the future, removes the record and
    cancels the timeout timer in one stretch, and then waits: it has not
    returned, and it does not return as long as the barrier is unresolved;
    once the barrier has its result it returns.  The replies of a frame are
    handled one after the other, so the frame waits there too: nothing that
    follows the reply in the frame is handled, and no handler is called,
    before the barrier is signalled, and then the rest of the frame is
    handled.  The barrier is signalled by the [finally] of
    [_register_future_with_done], which runs when the body of the
    [async with] block, the handling of the reply, has finished. *)
Theorem reply_waits_for_barrier (env : ExtCall -> ExtResult) (w : World)
    (cmd_id : Z) (c : _Callback) (d : FutId) (reply : Reply) (rest : Message)
    (tr : list ExtCall) :
  reply_id reply = Some cmd_id ->
  0 < cmd_id ->
  dict_get Z.eqb (_futures w) cmd_id = Some c ->
  NoDup (dict_keys (_futures w)) ->
  done c = Some d ->
  d <> future c ->
  is_pending (heap_futures w) (future c) ->
  is_pending (heap_futures w) d ->
  (exists w' waiting,
      run env (_future_success cmd_id reply) w tr = (w', waiting, tr)
      /\ fut_status_of w' (future c) = Result (VReply reply)
      /\ dict_get Z.eqb (_futures w') cmd_id = None
      /\ heap_timers w' = cancel_opt (timeout c) (heap_timers w)
      /\ fut_status_of w' d = Pending
      /\ (forall w2 tr2, fut_status_of w2 d = Pending ->
                         run env waiting w2 tr2 = (w2, waiting, tr2))
      /\ (forall w2 tr2 v, fut_status_of w2 d = Result v ->
                           run env waiting w2 tr2 = (w2, Ret tt, tr2))
      /\ exists frame_waiting,
           run env (_process_incoming_data (reply :: rest)) w tr
           = (w', frame_waiting, tr)
           /\ (forall w2 tr2, fut_status_of w2 d = Pending ->
                  run env frame_waiting w2 tr2 = (w2, frame_waiting, tr2))
           /\ (forall w2 tr2 v, fut_status_of w2 d = Result v ->
                  run env frame_waiting w2 tr2
                  = run env (_process_incoming_data rest) w2 tr2))
  /\ (forall (A : Type) (body : FutId -> Co A) (timeout : Q) w0 tr0 fut dn w1,
         _register_future_with_done_enter cmd_id timeout w0 = (Ok (fut, dn), w1) ->
         run env (_register_future_with_done cmd_id timeout body) w0 tr0
         = match run env (body fut) w1 tr0 with
           | (w2, Ret a, tr2) =>
               run env (atomic (set_result dn VTrue) >> Ret a) w2 tr2
           | (w2, Throw e, tr2) =>
               run env (atomic (set_result dn VTrue) >> Throw e) w2 tr2
           | (w2, c2, tr2) =>
               (w2, finally c2 (atomic (set_result dn VTrue)), tr2)
           end).
Proof.
  intros Hid Hpos Hget Hnd Hdone Hne Hp Hpd. split.
  - unfold _process_incoming_data. cbn [for_each_co].
    rewrite run_bind. unfold _process_reply. rewrite Hid. cbn [opt].
    apply Z.ltb_lt in Hpos. rewrite Hpos.
    unfold _future_success. rewrite run_bind, run_atomic.
    rewrite (_future_success_resolve_present w cmd_id c reply Hget Hp), Hdone.
    set (w' := set_heap_timers _ _).
    assert (Hd' : fut_status_of w' d = Pending).
    { unfold fut_status_of, w'. wcbn.
      rewrite status_in_update_neq by auto. now apply is_pending_status. }
    rewrite run_await_pending by exact Hd'.
    eexists. eexists. split; [reflexivity|].
    split.
    { unfold fut_status_of, w'. wcbn. apply status_in_update_eq.
      now apply is_pending_lt. }
    split.
    { unfold w'. wcbn. apply dict_get_del_eq; auto using Zeqb_spec. }
    split; [reflexivity|]. split; [exact Hd'|].
    split; [intros w2 tr2 H; now apply run_await_pending|].
    split; [intros w2 tr2 v H; now rewrite run_await_result with (v := v)|].
    eexists. split; [reflexivity|]. split.
    + intros w2 tr2 H. rewrite run_bind.
      now rewrite run_await_pending.
    + intros w2 tr2 v H. rewrite run_bind.
      rewrite run_await_result with (v := v) by exact H. reflexivity.
  - intros A body timeout w0 tr0 fut dn w1 E.
    unfold _register_future_with_done. rewrite run_bind, run_atomic, E.
    cbn [fst snd]. apply run_finally.
Qed.

(** ** The subscription map *)

Lemma String_eqb_spec x y : String.eqb x y = true <-> x = y.
Proof. apply String.eqb_eq. Qed.

Lemma new_subscription_fresh w channel token get_token :
  dict_get String.eqb (_subs w) channel = None ->
  new_subscription channel token get_token w
  = (Ok (List.length (heap_subs w)),
     set__subs
       (dict_set String.eqb (_subs w) channel (List.length (heap_subs w)))
       (set_heap_subs
          (heap_subs w
           ++ [{| sub_channel := channel; sub_state := UNSUBSCRIBED;
                  sub_subscribed_future := List.length (heap_futures w);
                  sub_client := true; sub_token := token;
                  sub_get_token := get_token;
                  sub_resubscribe_attempts := 0; sub_refresh_timer := None;
                  sub_resubscribe_timer := None |}])
          (set_heap_futures
             (heap_futures w
              ++ [{| fut_origin := origin_subscribed; fut_status := Pending |}])
             w))).
Proof.
  intros H. unfold new_subscription, get_subscription. mstep. rewrite H.
  unfold _create_instance. msteps. reflexivity.
Qed.

Lemma remove_subscription_unsubscribed w sub x :
  sub_of w sub = Some x ->
  sub_state x = UNSUBSCRIBED ->
  dict_mem String.eqb (_subs w) (sub_channel x) = true ->
  remove_subscription (Some sub) w
  = (Ok tt,
     set__subs (dict_del String.eqb (_subs w) (sub_channel x))
       (set_heap_subs (heap_update (heap_subs w) sub (set_sub_client false)) w)).
Proof.
  intros Hs Hst Hm. unfold remove_subscription.
  erewrite bindM_ok by (apply read_sub_ok; exact Hs).
  rewrite Hst. cbn [SubscriptionState_eqb negb]. mstep.
  unfold del_sub. mstep. wcbn. rewrite Hm. reflexivity.
Qed.

(** ** Every step of the client respects a framed relation *)

Lemma client_framed (R : World -> World -> Prop) `{framed R} :
  client_respects R.
Proof. client_frame framed_leaf. Qed.

Lemma new_subscription_framed (R : World -> World -> Prop) `{framed R} :
  (forall w x, R w (set_heap_subs (heap_subs w ++ [x]) w)) ->
  forall channel token get_token,
    respects R (new_subscription channel token get_token).
Proof.
  intros Ha channel token get_token. unfold new_subscription.
  apply respects_bind; [mframe framed_leaf|].
  intros [s|]; [apply respects_raise|].
  apply respects_bind; [|intros; mframe framed_leaf].
  unfold _create_instance.
  apply respects_bind; [mframe framed_leaf|].
  intros f w. apply Ha.
Qed.

Lemma remove_subscription_framed (R : World -> World -> Prop) `{framed R} :
  (forall w k, R w (set__subs (dict_del String.eqb (_subs w) k) w)) ->
  forall sub, respects R (remove_subscription sub).
Proof.
  intros Hd [s|]; unfold remove_subscription; [|apply respects_ret].
  apply respects_bind; [mframe framed_leaf|]. intros x.
  destruct (negb _); [apply respects_raise|].
  apply respects_bind; [mframe framed_leaf|]. intros _.
  unfold del_sub. apply respects_bind; [mframe framed_leaf|].
  intros [|]; [|apply respects_raise].
  apply respects_modify. intros w. apply Hd.
Qed.

(** ** Entries of the subscription map are deleted by removal only *)

Lemma dict_mem_set_kept (d : dict string SubId) k v ch :
  dict_mem String.eqb d ch = true ->
  dict_mem String.eqb (dict_set String.eqb d k v) ch = true.
Proof.
  unfold dict_mem. intros H.
  destruct (String.eqb ch k) eqn:E.
  - apply String.eqb_eq in E. subst.
    rewrite dict_get_set_eq; auto using String_eqb_spec.
  - rewrite dict_get_set_neq; auto using String_eqb_spec.
    intros ->. rewrite String.eqb_refl in E. discriminate.
Qed.

#[local] Instance subs_kept_framed : framed subs_kept.
Proof.
  split; try (intros; intros ch Hch; exact Hch).
  - split.
    + intros w ch H. exact H.
    + intros w1 w2 w3 H1 H2 ch H. apply H2, H1, H.
  - intros w k v ch Hch. apply dict_mem_set_kept. exact Hch.
Qed.

(** C9: the subscription map has one entry per channel.  While a channel
    is registered, [new_subscription] for it raises
    [DuplicateSubscriptionError] and changes nothing; for a channel that is
    not registered it creates the object, registers it and leaves the other
    entries as they were, with no channel twice among the keys.
    [remove_subscription] refuses a subscription that is not UNSUBSCRIBED
    with [CentrifugeError] and changes nothing; for one that is
    UNSUBSCRIBED it deletes the entry of its channel and only that one.
    Nothing else deletes an entry: at every step of [connect],
    [disconnect], [subscribe], [unsubscribe], of every task the client
    spawns and of every timer callback, and across [new_subscription],
    the channels that were registered are still registered. *)
Theorem one_subscription_per_channel (w : World) (channel : string) (sub : SubId) :
  dict_get String.eqb (_subs w) channel = Some sub ->
  NoDup (dict_keys (_subs w)) ->
  (forall token get_token,
      new_subscription channel token get_token w
      = (Raise (DuplicateSubscriptionError channel), w))
  /\ (forall ch token get_token,
         dict_get String.eqb (_subs w) ch = None ->
         exists w',
           new_subscription ch token get_token w
           = (Ok (List.length (heap_subs w)), w')
           /\ dict_get String.eqb (_subs w') ch = Some (List.length (heap_subs w))
           /\ dict_get String.eqb (_subs w') channel = Some sub
           /\ NoDup (dict_keys (_subs w')))
  /\ (forall s x,
         sub_of w s = Some x -> sub_state x <> UNSUBSCRIBED ->
         remove_subscription (Some s) w
         = (Raise (CentrifugeError
                     "can not remove subscription in non-unsubscribed state"), w))
  /\ (forall x,
         sub_of w sub = Some x -> sub_channel x = channel ->
         sub_state x = UNSUBSCRIBED ->
         exists w',
           remove_subscription (Some sub) w = (Ok tt, w')
           /\ dict_get String.eqb (_subs w') channel = None
           /\ (forall ch, ch <> channel ->
                  dict_get String.eqb (_subs w') ch
                  = dict_get String.eqb (_subs w) ch)
           /\ NoDup (dict_keys (_subs w')))
  /\ client_respects subs_kept
  /\ (forall ch token get_token,
         respects subs_kept (new_subscription ch token get_token)).
Proof.
  intros Hget Hnd. split; [|split; [|split; [|split; [|split]]]].
  - intros token get_token. unfold new_subscription, get_subscription.
    mstep. now rewrite Hget.
  - intros ch token get_token Hnone.
    rewrite new_subscription_fresh by exact Hnone.
    eexists. split; [reflexivity|]. wcbn. split; [|split].
    + apply dict_get_set_eq; auto using String_eqb_spec.
    + assert (Hne : channel <> ch)
        by (intros ->; rewrite Hget in Hnone; discriminate).
      rewrite dict_get_set_neq; auto using String_eqb_spec.
    + apply NoDup_dict_set; auto using String_eqb_spec.
  - intros s x Hs Hst. unfold remove_subscription.
    erewrite bindM_ok by (apply read_sub_ok; exact Hs).
    destruct (sub_state x); try reflexivity. now elim Hst.
  - intros x Hs Hch Hst.
    rewrite (remove_subscription_unsubscribed w sub x Hs Hst)
      by (rewrite Hch; unfold dict_mem; now rewrite Hget).
    eexists. split; [reflexivity|]. wcbn. rewrite Hch. split; [|split].
    + apply dict_get_del_eq; auto using String_eqb_spec.
    + intros ch Hne. apply dict_get_del_neq; auto using String_eqb_spec.
    + apply NoDup_dict_del; auto using String_eqb_spec.
  - apply client_framed. exact subs_kept_framed.
  - apply new_subscription_framed; [exact subs_kept_framed|].
    intros w0 x ch Hch. exact Hch.
Qed.

(** ** What no step of the client does *)

Lemma futures_final_trans w1 w2 w3 :
  futures_final w1 w2 -> futures_final w2 w3 -> futures_final w1 w3.
Proof.
  intros H1 H2 f H. rewrite <- (H1 f H). apply H2. now rewrite (H1 f H).
Qed.

Lemma futures_final_alloc w x :
  futures_final w (set_heap_futures (heap_futures w ++ [x]) w).
Proof.
  intros f H. unfold fut_status_of in *. wcbn.
  apply status_in_alloc_old.
  unfold status_in in H. destruct (nth_error (heap_futures w) f) eqn:E.
  - apply nth_error_Some. now rewrite E.
  - discriminate.
Qed.

Lemma futures_final_resolve w f0 s :
  is_pending (heap_futures w) f0 ->
  futures_final w
    (set_heap_futures (heap_update (heap_futures w) f0 (with_status s)) w).
Proof.
  intros Hp f H. unfold fut_status_of in *. wcbn.
  apply status_in_update_neq. intros ->.
  apply is_pending_iff in Hp. destruct Hp as [_ Hp].
  rewrite Hp in H. discriminate.
Qed.

#[local] Instance futures_final_framed : framed futures_final.
Proof.
  split; try (intros; intro; intro; reflexivity).
  - split; [intros w f H; reflexivity | exact futures_final_trans].
  - exact futures_final_alloc.
  - intros w f s. apply futures_final_resolve.
Qed.

(** A future that has its result or its exception keeps it: no step of
    [connect], [disconnect], [subscribe], [unsubscribe], of a task the
    client spawns or of a timer callback, and neither [new_subscription]
    nor [remove_subscription], changes the status of a future that is
    resolved.  Every future is therefore resolved at most once. *)
Theorem resolved_futures_are_final :
  client_respects futures_final
  /\ (forall channel token get_token,
         respects futures_final (new_subscription channel token get_token))
  /\ (forall sub, respects futures_final (remove_subscription sub)).
Proof.
  split; [|split].
  - apply client_framed. exact futures_final_framed.
  - apply new_subscription_framed; [exact futures_final_framed|].
    intros w x f Hf. reflexivity.
  - apply remove_subscription_framed; [exact futures_final_framed|].
    intros w k f Hf. reflexivity.
Qed.

#[local] Instance ids_grow_framed : framed ids_grow.
Proof.
  split; try (intros; unfold ids_grow; wcbn; lia).
  split.
  - intros w. unfold ids_grow. lia.
  - intros w1 w2 w3. unfold ids_grow. lia.
Qed.

(** The counter of command ids never goes back, at any step of the
    client: an id that [_next_command_id] has handed out is not handed out
    again. *)
Theorem command_ids_never_go_back :
  client_respects ids_grow
  /\ (forall w, exists w',
         _next_command_id w = (Ok (_id w + 1), w') /\ _id w' = _id w + 1)
  /\ (forall channel token get_token,
         respects ids_grow (new_subscription channel token get_token))
  /\ (forall sub, respects ids_grow (remove_subscription sub)).
Proof.
  split; [|split; [|split]].
  - apply client_framed. exact ids_grow_framed.
  - intros w. eexists. split; reflexivity.
  - apply new_subscription_framed; [exact ids_grow_framed|].
    intros w x. unfold ids_grow. wcbn. lia.
  - apply remove_subscription_framed; [exact ids_grow_framed|].
    intros w k. unfold ids_grow. wcbn. lia.
Qed.

#[local] Instance no_reconnect_kept_framed : framed no_reconnect_kept.
Proof.
  split; try (intros; intros Hn; first [exact Hn | reflexivity]).
  split.
  - intros w H. exact H.
  - intros w1 w2 w3 H1 H2 H. apply H2, H1, H.
Qed.

(** [_need_reconnect] is never set back to true.  Once an internal
    disconnect without reconnect has cleared it, it stays false at every
    step of the client, [connect()] included, and [_schedule_reconnect]
    then returns without arming a timer. *)
Theorem need_reconnect_is_never_restored :
  client_respects no_reconnect_kept
  /\ (forall w, _need_reconnect w = false ->
                _schedule_reconnect w = (Ok tt, w))
  /\ (forall w, _need_reconnect (snd (connect_begin w)) = _need_reconnect w).
Proof.
  split; [|split].
  - apply client_framed. exact no_reconnect_kept_framed.
  - intros w Hn. unfold _schedule_reconnect. mstep.
    destruct (state w); cbn [ClientState_eqb]; try reflexivity.
    all: mstep.
    all: destruct (match _conn w with
                   | Some c => conn_open w c
                   | None => false
                   end); [reflexivity|].
    all: mstep; rewrite Hn; reflexivity.
  - intros w.
    assert (H : respects (same _need_reconnect) connect_begin).
    { mframe ltac:(reflexivity). }
    exact (H w).
Qed.

(** ** Scheduling the reconnect *)

(** [_schedule_reconnect] returns without a change when the client is
    CONNECTED or its connection is open.  Past the guards, with
    [_need_reconnect] true, it assigns [status] and leaves [state] as it
    is, counts the attempt and arms a new backoff timer that becomes
    [_reconnect_timer]; every timer that existed, the earlier reconnect
    timer included, is as before: it is not cancelled. *)
Theorem schedule_reconnect_effect (w : World) :
  _need_reconnect w = true ->
  (state w = CONNECTED -> _schedule_reconnect w = (Ok tt, w))
  /\ (forall c, _conn w = Some c -> conn_open w c = true ->
                _schedule_reconnect w = (Ok tt, w))
  /\ (state w <> CONNECTED ->
      (forall c, _conn w = Some c -> conn_open w c = false) ->
      exists w',
        _schedule_reconnect w = (Ok tt, w')
        /\ state w' = state w
        /\ status w' = Some CONNECTING
        /\ _reconnect_attempts w' = _reconnect_attempts w + 1
        /\ _reconnect_timer w' = Some (List.length (heap_timers w))
        /\ nth_error (heap_timers w') (List.length (heap_timers w))
           = Some {| timer_delay := delay_backoff (_reconnect_attempts w);
                     timer_action := call_reconnect;
                     timer_status := Scheduled |}
        /\ (forall th, (th < List.length (heap_timers w))%nat ->
                       nth_error (heap_timers w') th
                       = nth_error (heap_timers w) th)).
Proof.
  intros Hn. split; [|split].
  - intros Hst. unfold _schedule_reconnect. mstep. now rewrite Hst.
  - intros c Hc Ho. unfold _schedule_reconnect. mstep.
    destruct (state w); cbn [ClientState_eqb]; try reflexivity.
    all: mstep; rewrite Hc, Ho; reflexivity.
  - intros Hst Hc. rewrite _schedule_reconnect_spec by assumption.
    rewrite Hn. eexists. split; [reflexivity|].
    unfold reconnect_armed. wcbn. repeat split.
    + apply nth_error_alloc_new.
    + intros th Hth. now apply nth_error_alloc_old.
Qed.

(** ** The guards of [connect] and [disconnect] *)

(** [connect()] on a client that is CONNECTING or CONNECTED returns
    without calling a handler or changing anything; so does
    [disconnect()] on a client that is DISCONNECTED.  Otherwise
    [disconnect()] is the internal disconnect with the DISCONNECT_CALLED
    code and no reconnect. *)
Theorem connect_and_disconnect_guards (env : ExtCall -> ExtResult) (w : World)
    (tr : list ExtCall) :
  (state w <> DISCONNECTED -> run env connect w tr = (w, Ret tt, tr))
  /\ (state w = DISCONNECTED -> run env disconnect w tr = (w, Ret tt, tr))
  /\ (state w <> DISCONNECTED ->
      run env disconnect w tr
      = run env (_disconnect (_code_number DisconnectedCode_DISCONNECT_CALLED)
                   (_code_message DisconnectedCode_DISCONNECT_CALLED) false)
            w tr).
Proof.
  split; [|split].
  - intros Hst. unfold connect. rewrite run_bind, run_atomic.
    unfold connect_begin. mstep.
    destruct (state w); try reflexivity. now elim Hst.
  - intros Hst. unfold disconnect. rewrite run_bind, run_atomic.
    unfold get. now rewrite Hst.
  - intros Hst. unfold disconnect. rewrite run_bind, run_atomic.
    unfold get. destruct (state w); try reflexivity. now elim Hst.
Qed.

(** ** Sending *)

(** [_send_commands] without a connection raises [CentrifugeError] and
    sends nothing.  With a connection it sends the commands once; when the
    transport answers [ConnectionClosed] it goes on as the internal
    disconnect with TRANSPORT_CLOSED and reconnect true and then returns
    normally; any other exception of the transport propagates. *)
Theorem send_commands_outcomes (env : ExtCall -> ExtResult) (w : World)
    (commands : list Command) (tr : list ExtCall) :
  (_conn w = None ->
   run env (_send_commands commands) w tr
   = (w, Throw (CentrifugeError "connection is not initialized"), tr))
  /\ (forall c,
         _conn w = Some c ->
         run env (_send_commands commands) w tr
         = match env (ws_send c commands) with
           | R_raise ConnectionClosed =>
               run env (_disconnect (_code_number ConnectingCode_TRANSPORT_CLOSED)
                          (_code_message ConnectingCode_TRANSPORT_CLOSED) true)
                   w (tr ++ [ws_send c commands])
           | R_raise e => (w, Throw e, tr ++ [ws_send c commands])
           | _ => (w, Ret tt, tr ++ [ws_send c commands])
           end).
Proof.
  split.
  - intros Hc. unfold _send_commands. rewrite run_bind, run_atomic.
    unfold get. now rewrite Hc.
  - intros c Hc. unfold _send_commands. rewrite run_bind, run_atomic.
    unfold get. rewrite Hc. cbn [run].
    destruct (env (ws_send c commands)) as [| | |e]; try reflexivity.
    destruct e; reflexivity.
Qed.

(** ** Pushes and late replies *)

(** An unsubscribe push for a channel that is not registered changes
    nothing.  For a registered channel a code below 2500 spawns the task
    that moves the subscription to UNSUBSCRIBED without sending an
    unsubscribe command, and a code of 2500 or more spawns the task that
    moves it to SUBSCRIBING and asks for the resubscription. *)
Theorem unsubscribe_push_policy (w : World) (channel : string) (u : CodeReason) :
  (dict_get String.eqb (_subs w) channel = None ->
   _process_unsubscribe channel u w = (Ok tt, w))
  /\ (forall s,
         dict_get String.eqb (_subs w) channel = Some s ->
         _process_unsubscribe channel u w
         = (Ok tt,
            set_spawned
              (spawned w
               ++ [if cr_code u <? 2500
                   then task_move_unsubscribed s (cr_code u) (cr_reason u)
                   else task_move_subscribing s (cr_code u) (cr_reason u)]) w))
  /\ (forall fuel s,
         task_body fuel (task_move_unsubscribed s (cr_code u) (cr_reason u))
         = _move_unsubscribed s (cr_code u) (cr_reason u) false
         /\ task_body fuel (task_move_subscribing s (cr_code u) (cr_reason u))
            = move_subscribing s (cr_code u) (cr_reason u) false).
Proof.
  split; [|split].
  - intros H. unfold _process_unsubscribe, get_subscription. mstep.
    now rewrite H.
  - intros s H. unfold _process_unsubscribe, get_subscription. mstep.
    rewrite H. now destruct (cr_code u <? 2500).
  - intros fuel s. split; reflexivity.
Qed.

(** A reply whose id names no pending record is dropped: no future is
    touched, no handler is called and a push the reply may carry is not
    looked at.  This is what happens to a reply that arrives after the
    timeout or the disconnect has resolved its command. *)
Theorem late_reply_is_dropped (env : ExtCall -> ExtResult) (w : World)
    (reply : Reply) (cmd_id : Z) (tr : list ExtCall) :
  reply_id reply = Some cmd_id ->
  0 < cmd_id ->
  dict_get Z.eqb (_futures w) cmd_id = None ->
  run env (_process_reply reply) w tr = (w, Ret tt, tr).
Proof.
  intros Hid Hpos Hnone. unfold _process_reply. rewrite Hid. cbn [opt].
  apply Z.ltb_lt in Hpos. rewrite Hpos.
  now apply run_future_success_absent.
Qed.

(** A publication push is handed to [on_publication] of the subscription
    registered for its channel, whatever the state of that subscription,
    with the offset defaulting to 0; for a channel that is not registered
    it is dropped. *)
Theorem publication_push_dispatch (env : ExtCall -> ExtResult) (w : World)
    (reply : Reply) (push : Push) (channel : string) (pub : RawPub)
    (tr : list ExtCall) :
  (forall id, reply_id reply = Some id -> id <= 0) ->
  reply_push reply = Some push ->
  push_channel push = Some channel ->
  push_pub push = Some pub ->
  (dict_get String.eqb (_subs w) channel = None ->
   run env (_process_reply reply) w tr = (w, Ret tt, tr))
  /\ (forall s,
         dict_get String.eqb (_subs w) channel = Some s ->
         run env (_process_reply reply) w tr
         = (w,
            match env (on_publication s (make_publication w pub)) with
            | R_raise e => Throw e
            | _ => Ret tt
            end,
            tr ++ [on_publication s (make_publication w pub)])).
Proof.
  intros Hid Hpush Hch Hpub.
  assert (E : _process_reply reply = _process_publication channel pub).
  { unfold _process_reply.
    assert (Hz : (0 <? opt (reply_id reply) 0) = false).
    { destruct (reply_id reply) as [id|] eqn:Ei; cbn [opt]; [|reflexivity].
      apply Z.ltb_ge. now apply Hid. }
    rewrite Hz, Hpush.
    assert (Ht : push_truthy push = true)
      by (destruct push as [[?|] ? ? ? ? ?]; [reflexivity|discriminate]).
    rewrite Ht. unfold _process_push, channel_of. now rewrite Hpub, Hch. }
  rewrite E. unfold _process_publication, get_subscription. split.
  - intros H. rewrite run_bind, run_atomic. mstep. now rewrite H.
  - intros s H. rewrite run_bind, run_atomic. mstep. rewrite H. msteps.
    unfold ret. apply run_call_handler.
Qed.

(** ** The "subscribed" future across state changes *)

Lemma refresh_subscribed_future_closed w sub s :
  sub_of w sub = Some s ->
  refresh_subscribed_future sub w
  = (Ok tt,
     if is_done (fut_status_of w (sub_subscribed_future s))
     then set_heap_subs
            (heap_update (heap_subs w) sub
               (set_sub_subscribed_future (List.length (heap_futures w))))
            (set_heap_futures
               (heap_futures w
                ++ [{| fut_origin := origin_subscribed; fut_status := Pending |}])
               w)
     else w).
Proof.
  intros Hs. unfold refresh_subscribed_future.
  erewrite bindM_ok by (apply read_sub_ok; exact Hs).
  unfold fut_done. mstep.
  destruct (is_done (fut_status_of w (sub_subscribed_future s))); cbn [when].
  - msteps. reflexivity.
  - reflexivity.
Qed.

Lemma refreshed_future_pending w sub s :
  sub_of w sub = Some s ->
  exists w' s',
    refresh_subscribed_future sub w = (Ok tt, w')
    /\ sub_of w' sub = Some s'
    /\ sub_state s' = sub_state s
    /\ sub_channel s' = sub_channel s
    /\ sub_refresh_timer s' = sub_refresh_timer s
    /\ sub_resubscribe_timer s' = sub_resubscribe_timer s
    /\ fut_status_of w' (sub_subscribed_future s') = Pending
    /\ (is_done (fut_status_of w (sub_subscribed_future s)) = true ->
        sub_subscribed_future s' = List.length (heap_futures w))
    /\ (is_done (fut_status_of w (sub_subscribed_future s)) = false ->
        sub_subscribed_future s' = sub_subscribed_future s)
    /\ heap_timers w' = heap_timers w
    /\ (List.length (heap_futures w) <= List.length (heap_futures w'))%nat.
Proof.
  intros Hs. rewrite (refresh_subscribed_future_closed w sub s Hs).
  destruct (is_done (fut_status_of w (sub_subscribed_future s))) eqn:Ed.
  - eexists. eexists. split; [reflexivity|].
    split.
    { unfold sub_of in *. wcbn. rewrite nth_error_heap_update_eq, Hs.
      reflexivity. }
    cbn [set_sub_subscribed_future sub_state sub_channel sub_subscribed_future
         sub_refresh_timer sub_resubscribe_timer].
    repeat (split; [reflexivity|]).
    split; [unfold fut_status_of; wcbn; apply status_in_alloc_new|].
    split; [reflexivity|]. split; [discriminate|]. split; [reflexivity|].
    wcbn. rewrite length_app. simpl. lia.
  - exists w, s. split; [reflexivity|]. split; [exact Hs|].
    repeat (split; [reflexivity|]).
    split.
    { revert Ed. destruct (fut_status_of w (sub_subscribed_future s));
        intros; [reflexivity|discriminate|discriminate]. }
    split; [discriminate|]. split; [reflexivity|]. split; [reflexivity|]. lia.
Qed.

Lemma clear_subscribed_state_facts w sub s :
  sub_of w sub = Some s ->
  exists w' s',
    _clear_subscribed_state sub w = (Ok tt, w')
    /\ sub_of w' sub = Some s'
    /\ sub_state s' = sub_state s
    /\ sub_subscribed_future s' = sub_subscribed_future s
    /\ sub_refresh_timer s' = None
    /\ heap_futures w' = heap_futures w
    /\ (forall th, sub_refresh_timer s = Some th ->
                   heap_timers w' = heap_update (heap_timers w) th cancel_timer).
Proof.
  intros Hs. unfold _clear_subscribed_state.
  erewrite bindM_ok by (apply read_sub_ok; exact Hs).
  destruct (sub_refresh_timer s) as [th|] eqn:Et.
  - msteps. eexists. eexists. split; [reflexivity|].
    split.
    { unfold sub_of in *. wcbn. rewrite nth_error_heap_update_eq, Hs.
      reflexivity. }
    cbn [set_sub_refresh_timer sub_state sub_subscribed_future
         sub_refresh_timer].
    repeat (split; [reflexivity|]). intros th0 [= <-]. reflexivity.
  - exists w, s. split; [reflexivity|]. split; [exact Hs|].
    repeat (split; [auto|]). intros th0 [=].
Qed.

(** [move_subscribing] returns at once on a subscription that is
    SUBSCRIBING.  Otherwise the subscription becomes SUBSCRIBING and its
    "subscribed" future is unresolved afterwards: a future that was
    resolved is replaced by a new object; coming from SUBSCRIBED the
    refresh timer is cancelled and forgotten. *)
Theorem move_subscribing_renews_future (w : World) (sub : SubId)
    (s : Subscription) :
  sub_of w sub = Some s ->
  (sub_state s = SUBSCRIBING -> move_subscribing_begin sub w = (Ok false, w))
  /\ (sub_state s <> SUBSCRIBING ->
      exists w' s',
        move_subscribing_begin sub w = (Ok true, w')
        /\ sub_of w' sub = Some s'
        /\ sub_state s' = SUBSCRIBING
        /\ fut_status_of w' (sub_subscribed_future s') = Pending
        /\ (is_done (fut_status_of w (sub_subscribed_future s)) = true ->
            sub_subscribed_future s' = List.length (heap_futures w))
        /\ (sub_state s = SUBSCRIBED ->
            sub_refresh_timer s' = None
            /\ forall th, sub_refresh_timer s = Some th ->
                 heap_timers w' = heap_update (heap_timers w) th cancel_timer)).
Proof.
  intros Hs. split.
  - intros Est. unfold move_subscribing_begin.
    erewrite bindM_ok by (apply read_sub_ok; exact Hs).
    now rewrite Est.
  - intros Est. unfold move_subscribing_begin.
    erewrite bindM_ok by (apply read_sub_ok; exact Hs).
    destruct (sub_state s) eqn:Es; [|now elim Est|];
      cbn [SubscriptionState_eqb when].
    + msteps.
      set (w1 := set_heap_subs _ w).
      assert (Hs1 : sub_of w1 sub = Some (set_sub_state SUBSCRIBING s))
        by (apply sub_of_update; exact Hs).
      destruct (refreshed_future_pending w1 sub _ Hs1)
        as (w2 & s2 & E2 & Hs2 & Hst2 & _ & Hrt & _ & Hp & Hd & _ & _ & _).
      rewrite (@bindM_ok _ _ _ _ _ _ _ E2). unfold ret.
      exists w2, s2. split; [reflexivity|]. split; [exact Hs2|].
      split; [exact Hst2|]. split; [exact Hp|]. split; [exact Hd|].
      intros [=].
    + destruct (clear_subscribed_state_facts w sub s Hs)
        as (w0 & s0 & E0 & Hs0 & _ & Hf0 & Hr0 & Hh0 & Ht0).
      rewrite (@bindM_ok _ _ _ _ _ _ _ E0). msteps.
      set (w1 := set_heap_subs _ w0).
      assert (Hs1 : sub_of w1 sub = Some (set_sub_state SUBSCRIBING s0))
        by (apply sub_of_update; exact Hs0).
      destruct (refreshed_future_pending w1 sub _ Hs1)
        as (w2 & s2 & E2 & Hs2 & Hst2 & _ & Hrt & _ & Hp & Hd & _ & Htm & _).
      rewrite (@bindM_ok _ _ _ _ _ _ _ E2). unfold ret.
      exists w2, s2. split; [reflexivity|]. split; [exact Hs2|].
      split; [exact Hst2|]. split; [exact Hp|]. split.
      * intros H. rewrite <- Hh0. apply Hd.
        cbn [set_sub_state sub_subscribed_future]. unfold fut_status_of in *.
        change (heap_futures w1) with (heap_futures w0).
        rewrite Hh0, Hf0. exact H.
      * intros _. split.
        { rewrite Hrt. exact Hr0. }
        { intros th Hth. rewrite Htm. exact (Ht0 th Hth). }
Qed.

Lemma clear_subscribing_state_facts w sub s :
  sub_of w sub = Some s ->
  exists w' s',
    _clear_subscribing_state sub w = (Ok tt, w')
    /\ sub_of w' sub = Some s'
    /\ sub_state s' = sub_state s
    /\ sub_subscribed_future s' = sub_subscribed_future s
    /\ sub_resubscribe_attempts s' = 0
    /\ sub_resubscribe_timer s' = None
    /\ heap_futures w' = heap_futures w.
Proof.
  intros Hs. unfold _clear_subscribing_state. mstep.
  set (w1 := set_heap_subs _ w).
  assert (Hs1 : sub_of w1 sub = Some (set_sub_resubscribe_attempts 0 s))
    by (apply sub_of_update; exact Hs).
  erewrite bindM_ok by (apply read_sub_ok; exact Hs1).
  cbn [set_sub_resubscribe_attempts sub_resubscribe_timer].
  destruct (sub_resubscribe_timer s) as [th|] eqn:Et.
  - msteps. eexists. eexists. split; [reflexivity|].
    split.
    { unfold sub_of in *. wcbn. rewrite nth_error_heap_update_eq, Hs1.
      reflexivity. }
    cbn. auto 10.
  - eexists. eexists. split; [reflexivity|]. split; [exact Hs1|].
    cbn. auto 10.
Qed.

(** [_move_unsubscribed] returns at once on a subscription that is
    UNSUBSCRIBED.  Otherwise the subscription becomes UNSUBSCRIBED and its
    "subscribed" future is failed with [SubscriptionUnsubscribedError] (a
    future that was resolved is replaced first); a second call then finds
    the guard and changes nothing. *)
Theorem move_unsubscribed_fails_future (w : World) (sub : SubId)
    (s : Subscription) :
  sub_of w sub = Some s ->
  (sub_subscribed_future s < List.length (heap_futures w))%nat ->
  (sub_state s = UNSUBSCRIBED -> _move_unsubscribed_begin sub w = (Ok false, w))
  /\ (sub_state s <> UNSUBSCRIBED ->
      exists w' s',
        _move_unsubscribed_begin sub w = (Ok true, w')
        /\ sub_of w' sub = Some s'
        /\ sub_state s' = UNSUBSCRIBED
        /\ fut_status_of w' (sub_subscribed_future s')
           = Failed SubscriptionUnsubscribedError
        /\ _move_unsubscribed_begin sub w' = (Ok false, w')).
Proof.
  intros Hs Hlt. split.
  - intros Est. unfold _move_unsubscribed_begin.
    erewrite bindM_ok by (apply read_sub_ok; exact Hs).
    now rewrite Est.
  - intros Est. unfold _move_unsubscribed_begin.
    erewrite bindM_ok by (apply read_sub_ok; exact Hs).
    assert (Hgo : exists w0 s0,
               match sub_state s with
               | SUBSCRIBED => _clear_subscribed_state sub
               | SUBSCRIBING => _clear_subscribing_state sub
               | UNSUBSCRIBED => ret tt
               end w = (Ok tt, w0)
               /\ sub_of w0 sub = Some s0
               /\ sub_subscribed_future s0 = sub_subscribed_future s
               /\ heap_futures w0 = heap_futures w).
    { destruct (sub_state s); [now elim Est| |].
      - destruct (clear_subscribing_state_facts w sub s Hs)
          as (w0 & s0 & E0 & Hs0 & _ & Hf0 & _ & _ & Hh0).
        exists w0, s0. auto.
      - destruct (clear_subscribed_state_facts w sub s Hs)
          as (w0 & s0 & E0 & Hs0 & _ & Hf0 & _ & Hh0 & _).
        exists w0, s0. auto. }
    destruct Hgo as (w0 & s0 & E0 & Hs0 & Hf0 & Hh0).
    assert (Hbody :
              exists w' s',
                (update_sub sub (set_sub_state UNSUBSCRIBED) ;;
                 refresh_subscribed_future sub ;;
                 let* s' := read_sub sub in
                 set_exception (sub_subscribed_future s')
                   SubscriptionUnsubscribedError ;;
                 consume_future (sub_subscribed_future s') ;;
                 ret true) w0 = (Ok true, w')
                /\ sub_of w' sub = Some s'
                /\ sub_state s' = UNSUBSCRIBED
                /\ fut_status_of w' (sub_subscribed_future s')
                   = Failed SubscriptionUnsubscribedError).
    { mstep.
      set (w1 := set_heap_subs _ w0).
      assert (Hs1 : sub_of w1 sub = Some (set_sub_state UNSUBSCRIBED s0))
        by (apply sub_of_update; exact Hs0).
      destruct (refreshed_future_pending w1 sub _ Hs1)
        as (w2 & s2 & E2 & Hs2 & Hst2 & _ & _ & _ & Hp & Hd & Hnd & _ & Hlen).
      rewrite (@bindM_ok _ _ _ _ _ _ _ E2).
      erewrite bindM_ok by (apply read_sub_ok; exact Hs2).
      assert (Hpend : is_pending (heap_futures w2) (sub_subscribed_future s2)).
      { apply is_pending_iff. split; [|exact Hp].
        destruct (is_done (fut_status_of w1 (sub_subscribed_future
                                               (set_sub_state UNSUBSCRIBED s0))))
          eqn:Ed.
        - rewrite (Hd eq_refl).
          rewrite (refresh_subscribed_future_closed w1 sub _ Hs1), Ed in E2.
          injection E2 as <-. wcbn. rewrite length_app. simpl. lia.
        - rewrite (Hnd eq_refl). cbn [set_sub_state sub_subscribed_future].
          rewrite Hf0. eapply Nat.lt_le_trans; [|exact Hlen].
          unfold w1. wcbn. rewrite Hh0. exact Hlt. }
      unfold set_exception.
      rewrite (@bindM_ok _ _ _ _ _ _ _
                 (resolve_pending _ _ _ Hpend)).
      unfold consume_future. msteps. unfold fut_status_of. wcbn.
      rewrite status_in_update_eq by (now apply is_pending_lt).
      cbn [is_CentrifugeError]. msteps. unfold ret.
      eexists. exists s2. split; [reflexivity|].
      split; [exact Hs2|]. split; [exact Hst2|].
      unfold fut_status_of. wcbn.
      apply status_in_update_eq. now apply is_pending_lt. }
    destruct Hbody as (w' & s' & E' & Hs' & Hst' & Hf').
    exists w', s'.
    split.
    { destruct (sub_state s) eqn:Es; [now elim Est| |];
        rewrite (@bindM_ok _ _ _ _ _ _ _ E0); exact E'. }
    split; [exact Hs'|]. split; [exact Hst'|]. split; [exact Hf'|].
    erewrite bindM_ok by (apply read_sub_ok; exact Hs').
    now rewrite Hst'.
Qed.

(** ** Registering a command *)

Lemma register_future_facts (w : World) (cmd_id : Z) (timeout : Q) :
  exists w',
    _register_future cmd_id timeout w = (Ok (List.length (heap_futures w)), w')
    /\ nth_error (heap_futures w) (List.length (heap_futures w)) = None
    /\ fut_status_of w' (List.length (heap_futures w)) = Pending
    /\ dict_get Z.eqb (_futures w') cmd_id
       = Some {| future := List.length (heap_futures w); done := None;
                 timeout := if truthy timeout
                            then Some (List.length (heap_timers w))
                            else None |}
    /\ (forall k, k <> cmd_id ->
                  dict_get Z.eqb (_futures w') k = dict_get Z.eqb (_futures w) k)
    /\ (if truthy timeout
        then heap_timers w'
             = heap_timers w
               ++ [{| timer_delay := delay_timeout timeout;
                      timer_action := timeout_cb cmd_id
                                        (List.length (heap_futures w));
                      timer_status := Scheduled |}]
        else heap_timers w' = heap_timers w)
    /\ (truthy timeout = false <-> timeout == 0).
Proof.
  unfold _register_future, arm_timeout. msteps. wcbn.
  destruct (truthy timeout) eqn:Et; msteps; eexists; (split; [reflexivity|]).
  all: wcbn.
  all: split; [apply nth_error_None; lia|].
  all: split; [unfold fut_status_of; wcbn; apply status_in_alloc_new|].
  all: split; [apply dict_get_set_eq; apply Zeqb_spec|].
  all: split; [intros k Hk; apply dict_get_set_neq; auto using Zeqb_spec|].
  all: split; [reflexivity|].
  all: unfold truthy in Et.
  - split; [discriminate|]. intros Hq. apply Qeq_bool_iff in Hq.
    rewrite Hq in Et. discriminate.
  - split; [|reflexivity]. intros _. apply Qeq_bool_iff.
    now destruct (Qeq_bool timeout 0).
Qed.

(** [_register_future] creates a new unresolved future and files the
    record under the command id, replacing a record that was filed under
    the same id and leaving the others.  A timer is armed exactly when the
    timeout is not zero; with a timeout of zero the command has no
    deadline. *)
Theorem register_future_effect (w : World) (cmd_id : Z) (timeout : Q) :
  exists w',
    _register_future cmd_id timeout w = (Ok (List.length (heap_futures w)), w')
    /\ nth_error (heap_futures w) (List.length (heap_futures w)) = None
    /\ fut_status_of w' (List.length (heap_futures w)) = Pending
    /\ dict_get Z.eqb (_futures w') cmd_id
       = Some {| future := List.length (heap_futures w); done := None;
                 timeout := if truthy timeout
                            then Some (List.length (heap_timers w))
                            else None |}
    /\ (forall k, k <> cmd_id ->
                  dict_get Z.eqb (_futures w') k = dict_get Z.eqb (_futures w) k)
    /\ (if truthy timeout
        then heap_timers w'
             = heap_timers w
               ++ [{| timer_delay := delay_timeout timeout;
                      timer_action := timeout_cb cmd_id
                                        (List.length (heap_futures w));
                      timer_status := Scheduled |}]
        else heap_timers w' = heap_timers w)
    /\ (truthy timeout = false <-> timeout == 0).
Proof. exact (register_future_facts w cmd_id timeout). Qed.

(** ** Leaving the barrier block after an error *)

(** When the body of the [async with] block of
    [_register_future_with_done] ends, normally or with an exception, in a
    world where the barrier is resolved already, the [finally] clause
    raises [InvalidStateError] and that is what the block raises.
    [_future_error] resolves the barrier, so this is the way out of the
    block after a timeout or a disconnect has failed the command. *)
Theorem barrier_exit_after_error_raises (env : ExtCall -> ExtResult) (A : Type)
    (body : FutId -> Co A) (cmd_id : Z) (timeout : Q) (w0 w1 w2 : World)
    (fut dn : FutId) (tr0 tr2 : list ExtCall) (ended : Co A) :
  _register_future_with_done_enter cmd_id timeout w0 = (Ok (fut, dn), w1) ->
  run env (body fut) w1 tr0 = (w2, ended, tr2) ->
  (exists a, ended = Ret a) \/ (exists e, ended = Throw e) ->
  is_done (fut_status_of w2 dn) = true ->
  run env (_register_future_with_done cmd_id timeout body) w0 tr0
  = (w2, Throw InvalidStateError, tr2).
Proof.
  intros Henter Hrun Hended Hdone.
  unfold _register_future_with_done.
  rewrite run_bind, run_atomic, Henter. cbn [fst snd].
  rewrite run_finally, Hrun.
  assert (E : set_result dn VTrue w2 = (Raise InvalidStateError, w2))
    by (apply resolve_done_raises; exact Hdone).
  destruct Hended as [[a ->]|[e ->]].
  - rewrite run_bind, run_atomic, E. reflexivity.
  - rewrite run_bind, run_atomic, E. reflexivity.
Qed.

(** ** The guards of [_subscribe] *)

(** [_subscribe] for a channel that is not registered, or on a client that
    is not CONNECTED, returns [None]: no command id is used, nothing is
    sent and no handler is called. *)
Theorem subscribe_command_guards (env : ExtCall -> ExtResult) (w : World)
    (channel : string) (tr : list ExtCall) :
  dict_get String.eqb (_subs w) channel = None \/ state w <> CONNECTED ->
  run env (_subscribe channel) w tr = (w, Ret None, tr).
Proof.
  intros H. unfold _subscribe. rewrite run_bind, run_atomic.
  unfold get_subscription. mstep.
  destruct (dict_get String.eqb (_subs w) channel) as [s|] eqn:E.
  - destruct H as [H|H]; [discriminate|]. mstep.
    destruct (state w); try reflexivity. now elim H.
  - reflexivity.
Qed.

(** ** Removal goes by the channel name *)

(** [remove_subscription(None)] does nothing.  For a subscription object
    that is UNSUBSCRIBED the object loses its client first; then the entry
    of its channel is deleted, whichever object is registered there, so
    removing an object a second time after the channel was registered
    again deletes the entry of the new subscription; with no entry for the
    channel the call raises [KeyError]. *)
Theorem remove_subscription_by_channel (w : World) (sub : SubId)
    (x : Subscription) :
  sub_of w sub = Some x ->
  sub_state x = UNSUBSCRIBED ->
  NoDup (dict_keys (_subs w)) ->
  remove_subscription None w = (Ok tt, w)
  /\ (dict_get String.eqb (_subs w) (sub_channel x) = None ->
      remove_subscription (Some sub) w
      = (Raise KeyError,
         set_heap_subs (heap_update (heap_subs w) sub (set_sub_client false)) w))
  /\ (forall other,
         dict_get String.eqb (_subs w) (sub_channel x) = Some other ->
         exists w',
           remove_subscription (Some sub) w = (Ok tt, w')
           /\ dict_get String.eqb (_subs w') (sub_channel x) = None
           /\ option_map sub_client (sub_of w' sub) = Some false
           /\ (other <> sub -> sub_of w' other = sub_of w other)).
Proof.
  intros Hs Hst Hnd. split; [reflexivity|]. split.
  - intros Hnone. unfold remove_subscription.
    erewrite bindM_ok by (apply read_sub_ok; exact Hs).
    rewrite Hst. cbn [SubscriptionState_eqb negb]. mstep.
    unfold del_sub. mstep. wcbn. unfold dict_mem. rewrite Hnone. reflexivity.
  - intros other Hother.
    rewrite (remove_subscription_unsubscribed w sub x Hs Hst)
      by (unfold dict_mem; now rewrite Hother).
    eexists. split; [reflexivity|]. wcbn. split; [|split].
    + apply dict_get_del_eq; auto using String_eqb_spec.
    + unfold sub_of in *. wcbn. rewrite nth_error_heap_update_eq, Hs.
      reflexivity.
    + intros Hne. unfold sub_of. wcbn.
      apply nth_error_heap_update_neq. auto.
Qed.

(** ** A new subscription *)

(** [new_subscription] for a channel that is not registered creates a new
    object, UNSUBSCRIBED, with its own unresolved "subscribed" future, and
    [get_subscription] for the channel then returns it; the objects that
    existed are untouched. *)
Theorem new_subscription_registers (w : World) (channel token : string)
    (get_token : bool) :
  dict_get String.eqb (_subs w) channel = None ->
  exists w',
    new_subscription channel token get_token w
    = (Ok (List.length (heap_subs w)), w')
    /\ get_subscription channel w' = (Ok (Some (List.length (heap_subs w))), w')
    /\ sub_of w (List.length (heap_subs w)) = None
    /\ sub_of w' (List.length (heap_subs w))
       = Some {| sub_channel := channel; sub_state := UNSUBSCRIBED;
                 sub_subscribed_future := List.length (heap_futures w);
                 sub_client := true; sub_token := token;
                 sub_get_token := get_token;
                 sub_resubscribe_attempts := 0; sub_refresh_timer := None;
                 sub_resubscribe_timer := None |}
    /\ fut_status_of w' (List.length (heap_futures w)) = Pending
    /\ (forall s, (s < List.length (heap_subs w))%nat ->
                  sub_of w' s = sub_of w s)
    /\ state w' = state w.
Proof.
  intros Hnone. rewrite new_subscription_fresh by exact Hnone.
  eexists. split; [reflexivity|].
  unfold get_subscription, get, sub_of, fut_status_of. wcbn.
  split; [now rewrite dict_get_set_eq by apply String_eqb_spec|].
  split; [apply nth_error_None; lia|].
  split; [apply nth_error_alloc_new|].
  split; [apply status_in_alloc_new|].
  split; [intros s Hlt; now apply nth_error_alloc_old|reflexivity].
Qed.

(** ** The ping deadline *)


(** ** [_disconnect] on a client that is DISCONNECTED *)

(** An internal disconnect of a client that is DISCONNECTED still does
    the first part of the function: the ping, refresh and reconnect timers
    are forgotten, the reconnect attempts are reset, [None] is put on the
    message queue and a new empty queue takes its place, and
    [_need_reconnect] is cleared unless a reconnect was asked for.  Then it
    returns: no handler is called and no task is spawned. *)
Theorem disconnect_when_disconnected (env : ExtCall -> ExtResult) (w : World)
    (code : Z) (reason : string) (reconnect : bool) (tr : list ExtCall) :
  state w = DISCONNECTED ->
  exists w',
    run env (_disconnect code reason reconnect) w tr = (w', Ret tt, tr)
    /\ state w' = DISCONNECTED
    /\ _ping_timer w' = None
    /\ _refresh_timer w' = None
    /\ _reconnect_timer w' = None
    /\ _reconnect_attempts w' = 0
    /\ _need_reconnect w' = (if reconnect then _need_reconnect w else false)
    /\ spawned w' = spawned w
    /\ _messages w' = List.length (heap_queues w)
    /\ nth_error (heap_queues w') (_messages w') = Some []
    /\ (forall items,
           nth_error (heap_queues w) (_messages w) = Some items ->
           nth_error (heap_queues w') (_messages w) = Some (items ++ [None])).
Proof.
  intros Hst. rewrite run_disconnect_guarded by exact Hst.
  eexists. split; [reflexivity|]. unfold disconnect_prologue. wcbn.
  repeat (split; [first [exact Hst | reflexivity]|]).
  split.
  - rewrite <- (length_heap_update (heap_queues w) (_messages w)
                  (fun items => items ++ [None])).
    apply nth_error_alloc_new.
  - intros items Hi. rewrite nth_error_alloc_old.
    + rewrite nth_error_heap_update_eq, Hi. reflexivity.
    + rewrite length_heap_update. apply nth_error_Some. now rewrite Hi.
Qed.

(** ** A connect reply that expires without a ttl *)

(** A connect reply with [expires] set and no [ttl] makes the handling of
    the reply raise [KeyError] after the state has become CONNECTED and
    before the "connected" future is resolved: the client is CONNECTED
    with that future as it was, and [on_connected] is not called. *)
Theorem connect_reply_expiring_without_ttl (w : World) (reply : Reply)
    (c : ConnectResult) (client : string) :
  reply_connect reply = Some c ->
  connect_client c = Some client ->
  connect_expires c = Some true ->
  connect_ttl c = None ->
  exists w',
    _connected_begin reply w = (Raise KeyError, w')
    /\ state w' = CONNECTED
    /\ client_id w' = Some client
    /\ heap_futures w' = heap_futures w
    /\ _connected_future w' = _connected_future w
    /\ _refresh_timer w' = _refresh_timer w.
Proof.
  intros Hc Hcl He Ht. unfold _connected_begin. rewrite Hc, Hcl, He, Ht.
  cbn [opt]. msteps.
  destruct (0 <? opt (connect_ping c) 0); cbn [when].
  - unfold _restart_ping_wait. msteps. wcbn.
    destruct (_ping_timer w); msteps; eexists; (split; [reflexivity|]);
      wcbn; auto 10.
  - msteps. eexists. split; [reflexivity|]. wcbn. auto 10.
Qed.

(** ** Opening the transport *)

(** [_create_connection] on a client that is not CONNECTING returns
    [False] without opening a transport.  When opening the transport fails
    with [OSError], [on_error] is told the TRANSPORT_CLOSED code, the task
    that schedules the reconnect is spawned and the call returns [False];
    the protobuf client asks for the "centrifuge-protobuf" subprotocol. *)
Theorem connection_failure_schedules_reconnect (env : ExtCall -> ExtResult)
    (w : World) (tr : list ExtCall) :
  (state w <> CONNECTING ->
   run env _create_connection w tr = (w, Ret (Some false), tr))
  /\ (state w = CONNECTING ->
      env (ws_connect (if _use_protobuf w
                       then ["centrifuge-protobuf"%string] else []))
      = R_raise OSError ->
      run env _create_connection w tr
      = (match env (on_error (_code_number ErrorCode_TRANSPORT_CLOSED) OSError) with
         | R_raise _ => w
         | _ => set_spawned (spawned w ++ [task_schedule_reconnect]) w
         end,
         match env (on_error (_code_number ErrorCode_TRANSPORT_CLOSED) OSError) with
         | R_raise e => Throw e
         | _ => Ret (Some false)
         end,
         tr ++ [ws_connect (if _use_protobuf w
                            then ["centrifuge-protobuf"%string] else []);
                on_error (_code_number ErrorCode_TRANSPORT_CLOSED) OSError])).
Proof.
  split.
  - intros Hst. unfold _create_connection.
    rewrite run_bind, run_atomic, not_connecting_spec.
    destruct (state w); try reflexivity. now elim Hst.
  - intros Hst Henv. unfold _create_connection.
    rewrite run_bind, run_atomic, not_connecting_spec, Hst.
    cbn [ClientState_eqb negb].
    rewrite run_bind, run_atomic. unfold get. cbn [run]. rewrite Henv.
    rewrite run_bind, run_call_handler, <- app_assoc. cbn [app].
    destruct (env (on_error (_code_number ErrorCode_TRANSPORT_CLOSED) OSError));
      reflexivity.
Qed.

(** ** Refreshing the connection token *)

(** [_refresh] takes a command id before it asks for the token.  When the
    token provider raises [UnauthorizedError] the client goes on as the
    internal disconnect with the UNAUTHORIZED code and no reconnect; on any
    other exception it tells [on_error] the CLIENT_REFRESH_TOKEN code and
    returns: the id is used up, no command is registered or sent and no
    refresh timer is armed again. *)
Theorem refresh_token_failure (env : ExtCall -> ExtResult) (w : World)
    (e : Exc) (tr : list ExtCall) :
  _get_token w = true ->
  env call_get_token = R_raise e ->
  (e = UnauthorizedError ->
   run env _refresh w tr
   = run env (_disconnect (_code_number DisconnectedCode_UNAUTHORIZED)
                (_code_message DisconnectedCode_UNAUTHORIZED) false)
         (set__id (_id w + 1) w) (tr ++ [call_get_token]))
  /\ (e <> UnauthorizedError ->
      run env _refresh w tr
      = (set__id (_id w + 1) w,
         match env (on_error (_code_number ErrorCode_CLIENT_REFRESH_TOKEN) e) with
         | R_raise e' => Throw e'
         | _ => Ret tt
         end,
         tr ++ [call_get_token;
                on_error (_code_number ErrorCode_CLIENT_REFRESH_TOKEN) e])).
Proof.
  intros Hp Henv. unfold _refresh.
  rewrite run_bind, run_atomic. unfold _next_command_id. msteps. unfold get.
  rewrite run_bind, run_atomic. wcbn. rewrite Hp. cbn [negb run].
  rewrite Henv. cbn [as_token]. split.
  - intros ->. reflexivity.
  - intros Hne.
    replace (tr ++ [call_get_token;
                    on_error (_code_number ErrorCode_CLIENT_REFRESH_TOKEN) e])
      with ((tr ++ [call_get_token])
            ++ [on_error (_code_number ErrorCode_CLIENT_REFRESH_TOKEN) e])
      by (now rewrite <- app_assoc).
    destruct e; try (now elim Hne); apply run_call_handler.
Qed.

(** ** Subscribing again once connected *)

Lemma dict_get_of_key (d : dict string SubId) channel :
  In channel (dict_keys d) ->
  exists s, dict_get String.eqb d channel = Some s /\ In s (dict_values d).
Proof.
  induction d as [|[k v] d IH]; simpl; [contradiction|].
  intros [->|Hin].
  - rewrite String.eqb_refl. eauto.
  - destruct (String.eqb channel k); [eauto|].
    destruct (IH Hin) as (s & E & Hs). eauto.
Qed.

Lemma _clear_connecting_state_closed w :
  _clear_connecting_state w
  = (Ok tt,
     set__reconnect_timer None
       (set_heap_timers (cancel_opt (_reconnect_timer w) (heap_timers w))
          (set__reconnect_attempts 0 w))).
Proof.
  unfold _clear_connecting_state. msteps. wcbn.
  destruct (_reconnect_timer w) as [th|] eqn:E; msteps; reflexivity.
Qed.

Lemma connected_end_loop (W : World) (channels : list string) :
  (forall channel, In channel channels ->
     exists s x, dict_get String.eqb (_subs W) channel = Some s
                 /\ sub_of W s = Some x) ->
  forall l,
    for_each channels
      (fun channel =>
         let* sub := get_subscription channel in
         match sub with
         | None => raise KeyError
         | Some s =>
             let* x := read_sub s in
             when (SubscriptionState_eqb (sub_state x) SUBSCRIBING)
                  (ensure_future (task_subscribe channel))
         end) (set_spawned l W)
    = (Ok tt,
       set_spawned
         (l ++ map task_subscribe
                 (filter (fun channel =>
                            match dict_get String.eqb (_subs W) channel with
                            | Some s =>
                                match sub_of W s with
                                | Some x =>
                                    SubscriptionState_eqb (sub_state x) SUBSCRIBING
                                | None => false
                                end
                            | None => false
                            end) channels)) W).
Proof.
  induction channels as [|channel channels IH]; intros Hall l.
  - simpl. now rewrite app_nil_r.
  - destruct (Hall channel (or_introl eq_refl)) as (s & x & Hg & Hx).
    cbn [for_each filter]. rewrite Hg, Hx.
    set (rest := for_each channels _) in *.
    unfold get_subscription. rewrite !bindM_assoc, bindM_get. cbv beta.
    change (_subs (set_spawned l W)) with (_subs W). rewrite Hg.
    cbv iota. rewrite ?bindM_assoc.
    rewrite (@bindM_ok _ _ (read_sub s) _ (set_spawned l W) x (set_spawned l W))
      by (apply read_sub_ok; exact Hx).
    destruct (SubscriptionState_eqb (sub_state x) SUBSCRIBING); cbn [when].
    + unfold ensure_future. rewrite bindM_modify. cbv beta.
      change (set_spawned (spawned (set_spawned l W) ++ [task_subscribe channel])
                (set_spawned l W))
        with (set_spawned (l ++ [task_subscribe channel]) W).
      unfold rest. rewrite IH by (intros c Hc; apply Hall; now right).
      cbn [map]. now rewrite <- app_assoc.
    + rewrite bindM_ret. unfold rest. apply IH. intros c Hc. apply Hall. now right.
Qed.

(** After [on_connected], [_create_connection] resets the reconnect
    attempts, forgets the reconnect timer and spawns the subscribe task for
    each channel whose subscription is SUBSCRIBING, in the order of the
    map; the subscriptions in other states get no task. *)
Theorem connected_end_resubscribes (w : World) :
  subs_valid w ->
  exists w',
    _connected_end w = (Ok tt, w')
    /\ spawned w' = spawned w ++ map task_subscribe (subscribing_channels w)
    /\ _reconnect_attempts w' = 0
    /\ _reconnect_timer w' = None
    /\ state w' = state w
    /\ _subs w' = _subs w.
Proof.
  intros Hv. unfold _connected_end.
  rewrite (@bindM_ok _ _ _ _ _ _ _ (_clear_connecting_state_closed w)).
  set (W := set__reconnect_timer None
              (set_heap_timers (cancel_opt (_reconnect_timer w) (heap_timers w))
                 (set__reconnect_attempts 0 w))).
  rewrite bindM_get. cbv beta.
  change (_subs W) with (_subs w).
  match goal with
  | |- context [for_each ?c ?b W] =>
      change (for_each c b W) with (for_each c b (set_spawned (spawned w) W))
  end.
  rewrite connected_end_loop.
  - eexists. split; [reflexivity|]. unfold subscribing_channels. wcbn.
    auto 10.
  - intros channel Hin.
    destruct (dict_get_of_key (_subs w) channel Hin) as (s & E & Hs).
    unfold subs_valid in Hv. rewrite Forall_forall in Hv.
    specialize (Hv s Hs).
    destruct (nth_error (heap_subs w) s) as [x|] eqn:Ex.
    + exists s, x. split; [exact E|exact Ex].
    + apply nth_error_None in Ex. lia.
Qed.

(** ** Payloads and [publish] *)

Context {encoder : Encoder}.

(** What [_encode_data] accepts depends on the protocol.  A JSON client
    sends any payload but bytes as it is, and [_decode_data] gives it back
    unchanged; bytes raise [CentrifugeError].  A protobuf client sends
    bytes only, base64-encoded, and raises [CentrifugeError] for anything
    else; [_decode_data] leaves bytes alone, so it does not undo the
    encoding. *)
Theorem encode_data_by_protocol (w : World) (data : Data) (b : string) :
  (forall bytes, data <> data_bytes bytes) ->
  (_use_protobuf w = false ->
   _encode_data w data = Ok data
   /\ _decode_data w (Some data) = Some data
   /\ exists msg, _encode_data w (data_bytes b) = Raise (CentrifugeError msg))
  /\ (_use_protobuf w = true ->
      _encode_data w (data_bytes b) = Ok (data_bytes (b64encode b))
      /\ _decode_data w (Some (data_bytes (b64encode b)))
         = Some (data_bytes (b64encode b))
      /\ exists msg, _encode_data w data = Raise (CentrifugeError msg)).
Proof.
  intros Hnb. unfold _encode_data, _decode_data. split; intros ->.
  - split; [|split; [reflexivity|eauto]].
    destruct data; try reflexivity. now elim (Hnb b0).
  - split; [reflexivity|]. split; [reflexivity|].
    destruct data; eauto. now elim (Hnb b0).
Qed.

Lemma publish_issue w channel data timeout enc :
  _encode_data w data = Ok enc ->
  (let* cmd_id := _next_command_id in
   let* encoded := (fun w0 => (_encode_data w0 data, w0)) in
   let* t := get (fun w0 => match timeout with
                            | Some t => if truthy t then t else _timeout w0
                            | None => _timeout w0
                            end) in
   let* fut := _register_future cmd_id t in
   ret (cmd_publish cmd_id channel encoded, fut)) w
  = (Ok (cmd_publish (_id w + 1) channel enc, List.length (heap_futures w)),
     snd (_register_future (_id w + 1)
            match timeout with
            | Some t => if truthy t then t else _timeout w
            | None => _timeout w
            end (set__id (_id w + 1) w))).
Proof.
  intros He. unfold _next_command_id. msteps.
  assert (E : (fun w0 : World => (_encode_data w0 data, w0))
                (set__id (_id w + 1) w)
              = (Ok enc, set__id (_id w + 1) w)).
  { cbv beta. unfold _encode_data in *. wcbn. now rewrite He. }
  rewrite (@bindM_ok _ _ _ _ _ _ _ E). rewrite bindM_get. cbv beta.
  change (_timeout (set__id (_id w + 1) w)) with (_timeout w).
  change (_id (set__id (_id w + 1) w)) with (_id w + 1).
  destruct (register_future_facts (set__id (_id w + 1) w) (_id w + 1)
              match timeout with
              | Some t => if truthy t then t else _timeout w
              | None => _timeout w
              end) as (w1 & E1 & _).
  rewrite (@bindM_ok _ _ _ _ _ _ _ E1). rewrite E1. reflexivity.
Qed.

(** [publish] takes the command id first.  A payload that [_encode_data]
    refuses makes it raise there: the id is used up, no future is
    registered and nothing is sent.  Otherwise the command is registered
    and sent and the call waits for the reply: a reply with an error raises
    [ReplyError] with [temporary] false when the error does not say, a
    reply without one returns, and a failed future, the timeout included,
    raises its exception to the caller without any disconnect. *)
Theorem publish_outcomes (env : ExtCall -> ExtResult) (w : World)
    (channel : string) (data : Data) (timeout : option Q) (tr : list ExtCall) :
  (forall e, _encode_data w data = Raise e ->
             run env (publish channel data timeout) w tr
             = (set__id (_id w + 1) w, Throw e, tr))
  /\ (forall enc c,
         _encode_data w data = Ok enc ->
         _conn w = Some c ->
         env (ws_send c [cmd_publish (_id w + 1) channel enc]) = R_done ->
         exists w1 waiting,
           run env (publish channel data timeout) w tr
           = (w1, waiting, tr ++ [ws_send c [cmd_publish (_id w + 1) channel enc]])
           /\ option_map future (dict_get Z.eqb (_futures w1) (_id w + 1))
              = Some (List.length (heap_futures w))
           /\ (forall w2 tr2,
                  fut_status_of w2 (List.length (heap_futures w)) = Pending ->
                  run env waiting w2 tr2 = (w2, waiting, tr2))
           /\ (forall w2 tr2 reply,
                  fut_status_of w2 (List.length (heap_futures w))
                  = Result (VReply reply) ->
                  run env waiting w2 tr2
                  = (w2,
                     match reply_error reply with
                     | Some error =>
                         Throw (ReplyError (error_code error)
                                  (error_message error)
                                  (opt (error_temporary error) false))
                     | None => Ret tt
                     end, tr2))
           /\ (forall w2 tr2 e,
                  fut_status_of w2 (List.length (heap_futures w)) = Failed e ->
                  run env waiting w2 tr2 = (w2, Throw e, tr2))).
Proof.
  split.
  - intros e He. unfold publish. rewrite run_bind, run_atomic.
    unfold _next_command_id. msteps.
    assert (E : (fun w0 : World => (_encode_data w0 data, w0))
                  (set__id (_id w + 1) w)
                = (Raise e, set__id (_id w + 1) w)).
    { cbv beta. unfold _encode_data in *. wcbn. now rewrite He. }
    rewrite (@bindM_fail _ _ _ _ _ _ _ E). reflexivity.
  - intros enc c He Hc Henv. unfold publish. rewrite run_bind, run_atomic.
    rewrite (publish_issue w channel data timeout enc He).
    destruct (register_future_facts (set__id (_id w + 1) w) (_id w + 1)
                match timeout with
                | Some t => if truthy t then t else _timeout w
                | None => _timeout w
                end) as (w1 & E1 & _ & Hp & Hreg & _).
    rewrite E1. cbn [snd].
    assert (Hc1 : _conn w1 = Some c).
    { assert (H : respects (same _conn)
                    (_register_future (_id w + 1)
                       match timeout with
                       | Some t => if truthy t then t else _timeout w
                       | None => _timeout w
                       end)) by (mframe ltac:(reflexivity)).
      specialize (H (set__id (_id w + 1) w)). rewrite E1 in H.
      unfold same in H. cbn [snd] in H. rewrite H. exact Hc. }
    rewrite run_bind.
    assert (Es : run env (_send_commands [cmd_publish (_id w + 1) channel enc])
                   w1 tr
                 = (w1, Ret tt,
                    tr ++ [ws_send c [cmd_publish (_id w + 1) channel enc]])).
    { unfold _send_commands. rewrite run_bind, run_atomic. unfold get.
      rewrite Hc1. cbn [run]. now rewrite Henv. }
    rewrite Es. rewrite run_await_pending by exact Hp.
    eexists. eexists. split; [reflexivity|].
    split; [rewrite Hreg; reflexivity|].
    split; [intros w2 tr2 H; now apply run_await_pending|].
    split.
    + intros w2 tr2 reply H. rewrite run_await_result with (v := VReply reply)
        by exact H.
      cbn [as_reply bind run]. unfold _check_reply_error.
      destruct (reply_error reply) as [error|]; [|reflexivity].
      unfold _extract_error_details, opt. reflexivity.
    + intros w2 tr2 e H. cbn [run bind await_future]. rewrite H. reflexivity.
Qed.

(** ** Pings *)




(** ** Join and leave pushes *)

(** A join push (a leave push when there is no "join" key) goes to
    [on_join] ([on_leave]) of the subscription registered for its channel
    with the client info extracted from it, payloads decoded; for a channel
    that is not registered it is dropped.  A push with a "pub" key is never
    handled as join or leave. *)
Theorem presence_push_dispatch (env : ExtCall -> ExtResult) (w : World)
    (reply : Reply) (push : Push) (channel : string) (info : RawInfo)
    (tr : list ExtCall) :
  (forall id, reply_id reply = Some id -> id <= 0) ->
  reply_push reply = Some push ->
  push_channel push = Some channel ->
  push_pub push = None ->
  push_join push = Some info
  \/ (push_join push = None /\ push_leave push = Some info) ->
  let event := match push_join push with Some _ => on_join | None => on_leave end in
  (dict_get String.eqb (_subs w) channel = None ->
   run env (_process_reply reply) w tr = (w, Ret tt, tr))
  /\ (forall s,
         dict_get String.eqb (_subs w) channel = Some s ->
         run env (_process_reply reply) w tr
         = (w,
            match env (event s (_extract_client_info w info)) with
            | R_raise e => Throw e
            | _ => Ret tt
            end,
            tr ++ [event s (_extract_client_info w info)])).
Proof.
  intros Hid Hpush Hch Hpub Hkind event.
  assert (E : _process_reply reply = _process_presence event channel info).
  { unfold _process_reply.
    assert (Hz : (0 <? opt (reply_id reply) 0) = false).
    { destruct (reply_id reply) as [id|] eqn:Ei; cbn [opt]; [|reflexivity].
      apply Z.ltb_ge. now apply Hid. }
    rewrite Hz, Hpush.
    assert (Ht : push_truthy push = true)
      by (destruct push as [[?|] ? ? ? ? ?]; [reflexivity|discriminate]).
    rewrite Ht. unfold _process_push, channel_of. rewrite Hpub, Hch.
    subst event. destruct Hkind as [Hj|[Hj Hl]].
    - now rewrite Hj.
    - now rewrite Hj, Hl. }
  rewrite E. unfold _process_presence, get_subscription. split.
  - intros H. rewrite run_bind, run_atomic. mstep. now rewrite H.
  - intros s H. rewrite run_bind, run_atomic. mstep. rewrite H. msteps.
    unfold ret. apply run_call_handler.
Qed.


(** ** Entering SUBSCRIBED *)

Lemma require_client_ok w sub x :
  sub_of w sub = Some x -> sub_client x = true ->
  require_client sub w = (Ok tt, w).
Proof.
  intros HW Hx. unfold require_client.
  erewrite bindM_ok by (apply read_sub_ok; exact HW). now rewrite Hx.
Qed.

Lemma move_subscribed_begin_closed w sub s r :
  sub_of w sub = Some s ->
  sub_client s = true ->
  is_pending (heap_futures w) (sub_subscribed_future s) ->
  exists ctx,
    _move_subscribed_begin sub r w
    = (let w2 :=
         set_heap_futures
           (heap_update (heap_futures w) (sub_subscribed_future s)
              (with_status (Result VTrue)))
           (set_heap_subs
              (heap_update (heap_subs w) sub (set_sub_state SUBSCRIBED)) w) in
       if opt (subscribe_expires r) false
       then match subscribe_ttl r with
            | None => (Raise KeyError, w2)
            | Some ttl =>
                (Ok ctx,
                 set_heap_subs
                   (heap_update (heap_subs w2) sub
                      (set_sub_refresh_timer
                         (Some (List.length (heap_timers w)))))
                   (set_heap_timers
                      (heap_timers w
                       ++ [{| timer_delay := delay_ttl ttl;
                              timer_action := call_sub_refresh sub;
                              timer_status := Scheduled |}])
                      w2))
            end
       else (Ok ctx, w2))
    /\ sc_channel ctx = sub_channel s
    /\ sc_data ctx = _decode_data w (subscribe_data r).
Proof.
  intros Hs Hc Hp. eexists. split; [|split]; cycle 1.
  - shelve.
  - shelve.
  - unfold _move_subscribed_begin, update_sub. msteps.
    set (w1 := set_heap_subs _ w).
    assert (Hs1 : sub_of w1 sub = Some (set_sub_state SUBSCRIBED s))
      by (apply sub_of_update; exact Hs).
    erewrite bindM_ok by (apply read_sub_ok; exact Hs1).
    change (sub_subscribed_future (set_sub_state SUBSCRIBED s))
      with (sub_subscribed_future s).
    unfold set_result.
    erewrite bindM_ok by (apply resolve_pending; exact Hp).
    change (heap_futures w1) with (heap_futures w).
    set (w2 := set_heap_futures _ w1).
    assert (Hs2 : sub_of w2 sub = Some (set_sub_state SUBSCRIBED s))
      by exact Hs1.
    cbv zeta.
    destruct (opt (subscribe_expires r) false) eqn:Ee.
    + destruct (subscribe_ttl r) as [ttl|] eqn:Et.
      * rewrite !bindM_assoc.
        erewrite bindM_ok
          by (exact (require_client_ok w2 sub _ Hs2 Hc)).
        rewrite !bindM_assoc. unfold call_later at 1. msteps.
        match goal with
        | |- context [bindM (require_client sub) _ ?W] => set (w3 := W)
        end.
        assert (Hs3 : sub_of w3 sub
                      = Some (set_sub_refresh_timer
                                (Some (List.length (heap_timers w)))
                                (set_sub_state SUBSCRIBED s)))
          by (exact (sub_of_update _ sub _ _ Hs2)).
        erewrite bindM_ok
          by (exact (require_client_ok w3 sub _ Hs3 Hc)).
        msteps. unfold ret.
        match goal with
        | |- context [_decode_data ?W ?d] =>
            change (_decode_data W d) with (_decode_data w d)
        end.
        reflexivity.
      * msteps. reflexivity.
    + msteps.
      erewrite bindM_ok by (exact (require_client_ok w2 sub _ Hs2 Hc)).
      msteps. unfold ret.
      match goal with
      | |- context [_decode_data ?W ?d] =>
          change (_decode_data W d) with (_decode_data w d)
      end.
      reflexivity.
  Unshelve.
  all: reflexivity.
Qed.

(** [_move_subscribed] up to its first suspension point, on a subscription
    whose "subscribed" future is unresolved: the subscription is SUBSCRIBED
    and the future holds True in every case.  Without expiry no timer is
    armed; with expiry and a ttl the refresh timer is armed for the ttl;
    with expiry and no ttl [subscribe["ttl"]] raises [KeyError] after the
    state change, so [on_subscribed] is not called. *)
Theorem move_subscribed_effect (w : World) (sub : SubId) (s : Subscription)
    (r : SubscribeResult) :
  sub_of w sub = Some s ->
  sub_client s = true ->
  is_pending (heap_futures w) (sub_subscribed_future s) ->
  exists w' s',
    snd (_move_subscribed_begin sub r w) = w'
    /\ sub_of w' sub = Some s'
    /\ sub_state s' = SUBSCRIBED
    /\ sub_subscribed_future s' = sub_subscribed_future s
    /\ fut_status_of w' (sub_subscribed_future s) = Result VTrue
    /\ (opt (subscribe_expires r) false = false ->
        (exists ctx, fst (_move_subscribed_begin sub r w) = Ok ctx
                     /\ sc_channel ctx = sub_channel s
                     /\ sc_data ctx = _decode_data w (subscribe_data r))
        /\ heap_timers w' = heap_timers w
        /\ sub_refresh_timer s' = sub_refresh_timer s)
    /\ (forall ttl,
           opt (subscribe_expires r) false = true ->
           subscribe_ttl r = Some ttl ->
           (exists ctx, fst (_move_subscribed_begin sub r w) = Ok ctx)
           /\ sub_refresh_timer s' = Some (List.length (heap_timers w))
           /\ nth_error (heap_timers w') (List.length (heap_timers w))
              = Some {| timer_delay := delay_ttl ttl;
                        timer_action := call_sub_refresh sub;
                        timer_status := Scheduled |})
    /\ (opt (subscribe_expires r) false = true ->
        subscribe_ttl r = None ->
        fst (_move_subscribed_begin sub r w) = Raise KeyError
        /\ heap_timers w' = heap_timers w).
Proof.
  intros Hs Hc Hp.
  destruct (move_subscribed_begin_closed w sub s r Hs Hc Hp)
    as (ctx & E & Hch & Hdata).
  rewrite E. clear E. cbv zeta.
  set (w1 := set_heap_subs _ w).
  set (w2 := set_heap_futures _ w1).
  assert (Hs2 : sub_of w2 sub = Some (set_sub_state SUBSCRIBED s))
    by (apply (sub_of_update w sub _ s Hs)).
  assert (Hf2 : fut_status_of w2 (sub_subscribed_future s) = Result VTrue).
  { apply (status_update_eq w2 (heap_futures w));
      [reflexivity | apply is_pending_lt, Hp]. }
  destruct (opt (subscribe_expires r) false) eqn:Ee.
  - destruct (subscribe_ttl r) as [ttl|] eqn:Et; cbn [fst snd].
    + eexists. eexists. split; [reflexivity|].
      split; [exact (sub_of_update w2 sub _ _ Hs2)|].
      split; [reflexivity|]. split; [reflexivity|]. split; [exact Hf2|].
      split; [discriminate|]. split; [|discriminate].
      intros ttl0 _ [= <-]. split; [eexists; reflexivity|].
      split; [reflexivity|]. wcbn. apply nth_error_alloc_new.
    + exists w2. eexists. split; [reflexivity|]. split; [exact Hs2|].
      split; [reflexivity|]. split; [reflexivity|]. split; [exact Hf2|].
      split; [discriminate|]. split; [discriminate|].
      intros _ _. split; reflexivity.
  - cbn [fst snd].
    exists w2. eexists. split; [reflexivity|]. split; [exact Hs2|].
    split; [reflexivity|]. split; [reflexivity|]. split; [exact Hf2|].
    split.
    { intros _. split; [|split; reflexivity].
      exists ctx. split; [reflexivity|]. split; assumption. }
    split; [discriminate|]. discriminate.
Qed.

(** ** Resubscribing *)


(** ** A token provider that fails during the subscription refresh *)

(** [_sub_refresh] asks the provider of the subscription for a token
    before it takes a command id.  When the provider raises anything but
    [UnauthorizedError], the subscription's [on_error] is told the
    SUBSCRIPTION_SUBSCRIBE_TOKEN code and the task of
    [_schedule_resubscribe] is spawned; no id is used and nothing is sent.
    That task does nothing on a subscription that is not SUBSCRIBING, so a
    SUBSCRIBED subscription stays as it is, with no refresh timer armed
    again. *)
Theorem sub_refresh_token_failure (env : ExtCall -> ExtResult) (w : World)
    (channel : string) (sub : SubId) (x : Subscription) (e : Exc)
    (tr : list ExtCall) :
  dict_get String.eqb (_subs w) channel = Some sub ->
  sub_of w sub = Some x ->
  sub_get_token x = true ->
  env (call_sub_get_token sub channel) = R_raise e ->
  e <> UnauthorizedError ->
  (forall e',
      env (on_subscription_error sub
             (_code_number ErrorCode_SUBSCRIPTION_SUBSCRIBE_TOKEN) e)
      <> R_raise e') ->
  run env (_sub_refresh channel) w tr
  = (set_spawned (spawned w ++ [task_sub_schedule_resubscribe sub]) w,
     Ret tt,
     tr ++ [call_sub_get_token sub channel;
            on_subscription_error sub
              (_code_number ErrorCode_SUBSCRIPTION_SUBSCRIBE_TOKEN) e])
  /\ (sub_state x <> SUBSCRIBING ->
      forall fuel tr1,
        run env (task_body fuel (task_sub_schedule_resubscribe sub))
            (set_spawned (spawned w ++ [task_sub_schedule_resubscribe sub]) w)
            tr1
        = (set_spawned (spawned w ++ [task_sub_schedule_resubscribe sub]) w,
           Ret tt, tr1)).
Proof.
  intros Hsub Hx Hgt Henv Hne Hh. split.
  - unfold _sub_refresh, get_subscription.
    rewrite run_bind, run_atomic. mstep. rewrite Hsub.
    erewrite bindM_ok by (apply read_sub_ok; exact Hx).
    unfold ret. cbv beta iota. rewrite Hgt. cbn [negb run].
    rewrite Henv. cbn [as_token].
    replace (tr ++ [call_sub_get_token sub channel;
                    on_subscription_error sub
                      (_code_number ErrorCode_SUBSCRIPTION_SUBSCRIBE_TOKEN) e])
      with ((tr ++ [call_sub_get_token sub channel])
            ++ [on_subscription_error sub
                  (_code_number ErrorCode_SUBSCRIPTION_SUBSCRIBE_TOKEN) e])
      by (now rewrite <- app_assoc).
    assert (Hq : forall k : unit -> Co unit,
               run env
                 (bind
                    (call_handler
                       (on_subscription_error sub
                          (_code_number ErrorCode_SUBSCRIPTION_SUBSCRIBE_TOKEN)
                          e))
                    k)
                 w (tr ++ [call_sub_get_token sub channel])
               = run env (k tt) w
                   ((tr ++ [call_sub_get_token sub channel])
                    ++ [on_subscription_error sub
                          (_code_number ErrorCode_SUBSCRIPTION_SUBSCRIBE_TOKEN)
                          e])).
    { intros k. rewrite run_bind, run_call_handler.
      destruct (env (on_subscription_error sub
                       (_code_number ErrorCode_SUBSCRIPTION_SUBSCRIBE_TOKEN) e))
        as [| | |e'] eqn:Ee; try reflexivity.
      now elim (Hh e'). }
    destruct e; try (now elim Hne); rewrite Hq; reflexivity.
  - intros Hst fuel tr1. cbn [task_body]. rewrite run_atomic.
    unfold _schedule_resubscribe.
    erewrite bindM_ok by (apply read_sub_ok; exact Hx).
    assert (Hn : negb (SubscriptionState_eqb (sub_state x) SUBSCRIBING) = true)
      by (destruct (sub_state x); [reflexivity|now elim Hst|reflexivity]).
    now rewrite Hn.
Qed.

End Facts.

(** * Evaluations on sample inputs *)

Example sample_connected_state :
  state sample_connected = CONNECTED
  /\ _conn sample_connected = Some 0%nat
  /\ fut_status_of sample_connected (_connected_future sample_connected) = Result VTrue
  /\ _futures sample_connected = [].
Proof. vm_compute. auto. Qed.

(** ** Sample worlds are well formed *)

Lemma sample_connected_registry_ok : registry_ok sample_connected.
Proof. split; vm_compute; constructor. Qed.

Lemma sample_peer_closed_registry_ok : registry_ok sample_peer_closed.
Proof. split; vm_compute; constructor. Qed.

Lemma sample_connected_subs_valid : subs_valid sample_connected.
Proof. unfold subs_valid. vm_compute. repeat constructor. Qed.

Lemma sample_connecting_registry_ok : registry_ok sample_connecting.
Proof.
  split.
  - vm_compute. repeat constructor. intros [].
  - vm_compute. repeat constructor; simpl; intuition discriminate.
  - vm_compute. repeat constructor; eexists; reflexivity.
Qed.

Lemma sample_connecting_subs_valid : subs_valid sample_connecting.
Proof. unfold subs_valid. vm_compute. repeat constructor. Qed.

(** ** Transport close with a server code *)

Lemma listen_closed_policy_witness :
  run quiet _listen_closed sample_peer_closed []
  = run quiet (_disconnect 3500 "shutdown"%string
                 (negb (in_reconnect_range 3500))) sample_peer_closed []
  /\ _process_disconnect {| cr_code := 3500; cr_reason := "shutdown"%string |}
     = _disconnect 3500 "shutdown"%string (in_reconnect_range 3500).
Proof.
  destruct (listen_closed_policy quiet sample_peer_closed 0%nat
              {| conn_state := WS_CLOSED; close_code := Some 3500;
                 close_reason := "shutdown"%string |} 3500 [])
    as (H1 & _ & _ & H4); try (vm_compute; reflexivity).
  split; [apply H1; lia | exact H4].
Defined.

(** The server closes the transport of a connected client with 3500: the
    receive loop ends the client DISCONNECTED with no reconnect scheduled,
    while the disconnect push with the same code leaves it CONNECTING with
    the reconnect task spawned. *)
Example listen_close_3500_is_terminal :
  (let w := world_after _listen_closed sample_peer_closed in
   state w = DISCONNECTED
   /\ _need_reconnect w = false
   /\ spawned w = spawned sample_peer_closed)
  /\ (let w := world_after
                 (_process_disconnect
                    {| cr_code := 3500; cr_reason := "shutdown"%string |})
                 sample_peer_closed in
      state w = CONNECTING
      /\ _need_reconnect w = true
      /\ spawned w = spawned sample_peer_closed ++ [task_schedule_reconnect]).
Proof. vm_compute. auto 10. Qed.

(** ** A disconnect push on the connected client *)


(** ** Resolving the connect command of the sample client *)



(** ** Internal disconnect and the registry *)

Lemma disconnect_clears_registry_witness :
  exists w' tr',
    run quiet (_disconnect 1 "transport closed"%string true) sample_connecting []
    = (w', Ret tt, tr')
    /\ _futures w' = []
    /\ fut_status_of w' 2%nat
       = Failed (ClientDisconnectedError (command_canceled 1)).
Proof.
  destruct (disconnect_clears_registry sample_connecting 1
              "transport closed"%string true []
              sample_connecting_registry_ok)
    as (w' & tr' & E & H1 & _).
  - vm_compute. repeat constructor.
  - exact sample_connecting_subs_valid.
  - exists w', tr'. split; [exact E|].
    destruct H1 as (A & B); [vm_compute; discriminate|].
    split; [exact A|].
    apply (B 1 {| future := 2%nat; done := Some 3%nat; timeout := Some 0%nat |}).
    vm_compute. now left.
Defined.

(** The client never connected and holds the unsubscribe command of
    [sample_offline]: an internal disconnect returns at the state guard,
    the command stays in the registry and its future stays unresolved. *)
Example disconnect_guard_keeps_registry :
  state sample_offline = DISCONNECTED
  /\ dict_keys (_futures sample_offline) = [1]
  /\ dict_keys
       (_futures (world_after (_disconnect 0 "disconnect called"%string false)
                    sample_offline)) = [1]
  /\ fut_status_of
       (world_after (_disconnect 0 "disconnect called"%string false)
          sample_offline) 2%nat = Pending.
Proof. vm_compute. auto. Qed.

(** ** The "connected" future of the sample client *)

Lemma connected_future_discipline_witness :
  connected_signal_ok (snd (connect_begin sample_connected))
  /\ exists w' tr',
       run quiet (_disconnect 3000 "bad request"%string false) sample_connected []
       = (w', Ret tt, tr')
       /\ connected_signal_ok w'.
Proof.
  destruct (connected_future_discipline sample_connected 3000
              "bad request"%string false [] sample_connected_registry_ok)
    as (_ & H2 & _ & _ & H5).
  - vm_compute. repeat constructor.
  - exact sample_connected_subs_valid.
  - vm_compute. exact I.
  - split; [exact H2 | exact H5].
Defined.

(** [disconnect()] on the connected client: it ends DISCONNECTED with the
    "connected" future failed. *)
Example terminal_disconnect_fails_connected_future :
  state (world_after disconnect sample_connected) = DISCONNECTED
  /\ fut_status_of (world_after disconnect sample_connected)
       (_connected_future (world_after disconnect sample_connected))
     = Failed (ClientDisconnectedError
                 (client_disconnected 0 "disconnect called"%string)).
Proof. vm_compute. auto. Qed.

(** ** The barrier on the sample client *)

Lemma reply_waits_for_barrier_witness :
  exists w' waiting,
    run quiet (_future_success 1 sample_connect_reply) sample_connecting []
    = (w', waiting, [])
    /\ fut_status_of w' 2%nat = Result (VReply sample_connect_reply)
    /\ dict_get Z.eqb (_futures w') 1 = None
    /\ fut_status_of w' 3%nat = Pending
    /\ exists frame_waiting,
         run quiet (_process_incoming_data
                      [sample_connect_reply; sample_publication])
             sample_connecting []
         = (w', frame_waiting, []).
Proof.
  destruct (reply_waits_for_barrier quiet sample_connecting 1
              {| future := 2%nat; done := Some 3%nat; timeout := Some 0%nat |}
              3%nat sample_connect_reply [sample_publication] [])
    as ((w' & waiting & E & H1 & H2 & _ & H4 & _ & _ & fw & E2 & _) & _).
  - reflexivity.
  - lia.
  - vm_compute. reflexivity.
  - vm_compute. repeat constructor. intros [].
  - reflexivity.
  - discriminate.
  - vm_compute. eexists. reflexivity.
  - vm_compute. eexists. reflexivity.
  - exists w', waiting. repeat split; auto. exists fw. exact E2.
Defined.

(** A frame with the connect reply and a publication: the frame waits at
    the barrier with no handler called; [connect()] goes on, calls
    [on_connected] and signals the barrier; only then the publication is
    dispatched. *)
Example publication_after_on_connected :
  let '(w1, connecting, tr1) :=
    run quiet connect
      (snd (new_subscription "news"%string EmptyString false
              (__init__ "t"%string false false 5%Q))) [] in
  let '(w2, processing, tr2) :=
    run quiet (_process_incoming_data [sample_connect_reply; sample_publication])
        w1 tr1 in
  let '(w3, _, tr3) := run quiet connecting w2 tr2 in
  let '(w4, _, tr4) := run quiet processing w3 tr3 in
  tr2 = tr1
  /\ fut_status_of w2 3%nat = Pending
  /\ tr3 = tr1 ++ [on_connected (Some "abc"%string) EmptyString None]
  /\ fut_status_of w3 3%nat = Result VTrue
  /\ tr4 = tr3 ++ [on_publication 0%nat
                     {| publication_offset := 7; publication_data := None;
                        publication_info := None |}].
Proof. vm_compute. auto 10. Qed.

(** ** Scenario S3: the token has expired *)


(** ** [subscribe()] after [unsubscribe()] *)

Lemma subscribe_effect_witness :
  exists w',
    run quiet (subscribe 0%nat) sample_offline []
    = (w', Ret tt, [on_subscribing 0%nat 0 "subscribe called"%string])
    /\ heap_futures w' = heap_futures sample_offline
    /\ fst (_move_subscribed_begin 0%nat empty_subscribe_result w')
       = Raise InvalidStateError.
Proof.
  destruct (subscribe_effect sample_offline 0%nat
              {| sub_channel := "news"%string; sub_state := UNSUBSCRIBED;
                 sub_subscribed_future := 1%nat; sub_client := true;
                 sub_token := EmptyString; sub_get_token := false;
                 sub_resubscribe_attempts := 0; sub_refresh_timer := None;
                 sub_resubscribe_timer := None |} [])
    as (_ & H); [reflexivity|].
  destruct H as (w' & E & _ & H2 & _ & _ & H5); [discriminate|reflexivity|].
  exists w'. split; [exact E|]. split; [exact H2|].
  apply H5. reflexivity.
Defined.

(** [subscribe()], [unsubscribe()], [subscribe()]: the subscription is
    SUBSCRIBING and its "subscribed" future is still the one that
    [unsubscribe()] failed; the subscribe reply then raises at
    [set_result]. *)
Example subscribe_keeps_resolved_future :
  option_map sub_state (sub_of sample_resubscribed 0%nat) = Some SUBSCRIBING
  /\ option_map sub_subscribed_future (sub_of sample_resubscribed 0%nat)
     = option_map sub_subscribed_future (sub_of sample_offline 0%nat)
  /\ fut_status_of sample_resubscribed 1%nat
     = Failed SubscriptionUnsubscribedError
  /\ fst (_move_subscribed_begin 0%nat empty_subscribe_result sample_resubscribed)
     = Raise InvalidStateError.
Proof. vm_compute. auto. Qed.

(** ** The unsubscribe command of the sample client times out *)


(** [unsubscribe()] on the connected client, the timer of the command
    fires: the client tells [on_disconnected] the UNSUBSCRIBE_ERROR code,
    is CONNECTING again and has the reconnect task spawned. *)
Example unsubscribe_timeout_reconnects :
  let '(w1, waiting, tr1) := run quiet (unsubscribe 0%nat) sample_subscribing [] in
  let w2 := snd (fire (timeout_cb 2 4%nat) w1) in
  let '(w3, _, tr3) := run quiet waiting w2 tr1 in
  state w1 = CONNECTED
  /\ tr3 = tr1 ++ [ws_close 0%nat; on_disconnected 4 "unsubscribe error"%string]
  /\ state w3 = CONNECTING
  /\ spawned w3 = spawned w1 ++ [task_schedule_reconnect].
Proof. vm_compute. auto. Qed.

(** ** The subscription map of the sample client *)

Lemma one_subscription_per_channel_witness :
  new_subscription "news"%string EmptyString false sample_connected
  = (Raise (DuplicateSubscriptionError "news"%string), sample_connected)
  /\ exists w',
       remove_subscription (Some 0%nat) sample_connected = (Ok tt, w')
       /\ dict_get String.eqb (_subs w') "news"%string = None.
Proof.
  destruct (one_subscription_per_channel sample_connected "news"%string 0%nat)
    as (H1 & _ & _ & H4 & _).
  - reflexivity.
  - vm_compute. repeat constructor. intros [].
  - split; [apply H1|].
    destruct (H4 {| sub_channel := "news"%string; sub_state := UNSUBSCRIBED;
                    sub_subscribed_future := 1%nat; sub_client := true;
                    sub_token := EmptyString; sub_get_token := false;
                    sub_resubscribe_attempts := 0; sub_refresh_timer := None;
                    sub_resubscribe_timer := None |})
      as (w' & E & H & _); try reflexivity.
    exists w'. split; [exact E | exact H].
Defined.

(** ** Further evaluations on the sample client *)

Lemma schedule_reconnect_effect_witness :
  exists w',
    _schedule_reconnect sample_reconnecting = (Ok tt, w')
    /\ state w' = CONNECTING
    /\ _reconnect_timer sample_reconnecting = Some 1%nat
    /\ _reconnect_timer w' = Some 2%nat
    /\ nth_error (heap_timers w') 1 = nth_error (heap_timers sample_reconnecting) 1
    /\ option_map timer_status (nth_error (heap_timers w') 1) = Some Scheduled.
Proof.
  destruct (schedule_reconnect_effect sample_reconnecting) as (_ & _ & H).
  - reflexivity.
  - destruct H as (w' & E & H1 & _ & _ & H4 & _ & H6).
    + vm_compute. discriminate.
    + intros c [= <-]. reflexivity.
    + exists w'. split; [exact E|]. split; [rewrite H1; reflexivity|].
      split; [reflexivity|]. split; [exact H4|].
      assert (H := H6 1%nat). split.
      * apply H. vm_compute. lia.
      * rewrite H by (vm_compute; lia). reflexivity.
Defined.

Lemma late_reply_is_dropped_witness :
  run quiet (_process_reply
               {| reply_id := Some 7; reply_error := None; reply_connect := None;
                  reply_subscribe := None; reply_refresh := None;
                  reply_sub_refresh := None;
                  reply_push := reply_push sample_publication |})
      sample_connected []
  = (sample_connected, Ret tt, []).
Proof.
  apply (late_reply_is_dropped quiet sample_connected _ 7 []).
  - reflexivity.
  - lia.
  - reflexivity.
Defined.

Lemma publication_push_dispatch_witness :
  run quiet (_process_reply sample_publication) sample_connected []
  = (sample_connected, Ret tt,
     [on_publication 0%nat
        {| publication_offset := 7; publication_data := None;
           publication_info := None |}])
  /\ option_map sub_state (sub_of sample_connected 0%nat) = Some UNSUBSCRIBED.
Proof.
  destruct (publication_push_dispatch quiet sample_connected sample_publication
              {| push_channel := Some "news"%string;
                 push_pub := Some {| pub_offset := Some 7; pub_data := None;
                                     pub_info := None |};
                 push_join := None; push_leave := None;
                 push_unsubscribe := None; push_disconnect := None |}
              "news"%string
              {| pub_offset := Some 7; pub_data := None; pub_info := None |} [])
    as (_ & H); try reflexivity.
  - intros id [=].
  - split; [|reflexivity]. apply (H 0%nat). reflexivity.
Defined.

Lemma move_subscribing_renews_future_witness :
  exists w' s',
    move_subscribing_begin 0%nat sample_offline = (Ok true, w')
    /\ sub_of w' 0%nat = Some s'
    /\ fut_status_of sample_offline 1%nat = Failed SubscriptionUnsubscribedError
    /\ sub_subscribed_future s' = 3%nat
    /\ fut_status_of w' 3%nat = Pending.
Proof.
  destruct (move_subscribing_renews_future sample_offline 0%nat
              (sample_subscription UNSUBSCRIBED)) as (_ & H); [reflexivity|].
  destruct H as (w' & s' & E & Hs & _ & Hp & Hd & _); [discriminate|].
  exists w', s'. split; [exact E|]. split; [exact Hs|].
  split; [reflexivity|].
  assert (E3 : sub_subscribed_future s' = 3%nat) by (apply Hd; reflexivity).
  split; [exact E3|]. rewrite <- E3. exact Hp.
Defined.

Lemma move_unsubscribed_fails_future_witness :
  exists w' s',
    _move_unsubscribed_begin 0%nat sample_subscribing = (Ok true, w')
    /\ sub_of w' 0%nat = Some s'
    /\ sub_state s' = UNSUBSCRIBED
    /\ fut_status_of w' (sub_subscribed_future s')
       = Failed SubscriptionUnsubscribedError
    /\ _move_unsubscribed_begin 0%nat w' = (Ok false, w').
Proof.
  destruct (move_unsubscribed_fails_future sample_subscribing 0%nat
              (sample_subscription SUBSCRIBING)) as (_ & H).
  - reflexivity.
  - vm_compute. lia.
  - apply H. discriminate.
Defined.

Lemma barrier_exit_after_error_raises_witness :
  run quiet
    (_register_future_with_done 1 5%Q
       (fun _ => atomic (_future_error 1 OperationTimeoutError)))
    (__init__ "t"%string false false 5%Q) []
  = (snd (_future_error 1 OperationTimeoutError
            (snd (_register_future_with_done_enter 1 5%Q
                    (__init__ "t"%string false false 5%Q)))),
     Throw InvalidStateError, []).
Proof.
  apply (barrier_exit_after_error_raises quiet unit
           (fun _ => atomic (_future_error 1 OperationTimeoutError)) 1 5%Q
           (__init__ "t"%string false false 5%Q)
           (snd (_register_future_with_done_enter 1 5%Q
                   (__init__ "t"%string false false 5%Q)))
           _ 1%nat 2%nat [] [] (Ret tt)).
  - vm_compute. reflexivity.
  - vm_compute. reflexivity.
  - left. exists tt. reflexivity.
  - vm_compute. reflexivity.
Defined.

(** The connect command times out: the timer fails the command and
    signals the barrier; [connect()] tells [on_error] the TIMEOUT code, arms
    the reconnect timer and then raises [InvalidStateError] on the way out
    of the barrier block. *)
Example connect_timeout_raises_invalid_state :
  let '(w1, connecting, tr1) :=
    run quiet connect
      (snd (new_subscription "news"%string EmptyString false
              (__init__ "t"%string false false 5%Q))) [] in
  let w2 := snd (fire (timeout_cb 1 2%nat) w1) in
  let '(w3, ended, tr3) := run quiet connecting w2 tr1 in
  fut_status_of w2 2%nat = Failed OperationTimeoutError
  /\ fut_status_of w2 3%nat = Result VTrue
  /\ ended = Throw InvalidStateError
  /\ tr3 = tr1 ++ [ws_close 0%nat; on_error 1 OperationTimeoutError]
  /\ _reconnect_timer w3 = Some 1%nat.
Proof. vm_compute. auto 10. Qed.

Lemma subscribe_command_guards_witness :
  run quiet (_subscribe "news"%string) sample_connecting []
  = (sample_connecting, Ret None, []).
Proof.
  apply (subscribe_command_guards quiet sample_connecting "news"%string []).
  right. vm_compute. discriminate.
Defined.

Lemma remove_subscription_by_channel_witness :
  exists w',
    remove_subscription (Some 0%nat) sample_connected = (Ok tt, w')
    /\ dict_get String.eqb (_subs w') "news"%string = None
    /\ option_map sub_client (sub_of w' 0%nat) = Some false.
Proof.
  destruct (remove_subscription_by_channel sample_connected 0%nat
              (sample_subscription UNSUBSCRIBED)) as (_ & _ & H).
  - reflexivity.
  - reflexivity.
  - vm_compute. repeat constructor. intros [].
  - destruct (H 0%nat) as (w' & E & H1 & H2 & _); [reflexivity|].
    exists w'. auto.
Defined.

Lemma new_subscription_registers_witness :
  exists w',
    new_subscription "chat"%string EmptyString false sample_connected
    = (Ok 1%nat, w')
    /\ get_subscription "chat"%string w' = (Ok (Some 1%nat), w')
    /\ option_map sub_state (sub_of w' 1%nat) = Some UNSUBSCRIBED.
Proof.
  destruct (new_subscription_registers sample_connected "chat"%string
              EmptyString false) as (w' & E & H1 & _ & H3 & _).
  - reflexivity.
  - exists w'. split; [exact E|]. split; [exact H1|].
    change (option_map sub_state
              (sub_of w' (List.length (heap_subs sample_connected)))
            = Some UNSUBSCRIBED).
    rewrite H3. reflexivity.
Defined.

Lemma disconnect_when_disconnected_witness :
  exists w',
    run quiet (_disconnect 1 "transport closed"%string true) sample_offline []
    = (w', Ret tt, [])
    /\ state w' = DISCONNECTED
    /\ _messages w' = 1%nat
    /\ nth_error (heap_queues w') 0 = Some [None].
Proof.
  destruct (disconnect_when_disconnected quiet sample_offline 1
              "transport closed"%string true [])
    as (w' & E & H1 & _ & _ & _ & _ & _ & _ & H8 & _ & H10).
  - reflexivity.
  - exists w'. split; [exact E|]. split; [exact H1|]. split; [exact H8|].
    apply (H10 []). reflexivity.
Defined.

Lemma connect_reply_expiring_without_ttl_witness :
  exists w',
    _connected_begin sample_reply_without_ttl sample_connecting
    = (Raise KeyError, w')
    /\ state w' = CONNECTED
    /\ fut_status_of w' (_connected_future w') = Pending.
Proof.
  destruct (connect_reply_expiring_without_ttl sample_connecting
              sample_reply_without_ttl
              {| connect_client := Some "abc"%string; connect_version := None;
                 connect_data := None; connect_pong := None;
                 connect_ping := None; connect_expires := Some true;
                 connect_ttl := None |} "abc"%string)
    as (w' & E & H1 & _ & H3 & H4 & _); try reflexivity.
  exists w'. split; [exact E|]. split; [exact H1|].
  unfold fut_status_of. rewrite H3, H4. reflexivity.
Defined.

Lemma refresh_token_failure_witness :
  run (failing_provider OSError) _refresh (__init__ EmptyString true false 5%Q) []
  = (set__id 1 (__init__ EmptyString true false 5%Q), Ret tt,
     [call_get_token; on_error 6 OSError]).
Proof.
  destruct (refresh_token_failure (failing_provider OSError)
              (__init__ EmptyString true false 5%Q) OSError [])
    as (_ & H).
  - reflexivity.
  - reflexivity.
  - apply H. discriminate.
Defined.

Lemma connected_end_resubscribes_witness :
  exists w',
    _connected_end sample_subscribing = (Ok tt, w')
    /\ spawned w' = spawned sample_subscribing ++ [task_subscribe "news"%string].
Proof.
  destruct (connected_end_resubscribes sample_subscribing) as (w' & E & H & _).
  - unfold subs_valid. vm_compute. repeat constructor.
  - exists w'. split; [exact E|]. rewrite H. reflexivity.
Defined.

Lemma encode_data_by_protocol_witness :
  _encode_data sample_connected (data_json "{}"%string)
  = Ok (data_json "{}"%string)
  /\ _decode_data sample_connected (Some (data_json "{}"%string))
     = Some (data_json "{}"%string)
  /\ exists msg,
       _encode_data sample_connected (data_bytes "x"%string)
       = Raise (CentrifugeError msg).
Proof.
  destruct (encode_data_by_protocol sample_connected (data_json "{}"%string)
              "x"%string) as (H & _).
  - discriminate.
  - apply H. reflexivity.
Defined.


Lemma presence_push_dispatch_witness :
  run quiet (_process_reply sample_join) sample_connected []
  = (sample_connected, Ret tt,
     [on_join 0%nat
        {| ci_client := "abc"%string; ci_user := EmptyString;
           ci_conn_info := None; ci_chan_info := None |}]).
Proof.
  assert (H := presence_push_dispatch quiet sample_connected sample_join
                 sample_join_push "news"%string sample_join_info []).
  destruct H as (_ & H).
  - intros id [=].
  - reflexivity.
  - reflexivity.
  - reflexivity.
  - left. reflexivity.
  - apply (H 0%nat). reflexivity.
Defined.

Lemma move_subscribed_effect_witness :
  exists w' s',
    snd (_move_subscribed_begin 0%nat sample_expiring_subscribe
           sample_subscribing) = w'
    /\ sub_of w' 0%nat = Some s'
    /\ sub_state s' = SUBSCRIBED
    /\ fut_status_of w' 1%nat = Result VTrue
    /\ sub_refresh_timer s' = Some 2%nat.
Proof.
  destruct (move_subscribed_effect sample_subscribing 0%nat
              (sample_subscription SUBSCRIBING) sample_expiring_subscribe)
    as (w' & s' & E & Hs & Hst & _ & Hf & _ & Ht & _).
  - reflexivity.
  - reflexivity.
  - exists origin_subscribed. vm_compute. reflexivity.
  - exists w', s'. split; [exact E|]. split; [exact Hs|]. split; [exact Hst|].
    split; [exact Hf|].
    destruct (Ht 60) as (_ & H & _); [reflexivity|reflexivity|exact H].
Defined.


Lemma sub_refresh_token_failure_witness :
  run (failing_provider OSError) (_sub_refresh "news"%string)
      sample_with_provider []
  = (set_spawned [task_sub_schedule_resubscribe 0%nat] sample_with_provider,
     Ret tt,
     [call_sub_get_token 0%nat "news"%string;
      on_subscription_error 0%nat 8 OSError]).
Proof.
  destruct (sub_refresh_token_failure (failing_provider OSError)
              sample_with_provider "news"%string 0%nat
              {| sub_channel := "news"%string; sub_state := UNSUBSCRIBED;
                 sub_subscribed_future := 1%nat; sub_client := true;
                 sub_token := EmptyString; sub_get_token := true;
                 sub_resubscribe_attempts := 0; sub_refresh_timer := None;
                 sub_resubscribe_timer := None |} OSError [])
    as (H & _).
  - reflexivity.
  - reflexivity.
  - reflexivity.
  - reflexivity.
  - discriminate.
  - intros e'. discriminate.
  - exact H.
Defined.

